(** * Entra ID -> Netskope SCIM group reconciliation

    A shallow embedding of the two scripts of the repository,

      - [UpdateEntraUsers.py]     (HTTP through [requests]),  module [Requests];
      - [updateUsersURLlib3.py]   (HTTP through [urllib3]),   module [Urllib3];

    and the properties of their pagination, error policy, diff and patch
    construction.

    Modelling conventions.

    - A decoded JSON document (what [response.json()] / [json.loads] returns)
      is a value of [json].  Numbers are the integers; documents with
      fractional numbers are outside the model.  A Python [dict] with string
      keys is an association list in insertion order, looked up from the left.
    - A Python [str] is a [string]; one [ascii] stands for one character
      (code points U+0000 .. U+00FF).
    - [None] is [JNull].
    - An f-string is kept unevaluated, as the list of its literal and
      interpolated pieces ([text]).
    - The outside world (Microsoft Graph, the Netskope SCIM service, the MSAL
      token client) is an arbitrary state machine [serve] that answers one
      request at a time.  Every response body is the JSON document it
      carries; a body that is not JSON is outside the model.
    - A computation returns its outcome, the events it emitted (requests
      with their responses, log records, printed lines, sleeps) and the final
      state of the world.  The [while] loops take fuel: one unit per
      iteration, [OutOfFuel] when it is used up. *)

From Stdlib Require Import List ZArith Bool Ascii String Lia.
Import ListNotations.
Local Open Scope string_scope.
Local Open Scope list_scope.
Local Open Scope Z_scope.

(** ** JSON documents and Python values *)

Unset Elimination Schemes.
Inductive json : Type :=
| JNull
| JBool (b : bool)
| JNum (n : Z)
| JStr (s : string)
| JArr (l : list json)
| JObj (m : list (string * json)).
Set Elimination Schemes.

(** The exceptions the scripts can meet. *)
Inductive exn : Type :=
| RequestException (response : option (Z * json))
    (* requests.exceptions.RequestException: raised by requests.get/patch
       (with a response attached, as TooManyRedirects has, or with none) or
       by raise_for_status (the response attached) *)
| Urllib3Error
    (* raised by http.request *)
| HttpStatusError (function_name : string) (status : Z) (error_body : json)
    (* Exception(f"{function_name}: HTTP Error {status} - {error_body}") *)
| TokenError (result : json)
    (* Exception(f"Entra: Failed to obtain access token: {result}") *)
| MsalError
    (* raised inside the MSAL client *)
| KeyError
| IndexError
| AttributeError
| TypeError.

(** [isinstance(e, requests.exceptions.RequestException)] *)
Definition is_RequestException (e : exn) : bool :=
  match e with RequestException _ => true | _ => false end.

(** [isinstance(e, KeyError)] *)
Definition is_KeyError (e : exn) : bool :=
  match e with KeyError => true | _ => false end.

(** Result of a pure Python expression: a value or a raised exception. *)
Inductive res (A : Type) : Type :=
| Ok (a : A)
| Err (e : exn).
Arguments Ok {A} a.
Arguments Err {A} e.

Definition rbind {A B} (r : res A) (k : A -> res B) : res B :=
  match r with Ok a => k a | Err e => Err e end.

Notation "'let?' x ':=' r 'in' k" := (rbind r (fun x => k))
  (at level 10, x name, r at level 100, k at level 200).

(** *** Strings *)

(** [c.lower()] on one character of U+0000 .. U+00FF. *)
Definition lower_ascii (c : ascii) : ascii :=
  let n := N_of_ascii c in
  if ((65 <=? n) && (n <=? 90))%N then ascii_of_N (n + 32)
  else if ((192 <=? n) && (n <=? 222) && negb (n =? 215))%N then ascii_of_N (n + 32)
  else c.

(** [s.lower()] *)
Fixpoint lower (s : string) : string :=
  match s with
  | EmptyString => EmptyString
  | String c s' => String (lower_ascii c) (lower s')
  end.

(** [needle in s] for two strings: [needle] occurs in [s]. *)
Fixpoint substring_of (needle s : string) : bool :=
  String.prefix needle s ||
  match s with
  | EmptyString => false
  | String _ s' => substring_of needle s'
  end.

(** The characters of a string, each as a one-character string. *)
Fixpoint chars (s : string) : list json :=
  match s with
  | EmptyString => []
  | String c s' => JStr (String c EmptyString) :: chars s'
  end.

(** *** Dictionaries *)

Fixpoint lookup (k : string) (m : list (string * json)) : option json :=
  match m with
  | [] => None
  | (k', v) :: m' => if String.eqb k k' then Some v else lookup k m'
  end.

(** [bool(j)] *)
Definition truthy (j : json) : bool :=
  match j with
  | JNull => false
  | JBool b => b
  | JNum n => negb (n =? 0)
  | JStr s => match s with EmptyString => false | _ => true end
  | JArr l => match l with [] => false | _ => true end
  | JObj m => match m with [] => false | _ => true end
  end.

(** [j.get(k, default)]: only a dict has the method. *)
Definition py_get (j : json) (k : string) (default : json) : res json :=
  match j with
  | JObj m => Ok (match lookup k m with Some v => v | None => default end)
  | _ => Err AttributeError
  end.

(** [j[k]] for a string key [k]. *)
Definition py_item (j : json) (k : string) : res json :=
  match j with
  | JObj m => match lookup k m with Some v => Ok v | None => Err KeyError end
  | _ => Err TypeError
  end.

(** [j[0]] *)
Definition py_first (j : json) : res json :=
  match j with
  | JArr (x :: _) => Ok x
  | JArr [] => Err IndexError
  | JStr (String c _) => Ok (JStr (String c EmptyString))
  | JStr EmptyString => Err IndexError
  | JObj _ => Err KeyError
  | _ => Err TypeError
  end.

(** [j == s] for a string [s]. *)
Definition py_eq_str (j : json) (s : string) : bool :=
  match j with JStr t => String.eqb t s | _ => false end.

(** [k in j] for a string [k]. *)
Definition py_in (k : string) (j : json) : res bool :=
  match j with
  | JObj m => Ok (match lookup k m with Some _ => true | None => false end)
  | JArr l => Ok (existsb (fun x => py_eq_str x k) l)
  | JStr s => Ok (substring_of k s)
  | _ => Err TypeError
  end.

(** [for x in j]: the elements the loop visits. *)
Definition py_iter (j : json) : res (list json) :=
  match j with
  | JArr l => Ok l
  | JStr s => Ok (chars s)
  | JObj m => Ok (map (fun kv => JStr (fst kv)) m)
  | _ => Err TypeError
  end.

(** [len(j)] *)
Definition py_len (j : json) : res Z :=
  match j with
  | JArr l => Ok (Z.of_nat (List.length l))
  | JStr s => Ok (Z.of_nat (String.length s))
  | JObj m => Ok (Z.of_nat (List.length m))
  | _ => Err TypeError
  end.

(** [j < n] for an integer [n]. *)
Definition py_lt_int (j : json) (n : Z) : res bool :=
  match j with
  | JNum a => Ok (a <? n)
  | JBool b => Ok ((if b then 1 else 0) <? n)
  | _ => Err TypeError
  end.

(** [j.lower()] *)
Definition py_lower (j : json) : res string :=
  match j with
  | JStr s => Ok (lower s)
  | _ => Err AttributeError
  end.

(** ** Text, requests, responses, events *)

(** One piece of an f-string. *)
Inductive piece : Type :=
| L (s : string)      (* literal characters, or a [str] variable *)
| V (j : json)        (* {j}: str() of a value *)
| I (n : Z)           (* {n}: an integer *)
| X (e : exn)         (* {e}: str() of an exception *)
| Dumps (j : json)    (* {json.dumps(j, indent=2)} *)
| Body (j : json).    (* the text of a response that carries document j *)

Definition text := list piece.

Inductive method := GET | PATCH.

Inductive request : Type :=
| AcquireTokenSilent       (* app.acquire_token_silent(SCOPE, account=None) *)
| AcquireTokenForClient    (* app.acquire_token_for_client(scopes=SCOPE) *)
| HttpRequest (m : method) (url : text)
              (headers : list (string * text))
              (params : list (string * text))   (* None is the empty list *)
              (body : option json).

(** What the world answers: the call raises, or a status and a document.
    The exception of a call that raises may carry a response of its own
    ([e.response] of a [requests] exception, [None] when it has none).  For
    the two MSAL calls the document is the returned value. *)
Inductive response : Type :=
| Failed (attached : option (Z * json))
| Status (code : Z) (body : json).

Inductive level := INFO | WARNING | ERROR.

Inductive event : Type :=
| Http (q : request) (r : response)
| Sleep (seconds : Z)
| Logged (lvl : level) (msg : text)
| Printed (msg : text).

(** ** Computations *)

Inductive outcome (A : Type) : Type :=
| Returns (a : A)
| Raises (e : exn)
| OutOfFuel.
Arguments Returns {A} a.
Arguments Raises {A} e.
Arguments OutOfFuel {A}.

Definition M (W A : Type) : Type := W -> outcome A * list event * W.

Definition result {W A} (x : outcome A * list event * W) : outcome A := fst (fst x).
Definition events {W A} (x : outcome A * list event * W) : list event := snd (fst x).
Definition world {W A} (x : outcome A * list event * W) : W := snd x.

Section Monad.
Context {W : Type}.

Definition ret {A} (a : A) : M W A := fun w => (Returns a, [], w).

Definition bind {A B} (m : M W A) (k : A -> M W B) : M W B :=
  fun w =>
    match m w with
    | (Returns a, t, w') =>
        let '(o, t', w'') := k a w' in (o, t ++ t', w'')
    | (Raises e, t, w') => (Raises e, t, w')
    | (OutOfFuel, t, w') => (OutOfFuel, t, w')
    end.

Definition raise {A} (e : exn) : M W A := fun w => (Raises e, [], w).

Definition out_of_fuel {A} : M W A := fun w => (OutOfFuel, [], w).

Definition emit (ev : event) : M W unit := fun w => (Returns tt, [ev], w).

(** A pure Python expression inside a computation. *)
Definition lift {A} (r : res A) : M W A :=
  match r with Ok a => ret a | Err e => raise e end.

(** [try: m  except ... as e: h e]; the handler of an exception that the
    clause does not name re-raises it. *)
Definition try_except {A} (m : M W A) (h : exn -> M W A) : M W A :=
  fun w =>
    match m w with
    | (Raises e, t, w') =>
        let '(o, t', w'') := h e w' in (o, t ++ t', w'')
    | x => x
    end.

(** One exchange with the world. *)
Definition send (serve : W -> request -> response * W) (q : request)
  : M W response :=
  fun w => let '(r, w') := serve w q in (Returns r, [Http q r], w').

Definition log (lvl : level) (msg : text) : M W unit := emit (Logged lvl msg).
Definition print (msg : text) : M W unit := emit (Printed msg).
Definition sleep (seconds : Z) : M W unit := emit (Sleep seconds).
End Monad.

Notation "x <- m ;; k" := (bind m (fun x => k))
  (at level 61, m at next level, right associativity).
Notation "m ;; k" := (bind m (fun _ => k))
  (at level 61, right associativity).
Notation "x <~ r ;; k" := (bind (lift r) (fun x => k))
  (at level 61, r at next level, right associativity).

(** ** Configuration and constants *)

(** The settings at the top of each script. *)
Record config : Type := {
  ENTRA_GROUP_NAME : string;
  NETSKOPE_API_TOKEN : string;
  NETSKOPE_TENANT : string;
  NETSKOPE_GROUP_NAME : string
}.

Definition GRAPH_API_ENDPOINT : string := "https://graph.microsoft.com/v1.0".

(** The newline character of Python's backslash-n. *)
Definition nl : string := String (ascii_of_nat 10) EmptyString.

(** The double-quote character. *)
Definition dq : string := String (ascii_of_nat 34) EmptyString.

Definition rule : string :=
  "=======================================================".

Definition NETSKOPE_HEADERS (cfg : config) : list (string * text) :=
  [ ("Accept", [L "application/scim+json;charset=utf-8"]);
    ("Netskope-api-token", [L (NETSKOPE_API_TOKEN cfg)]);
    ("Content-Type", [L "application/scim+json;charset=utf-8"]) ].

Definition NETSKOPE_API_ENDPOINT (cfg : config) : text :=
  [L "https://"; L (NETSKOPE_TENANT cfg); L ".goskope.com/api/v2/scim"].

(** Page size of the two offset-paginated searches ([count = 100]). *)
Definition count : Z := 100.

(** One entry of the list [get_entra_group_members] returns: the dict
    [{"displayName": ..., "userPrincipalName": ...}]. *)
Record member : Type := {
  displayName : json;
  userPrincipalName : json
}.

(** ** Python dicts and sets keyed by JSON values *)

(** A list or a dict is unhashable; using one as a key raises TypeError. *)
Definition hashable (j : json) : bool :=
  match j with JArr _ | JObj _ => false | _ => true end.

(** A [bool] is an [int]: [True == 1]. *)
Definition as_int (j : json) : option Z :=
  match j with
  | JNum n => Some n
  | JBool b => Some (if b then 1 else 0)
  | _ => None
  end.

(** [a == b] on hashable values. *)
Definition key_eqb (a b : json) : bool :=
  match a, b with
  | JNull, JNull => true
  | JStr s, JStr t => String.eqb s t
  | _, _ =>
      match as_int a, as_int b with
      | Some x, Some y => x =? y
      | _, _ => false
      end
  end.

(** A dict in insertion order. *)
Definition dict := list (json * json).

(** [d[k] = v]: an equal key keeps its place and its first key object. *)
Fixpoint dict_set (k v : json) (d : dict) : dict :=
  match d with
  | [] => [(k, v)]
  | (k', v') :: d' =>
      if key_eqb k' k then (k', v) :: d' else (k', v') :: dict_set k v d'
  end.

(** [d[k]] *)
Fixpoint dict_item (k : json) (d : dict) : res json :=
  match d with
  | [] => Err KeyError
  | (k', v') :: d' => if key_eqb k' k then Ok v' else dict_item k d'
  end.

Definition dict_keys (d : dict) : list json := map fst d.

(** [x in s] *)
Definition set_mem (x : json) (s : list json) : bool := existsb (key_eqb x) s.

(** [s.add(x)] *)
Definition set_add (x : json) (s : list json) : list json :=
  if set_mem x s then s else s ++ [x].

(** [set(l)], built from the left onto [s]. *)
Fixpoint py_set_onto (s : list json) (l : list json) : res (list json) :=
  match l with
  | [] => Ok s
  | x :: l' => if hashable x then py_set_onto (set_add x s) l' else Err TypeError
  end.

Definition py_set (l : list json) : res (list json) := py_set_onto [] l.

(** [s - t] *)
Definition set_difference (s t : list json) : list json :=
  filter (fun x => negb (set_mem x t)) s.

(** [a < b] between two keys: two strings or two integers, TypeError
    otherwise. *)
Definition py_lt (a b : json) : res bool :=
  match a, b with
  | JStr s, JStr t => Ok (String.ltb s t)
  | _, _ =>
      match as_int a, as_int b with
      | Some x, Some y => Ok (x <? y)
      | _, _ => Err TypeError
      end
  end.

Fixpoint insert_sorted (x : json) (l : list json) : res (list json) :=
  match l with
  | [] => Ok [x]
  | y :: l' =>
      let? lt := py_lt x y in
      if lt then Ok (x :: y :: l')
      else let? r := insert_sorted x l' in Ok (y :: r)
  end.

(** [sorted(l)] for a list of pairwise different keys, as an insertion
    sort over Python's [<].  Any comparison sort returns the same list when
    the keys are all strings or all integers, and raises TypeError as this
    one does when two or more keys are not. *)
Fixpoint py_sorted (l : list json) : res (list json) :=
  match l with
  | [] => Ok []
  | x :: l' => let? s := py_sorted l' in insert_sorted x s
  end.

Definition len {A} (l : list A) : Z := Z.of_nat (List.length l).

(** ** The part the two scripts share word for word

    [get_access_token] and [main] are the same text in both files; [main]
    calls the file's own six functions, which are parameters here. *)

Module Script.
Section Script.
Context {W : Type}.
Variable serve : W -> request -> response * W.
Variable cfg : config.

(** The order in which a [for] loop visits a set.  Python does not fix
    it (string hashes change from one process to the next), so it is a
    parameter, and the theorems hold whatever it is. *)
Variable set_iter : list json -> list json.

(** A call into the MSAL client. *)
Definition msal (q : request) : M W json :=
  r <- send serve q ;;
  match r with
  | Failed _ => raise MsalError
  | Status _ v => ret v
  end.

Definition get_access_token : M W json :=
  result <- msal AcquireTokenSilent ;;
  result <- (if negb (truthy result) then
               log INFO [L "Entra: No token in cache. Acquiring a new one..."] ;;
               msal AcquireTokenForClient
             else ret result) ;;
  has_token <~ py_in "access_token" result ;;
  if has_token then
    log INFO [L "Entra: Access token obtained."] ;;
    token <~ py_item result "access_token" ;;
    ret token
  else
    log ERROR [L "Entra: Failed to obtain access token: "; V result] ;;
    raise (TokenError result).

Variable get_entra_group_id : string -> json -> M W json.
Variable get_entra_group_members : json -> json -> M W (list member).
Variable get_netskope_group_id : string -> M W json.
Variable get_netskope_group_members : json -> M W (list json).
Variable get_netskope_user_id : json -> M W json.
Variable update_netskope_group : json -> list json -> M W unit.

(** [{user['displayName']: user['userPrincipalName'] for user in l}],
    continued from the dict [d]. *)
Fixpoint entra_users_map_onto (d : dict) (l : list member) : res dict :=
  match l with
  | [] => Ok d
  | user :: l' =>
      if hashable (displayName user)
      then entra_users_map_onto
             (dict_set (displayName user) (userPrincipalName user) d) l'
      else Err TypeError
  end.

Definition entra_users_map_of (entra_users_list : list member) : res dict :=
  entra_users_map_onto [] entra_users_list.

(** Lines "Get Entra Users": the token, the group, its members. *)
Definition fetch_entra_users : M W (list member) :=
  log INFO [L "--- Starting Entra User Fetch ---"] ;;
  entra_token <- get_access_token ;;
  entra_group_id <- get_entra_group_id (ENTRA_GROUP_NAME cfg) entra_token ;;
  entra_users_list <- get_entra_group_members entra_group_id entra_token ;;
  ret entra_users_list.

(** Lines "Get Netskope Users": the group and its members' display names. *)
Definition fetch_netskope_users : M W (json * list json) :=
  log INFO [L "--- Starting Netskope User Fetch ---"] ;;
  netskope_group_id <- get_netskope_group_id (NETSKOPE_GROUP_NAME cfg) ;;
  netskope_users_list <- get_netskope_group_members netskope_group_id ;;
  ret (netskope_group_id, netskope_users_list).

(** [for name in sorted_names: print(f"- {name}")] *)
Fixpoint print_names (names : list json) : M W unit :=
  match names with
  | [] => ret tt
  | name :: rest => print [L "- "; V name] ;; print_names rest
  end.

(** Lines "Find Netskope IDs for Missing Users": the [for] loop over the
    missing names, with the list of identifiers found so far. *)
Fixpoint find_netskope_ids (names : list json) (entra_users_map : dict)
         (netskope_ids_to_add : list json) : M W (list json) :=
  match names with
  | [] => ret netskope_ids_to_add
  | name :: rest =>
      upn_to_find <~ dict_item name entra_users_map ;;
      netskope_id <- get_netskope_user_id upn_to_find ;;
      if truthy netskope_id then
        find_netskope_ids rest entra_users_map
                          (netskope_ids_to_add ++ [netskope_id])
      else
        print [L "WARNING: User '"; V name; L "' ("; V upn_to_find;
               L ") exists in Entra group but was NOT found in Netskope tenant. Cannot add to group."] ;;
        log WARNING [L "User '"; V name; L "' ("; V upn_to_find;
                     L ") not found in Netskope; cannot add to group."] ;;
        find_netskope_ids rest entra_users_map netskope_ids_to_add
  end.

(** Lines "Update Netskope Group (if needed)". *)
Definition update_if_needed (netskope_group_id : json)
           (netskope_ids_to_add : list json) : M W unit :=
  match netskope_ids_to_add with
  | _ :: _ =>
      if truthy netskope_group_id then
        print [L nl; L "Attempting to add "; I (len netskope_ids_to_add);
               L " users to Netskope group..."] ;;
        update_netskope_group netskope_group_id netskope_ids_to_add
      else
        print [L "ERROR: Cannot update Netskope because the group '";
               L (NETSKOPE_GROUP_NAME cfg); L "' was not found."] ;;
        log ERROR [L "Cannot update Netskope; group '";
                   L (NETSKOPE_GROUP_NAME cfg); L "' not found."]
  | [] =>
      print [L nl; L "No users to add to Netskope group (either none missing, or missing users don't exist in Netskope)."]
  end.

(** [missing_display_names = entra_display_names - netskope_set] *)
Definition missing_display_names (entra_display_names netskope_set : list json)
  : list json :=
  set_difference entra_display_names netskope_set.

(** Lines "Compare Users" to the end of the [try] block. *)
Definition reconcile (entra_users_map : dict) (entra_display_names : list json)
           (netskope_group_id : json) (netskope_set : list json) : M W unit :=
  log INFO [L "--- Comparing User Lists ---"] ;;
  let missing := missing_display_names entra_display_names netskope_set in
  print [L nl; L rule] ;;
  print [L "Users in Entra Group '"; L (ENTRA_GROUP_NAME cfg);
         L "' but NOT in Netskope Group '"; L (NETSKOPE_GROUP_NAME cfg); L "':"] ;;
  print [L rule] ;;
  match missing with
  | _ :: _ =>
      sorted_names <~ py_sorted missing ;;
      print_names sorted_names ;;
      print [L nl; L "Total users to potentially add to Netskope: "; I (len missing)] ;;
      print [L rule; L nl] ;;
      log INFO [L "--- Finding Netskope IDs for Missing Users ---"] ;;
      netskope_ids_to_add <- find_netskope_ids (set_iter missing) entra_users_map [] ;;
      update_if_needed netskope_group_id netskope_ids_to_add
  | [] =>
      print [L "All users in the Entra group appear to be present in the Netskope group."] ;;
      print [L rule; L nl]
  end.

(** The [try] block of [main]. *)
Definition main_body : M W unit :=
  entra_users_list <- fetch_entra_users ;;
  entra_users_map <~ entra_users_map_of entra_users_list ;;
  entra_display_names <~ py_set (dict_keys entra_users_map) ;;
  log INFO [L "--- Finished Entra User Fetch ---"] ;;
  fetched <- fetch_netskope_users ;;
  let '(netskope_group_id, netskope_users_list) := fetched in
  netskope_set <~ py_set netskope_users_list ;;
  log INFO [L "--- Finished Netskope User Fetch ---"] ;;
  reconcile entra_users_map entra_display_names netskope_group_id netskope_set.

Definition main : M W unit :=
  try_except main_body
    (fun e =>
       (* except Exception as e *)
       log ERROR [L "An error occurred in the main process: "; X e] ;;
       print [L "An error occurred: "; X e]).
End Script.
End Script.

(** ** Loop bodies and payloads that are the same text in both scripts *)

(** The body of [for m in data.get("value", [])]: the entries kept are
    appended to [members_data]. *)
Fixpoint collect_members (ms : list json) (members_data : list member)
  : res (list member) :=
  match ms with
  | [] => Ok members_data
  | m :: rest =>
      let? type := py_get m "@odata.type" JNull in
      let? keep :=
        (if py_eq_str type "#microsoft.graph.user" then
           let? d := py_get m "displayName" JNull in
           if truthy d then
             let? u := py_get m "userPrincipalName" JNull in Ok (truthy u)
           else Ok false
         else Ok false) in
      if keep then
        let? d := py_item m "displayName" in
        let? u := py_item m "userPrincipalName" in
        collect_members rest
          (members_data ++ [{| displayName := d; userPrincipalName := u |}])
      else collect_members rest members_data
  end.

(** The body of [for group in groups]: the identifier of the first group
    whose displayName is [group_name]. *)
Fixpoint find_group (group_name : string) (groups : list json)
  : res (option json) :=
  match groups with
  | [] => Ok None
  | group :: rest =>
      let? d := py_get group "displayName" JNull in
      if py_eq_str d group_name then
        let? group_id := py_item group "id" in Ok (Some group_id)
      else find_group group_name rest
  end.

(** [params = {'startIndex': start_index, 'count': count}] *)
Definition page_params (start_index : Z) : list (string * text) :=
  [("startIndex", [I start_index]); ("count", [I count])].

(** [[m['display'] for m in members if 'display' in m]] *)
Fixpoint display_names (members : list json) : res (list json) :=
  match members with
  | [] => Ok []
  | m :: rest =>
      let? has_display := py_in "display" m in
      if has_display then
        let? d := py_item m "display" in
        let? ds := display_names rest in
        Ok (d :: ds)
      else display_names rest
  end.

(** The body of [for user in users]: the identifier of the first user whose
    userName equals [username] up to case. *)
Fixpoint find_user (username : json) (users : list json) : res (option json) :=
  match users with
  | [] => Ok None
  | user :: rest =>
      let? n := py_get user "userName" (JStr EmptyString) in
      let? l := py_lower n in
      let? u := py_lower username in
      if String.eqb l u then
        let? user_id := py_item user "id" in Ok (Some user_id)
      else find_user username rest
  end.

(** [params = {'filter': f'userName eq "{username}"',
               'startIndex': start_index, 'count': count}] *)
Definition user_page_params (username : json) (start_index : Z)
  : list (string * text) :=
  [("filter", [L "userName eq "; L dq; V username; L dq]);
   ("startIndex", [I start_index]); ("count", [I count])].

(** [members_payload = [{"value": user_id} for user_id in user_ids_to_add]] *)
Definition members_payload (user_ids_to_add : list json) : list json :=
  map (fun user_id => JObj [("value", user_id)]) user_ids_to_add.

Definition patch_payload (user_ids_to_add : list json) : json :=
  JObj [ ("Operations",
          JArr [ JObj [ ("op", JStr "add");
                        ("path", JStr "members");
                        ("value", JArr (members_payload user_ids_to_add)) ] ]);
         ("schemas", JArr [JStr "urn:ietf:params:scim:api:messages:2.0:PatchOp"]) ].

(** ** UpdateEntraUsers.py *)

Module Requests.
Section Requests.
Context {W : Type}.
Variable serve : W -> request -> response * W.
Variable cfg : config.
Variable set_iter : list json -> list json.

(** [requests.get(url, headers=..., params=...)]; the response object is
    its status code and its document. *)
Definition requests_get (url : text) (headers params : list (string * text))
  : M W (Z * json) :=
  r <- send serve (HttpRequest GET url headers params None) ;;
  match r with
  | Failed attached => raise (RequestException attached)
  | Status code body => ret (code, body)
  end.

(** [requests.patch(url, headers=..., json=payload)] *)
Definition requests_patch (url : text) (headers : list (string * text))
           (payload : json) : M W (Z * json) :=
  r <- send serve (HttpRequest PATCH url headers [] (Some payload)) ;;
  match r with
  | Failed attached => raise (RequestException attached)
  | Status code body => ret (code, body)
  end.

(** [response.raise_for_status()]: HTTPError for 4xx and 5xx. *)
Definition raise_for_status (response : Z * json) : M W unit :=
  if (400 <=? fst response) && (fst response <? 600)
  then raise (RequestException (Some response))
  else ret tt.

Definition get_entra_group_id (group_name : string) (token : json) : M W json :=
  let url := [L GRAPH_API_ENDPOINT; L "/groups"] in
  let headers := [("Authorization", [L "Bearer "; V token])] in
  let params := [("$filter", [L "displayName eq '"; L group_name; L "'"]);
                 ("$select", [L "id,displayName"])] in
  log INFO [L "Entra: Searching for group ID: "; L group_name] ;;
  response <- requests_get url headers params ;;
  raise_for_status response ;;
  let data := snd response in
  groups <~ py_get data "value" (JArr []) ;;
  if negb (truthy groups) then
    log WARNING [L "Entra: Group '"; L group_name; L "' not found."] ;;
    ret JNull
  else
    n <~ py_len groups ;;
    (if 1 <? n then
       first <~ py_first groups ;;
       first_id <~ py_item first "id" ;;
       log WARNING [L "Entra: Multiple groups found with name '"; L group_name;
                    L "'. Using first: "; V first_id]
     else ret tt) ;;
    first <~ py_first groups ;;
    group_id <~ py_item first "id" ;;
    log INFO [L "Entra: Found group '"; L group_name; L "' with ID: "; V group_id] ;;
    ret group_id.

(** The [while url:] loop.  The test holds on entry (the first [url] is a
    non-empty f-string); afterwards it is the truthiness of the next link,
    tested at the end of the iteration. *)
Fixpoint get_entra_group_members_loop (fuel : nat) (url : text)
         (headers params : list (string * text)) (members_data : list member)
  : M W (list member) :=
  match fuel with
  | O => out_of_fuel
  | S fuel' =>
      response <- requests_get url headers params ;;
      raise_for_status response ;;
      let data := snd response in
      value <~ py_get data "value" (JArr []) ;;
      ms <~ py_iter value ;;
      members_data <~ collect_members ms members_data ;;
      next_link <~ py_get data "@odata.nextLink" JNull ;;
      if truthy next_link
      then get_entra_group_members_loop fuel' [V next_link] headers [] members_data
      else ret members_data
  end.

Definition get_entra_group_members (fuel : nat) (group_id token : json)
  : M W (list member) :=
  if negb (truthy group_id) then ret []
  else
    let url := [L GRAPH_API_ENDPOINT; L "/groups/"; V group_id; L "/members"] in
    let headers := [("Authorization", [L "Bearer "; V token])] in
    let params := [("$select", [L "displayName,userPrincipalName"])] in
    log INFO [L "Entra: Fetching members for group ID: "; V group_id] ;;
    members_data <- get_entra_group_members_loop fuel url headers params [] ;;
    log INFO [L "Entra: Found "; I (len members_data); L " members."] ;;
    ret members_data.

(** One iteration of the [while True:] loop of [get_netskope_group_id]:
    [Some v] when the iteration returns [v], [None] when it falls through
    to the next iteration. *)
Definition get_netskope_group_id_page (group_name : string) (start_index : Z)
  : M W (option json) :=
  let url := NETSKOPE_API_ENDPOINT cfg ++ [L "/Groups"] in
  try_except
    (response <- requests_get url (NETSKOPE_HEADERS cfg) (page_params start_index) ;;
     raise_for_status response ;;
     let data := snd response in
     groups <~ py_get data "Resources" (JArr []) ;;
     if negb (truthy groups) then
       log WARNING [L "Netskope: Group '"; L group_name;
                    L "' not found after checking "; I (start_index - 1); L " groups."] ;;
       ret (Some JNull)
     else
       gs <~ py_iter groups ;;
       found <~ find_group group_name gs ;;
       match found with
       | Some group_id =>
           log INFO [L "Netskope: Found group '"; L group_name;
                     L "' with ID: "; V group_id] ;;
           ret (Some group_id)
       | None =>
           total <~ py_get data "totalResults" (JNum 0) ;;
           at_end <~ (let? reached := py_lt_int total (start_index + count) in
                      if reached then Ok true
                      else let? n := py_len groups in Ok (n <? count)) ;;
           if at_end then
             log WARNING [L "Netskope: Group '"; L group_name; L "' not found."] ;;
             ret (Some JNull)
           else
             sleep 1 ;;
             ret None
       end)
    (fun e =>
       if is_RequestException e then
         log ERROR [L "Netskope: Error fetching groups: "; X e] ;;
         raise e
       else raise e).

Fixpoint get_netskope_group_id_from (fuel : nat) (group_name : string)
         (start_index : Z) : M W json :=
  match fuel with
  | O => out_of_fuel
  | S fuel' =>
      r <- get_netskope_group_id_page group_name start_index ;;
      match r with
      | Some v => ret v
      | None => get_netskope_group_id_from fuel' group_name (start_index + count)
      end
  end.

Definition get_netskope_group_id (fuel : nat) (group_name : string) : M W json :=
  log INFO [L "Netskope: Searching for group ID: "; L group_name] ;;
  get_netskope_group_id_from fuel group_name 1.

Definition get_netskope_group_members (group_id : json) : M W (list json) :=
  if negb (truthy group_id) then ret []
  else
    let url := NETSKOPE_API_ENDPOINT cfg
               ++ [L "/Groups/"; V group_id; L "?attributes=members"] in
    log INFO [L "Netskope: Fetching members for group ID: "; V group_id] ;;
    try_except
      (response <- requests_get url (NETSKOPE_HEADERS cfg) [] ;;
       raise_for_status response ;;
       let data := snd response in
       members <~ py_get data "members" (JArr []) ;;
       ms <~ py_iter members ;;
       member_names <~ display_names ms ;;
       log INFO [L "Netskope: Found "; I (len member_names); L " members."] ;;
       ret member_names)
      (fun e =>
         if is_RequestException e then
           log ERROR [L "Netskope: Error fetching group members: "; X e] ;;
           raise e
         else if is_KeyError e then
           log WARNING [L "Netskope: 'members' key not found in response for group ";
                        V group_id; L ". Assuming no members."] ;;
           ret []
         else raise e).

(** One iteration of the [while True:] loop of [get_netskope_user_id]. *)
Definition get_netskope_user_id_page (username : json) (start_index : Z)
  : M W (option json) :=
  let url := NETSKOPE_API_ENDPOINT cfg ++ [L "/Users"] in
  try_except
    (response <- requests_get url (NETSKOPE_HEADERS cfg)
                              (user_page_params username start_index) ;;
     raise_for_status response ;;
     let data := snd response in
     users <~ py_get data "Resources" (JArr []) ;;
     if negb (truthy users) then
       log WARNING [L "Netskope: User '"; V username; L "' not found."] ;;
       ret (Some JNull)
     else
       us <~ py_iter users ;;
       found <~ find_user username us ;;
       match found with
       | Some user_id =>
           log INFO [L "Netskope: Found user '"; V username;
                     L "' with ID: "; V user_id] ;;
           ret (Some user_id)
       | None =>
           total <~ py_get data "totalResults" (JNum 0) ;;
           at_end <~ (let? reached := py_lt_int total (start_index + count) in
                      if reached then Ok true
                      else let? n := py_len users in Ok (n <? count)) ;;
           if at_end then
             log WARNING [L "Netskope: User '"; V username;
                          L "' not found (end of search)."] ;;
             ret (Some JNull)
           else
             sleep 1 ;;
             ret None
       end)
    (fun e =>
       if is_RequestException e then
         log ERROR [L "Netskope: Error fetching user '"; V username; L "': "; X e] ;;
         ret (Some JNull)
       else raise e).

Fixpoint get_netskope_user_id_from (fuel : nat) (username : json)
         (start_index : Z) : M W json :=
  match fuel with
  | O => out_of_fuel
  | S fuel' =>
      r <- get_netskope_user_id_page username start_index ;;
      match r with
      | Some v => ret v
      | None => get_netskope_user_id_from fuel' username (start_index + count)
      end
  end.

Definition get_netskope_user_id (fuel : nat) (username : json) : M W json :=
  log INFO [L "Netskope: Searching for User ID with userName: "; V username] ;;
  get_netskope_user_id_from fuel username 1.

Definition update_netskope_group (group_id : json) (user_ids_to_add : list json)
  : M W unit :=
  if negb (truthy group_id) || match user_ids_to_add with [] => true | _ => false end
  then log WARNING [L "Netskope: Update skipped - No Group ID or no users to add."]
  else
    let url := NETSKOPE_API_ENDPOINT cfg ++ [L "/Groups/"; V group_id] in
    log INFO [L "Netskope: Preparing to add "; I (len user_ids_to_add);
              L " users to group "; V group_id; L "."] ;;
    let payload := patch_payload user_ids_to_add in
    log INFO [L "Netskope: Sending PATCH request with payload: "; Dumps payload] ;;
    try_except
      (response <- requests_patch url (NETSKOPE_HEADERS cfg) payload ;;
       raise_for_status response ;;
       log INFO [L "Netskope: Successfully sent update request for group ";
                 V group_id; L ". Status Code: "; I (fst response)] ;;
       print [L nl; L "SUCCESS: Sent request to add "; I (len user_ids_to_add);
              L " users to Netskope group '"; L (NETSKOPE_GROUP_NAME cfg); L "'."])
      (fun e =>
         if is_RequestException e then
           log ERROR [L "Netskope: FAILED to update group "; V group_id; L ": "; X e] ;;
           match e with
           | RequestException (Some r) =>
               log ERROR [L "Netskope: FAILED Response Body: "; Body (snd r)] ;;
               print [L "ERROR: Failed to update Netskope group. API Response: ";
                      Body (snd r)]
           | _ =>
               print [L "ERROR: Failed to update Netskope group. Error: "; X e]
           end
         else raise e).

Definition main (fuel : nat) : M W unit :=
  Script.main serve cfg set_iter
    get_entra_group_id
    (get_entra_group_members fuel)
    (get_netskope_group_id fuel)
    get_netskope_group_members
    (get_netskope_user_id fuel)
    update_netskope_group.
End Requests.
End Requests.

(** ** updateUsersURLlib3.py *)

Module Urllib3.
Section Urllib3.
Context {W : Type}.
Variable serve : W -> request -> response * W.
Variable cfg : config.
Variable set_iter : list json -> list json.

(** [http.request(method, url, headers=..., fields=..., body=...)]; the
    response object is its status and its document. *)
Definition http_request (m : method) (url : text)
           (headers fields : list (string * text)) (body : option json)
  : M W (Z * json) :=
  r <- send serve (HttpRequest m url headers fields body) ;;
  match r with
  | Failed _ => raise Urllib3Error
  | Status status data => ret (status, data)
  end.

(** The body of a response is the document it carries; the branch that
    turns an empty body into [{}] has no counterpart here. *)
Definition handle_urllib3_response (response : Z * json) (function_name : string)
  : M W json :=
  if 400 <=? fst response then
    log ERROR [L function_name; L ": HTTP Error "; I (fst response); L " - ";
               Body (snd response)] ;;
    raise (HttpStatusError function_name (fst response) (snd response))
  else ret (snd response).

Definition get_entra_group_id (group_name : string) (token : json) : M W json :=
  let url := [L GRAPH_API_ENDPOINT; L "/groups"] in
  let headers := [("Authorization", [L "Bearer "; V token])] in
  let fields := [("$filter", [L "displayName eq '"; L group_name; L "'"]);
                 ("$select", [L "id,displayName"])] in
  log INFO [L "Entra: Searching for group ID: "; L group_name] ;;
  data <- try_except
            (response <- http_request GET url headers fields None ;;
             handle_urllib3_response response "get_entra_group_id")
            (fun e =>
               log ERROR [L "Entra: Failed during get_entra_group_id request: "; X e] ;;
               raise e) ;;
  groups <~ py_get data "value" (JArr []) ;;
  if negb (truthy groups) then
    log WARNING [L "Entra: Group '"; L group_name; L "' not found."] ;;
    ret JNull
  else
    n <~ py_len groups ;;
    (if 1 <? n then
       first <~ py_first groups ;;
       first_id <~ py_item first "id" ;;
       log WARNING [L "Entra: Multiple groups found with name '"; L group_name;
                    L "'. Using first: "; V first_id]
     else ret tt) ;;
    first <~ py_first groups ;;
    group_id <~ py_item first "id" ;;
    log INFO [L "Entra: Found group '"; L group_name; L "' with ID: "; V group_id] ;;
    ret group_id.

(** The [while url:] loop, as in [Requests]. *)
Fixpoint get_entra_group_members_loop (fuel : nat) (url : text)
         (headers fields : list (string * text)) (members_data : list member)
  : M W (list member) :=
  match fuel with
  | O => out_of_fuel
  | S fuel' =>
      data <- try_except
                (response <- http_request GET url headers fields None ;;
                 handle_urllib3_response response "get_entra_group_members")
                (fun e =>
                   log ERROR [L "Entra: Failed during get_entra_group_members request: "; X e] ;;
                   raise e) ;;
      value <~ py_get data "value" (JArr []) ;;
      ms <~ py_iter value ;;
      members_data <~ collect_members ms members_data ;;
      next_link <~ py_get data "@odata.nextLink" JNull ;;
      if truthy next_link
      then get_entra_group_members_loop fuel' [V next_link] headers [] members_data
      else ret members_data
  end.

Definition get_entra_group_members (fuel : nat) (group_id token : json)
  : M W (list member) :=
  if negb (truthy group_id) then ret []
  else
    let url := [L GRAPH_API_ENDPOINT; L "/groups/"; V group_id; L "/members"] in
    let headers := [("Authorization", [L "Bearer "; V token])] in
    let fields := [("$select", [L "displayName,userPrincipalName"])] in
    log INFO [L "Entra: Fetching members for group ID: "; V group_id] ;;
    members_data <- get_entra_group_members_loop fuel url headers fields [] ;;
    log INFO [L "Entra: Found "; I (len members_data); L " members."] ;;
    ret members_data.

Definition get_netskope_group_id_page (group_name : string) (start_index : Z)
  : M W (option json) :=
  let url := NETSKOPE_API_ENDPOINT cfg ++ [L "/Groups"] in
  try_except
    (response <- http_request GET url (NETSKOPE_HEADERS cfg)
                              (page_params start_index) None ;;
     data <- handle_urllib3_response response "get_netskope_group_id" ;;
     groups <~ py_get data "Resources" (JArr []) ;;
     if negb (truthy groups) then
       log WARNING [L "Netskope: Group '"; L group_name;
                    L "' not found after checking "; I (start_index - 1); L " groups."] ;;
       ret (Some JNull)
     else
       gs <~ py_iter groups ;;
       found <~ find_group group_name gs ;;
       match found with
       | Some group_id =>
           log INFO [L "Netskope: Found group '"; L group_name;
                     L "' with ID: "; V group_id] ;;
           ret (Some group_id)
       | None =>
           total <~ py_get data "totalResults" (JNum 0) ;;
           at_end <~ (let? reached := py_lt_int total (start_index + count) in
                      if reached then Ok true
                      else let? n := py_len groups in Ok (n <? count)) ;;
           if at_end then
             log WARNING [L "Netskope: Group '"; L group_name; L "' not found."] ;;
             ret (Some JNull)
           else
             sleep 1 ;;
             ret None
       end)
    (fun e =>
       log ERROR [L "Netskope: Error fetching groups: "; X e] ;;
       raise e).

Fixpoint get_netskope_group_id_from (fuel : nat) (group_name : string)
         (start_index : Z) : M W json :=
  match fuel with
  | O => out_of_fuel
  | S fuel' =>
      r <- get_netskope_group_id_page group_name start_index ;;
      match r with
      | Some v => ret v
      | None => get_netskope_group_id_from fuel' group_name (start_index + count)
      end
  end.

Definition get_netskope_group_id (fuel : nat) (group_name : string) : M W json :=
  log INFO [L "Netskope: Searching for group ID: "; L group_name] ;;
  get_netskope_group_id_from fuel group_name 1.

Definition get_netskope_group_members (group_id : json) : M W (list json) :=
  if negb (truthy group_id) then ret []
  else
    let url := NETSKOPE_API_ENDPOINT cfg
               ++ [L "/Groups/"; V group_id; L "?attributes=members"] in
    log INFO [L "Netskope: Fetching members for group ID: "; V group_id] ;;
    try_except
      (response <- http_request GET url (NETSKOPE_HEADERS cfg) [] None ;;
       data <- handle_urllib3_response response "get_netskope_group_members" ;;
       members <~ py_get data "members" (JArr []) ;;
       ms <~ py_iter members ;;
       member_names <~ display_names ms ;;
       log INFO [L "Netskope: Found "; I (len member_names); L " members."] ;;
       ret member_names)
      (fun e =>
         log ERROR [L "Netskope: Error fetching group members: "; X e] ;;
         if is_KeyError e then
           log WARNING [L "Netskope: 'members' key not found in response for group ";
                        V group_id; L ". Assuming no members."] ;;
           ret []
         else raise e).

Definition get_netskope_user_id_page (username : json) (start_index : Z)
  : M W (option json) :=
  let url := NETSKOPE_API_ENDPOINT cfg ++ [L "/Users"] in
  try_except
    (response <- http_request GET url (NETSKOPE_HEADERS cfg)
                              (user_page_params username start_index) None ;;
     data <- handle_urllib3_response response "get_netskope_user_id" ;;
     users <~ py_get data "Resources" (JArr []) ;;
     if negb (truthy users) then
       log WARNING [L "Netskope: User '"; V username; L "' not found."] ;;
       ret (Some JNull)
     else
       us <~ py_iter users ;;
       found <~ find_user username us ;;
       match found with
       | Some user_id =>
           log INFO [L "Netskope: Found user '"; V username;
                     L "' with ID: "; V user_id] ;;
           ret (Some user_id)
       | None =>
           total <~ py_get data "totalResults" (JNum 0) ;;
           at_end <~ (let? reached := py_lt_int total (start_index + count) in
                      if reached then Ok true
                      else let? n := py_len users in Ok (n <? count)) ;;
           if at_end then
             log WARNING [L "Netskope: User '"; V username;
                          L "' not found (end of search)."] ;;
             ret (Some JNull)
           else
             sleep 1 ;;
             ret None
       end)
    (fun e =>
       log ERROR [L "Netskope: Error fetching user '"; V username; L "': "; X e] ;;
       ret (Some JNull)).

Fixpoint get_netskope_user_id_from (fuel : nat) (username : json)
         (start_index : Z) : M W json :=
  match fuel with
  | O => out_of_fuel
  | S fuel' =>
      r <- get_netskope_user_id_page username start_index ;;
      match r with
      | Some v => ret v
      | None => get_netskope_user_id_from fuel' username (start_index + count)
      end
  end.

Definition get_netskope_user_id (fuel : nat) (username : json) : M W json :=
  log INFO [L "Netskope: Searching for User ID with userName: "; V username] ;;
  get_netskope_user_id_from fuel username 1.

Definition update_netskope_group (group_id : json) (user_ids_to_add : list json)
  : M W unit :=
  if negb (truthy group_id) || match user_ids_to_add with [] => true | _ => false end
  then log WARNING [L "Netskope: Update skipped - No Group ID or no users to add."]
  else
    let url := NETSKOPE_API_ENDPOINT cfg ++ [L "/Groups/"; V group_id] in
    log INFO [L "Netskope: Preparing to add "; I (len user_ids_to_add);
              L " users to group "; V group_id; L "."] ;;
    let payload := patch_payload user_ids_to_add in
    (* encoded_body = json.dumps(patch_payload).encode('utf-8') *)
    let encoded_body := Some payload in
    log INFO [L "Netskope: Sending PATCH request with payload: "; Dumps payload] ;;
    try_except
      (response <- http_request PATCH url (NETSKOPE_HEADERS cfg) [] encoded_body ;;
       if fst response <? 400 then
         log INFO [L "Netskope: Successfully sent update request for group ";
                   V group_id; L ". Status Code: "; I (fst response)] ;;
         print [L nl; L "SUCCESS: Sent request to add "; I (len user_ids_to_add);
                L " users to Netskope group '"; L (NETSKOPE_GROUP_NAME cfg); L "'."]
       else
         log ERROR [L "Netskope: FAILED to update group "; V group_id;
                    L ". Status "; I (fst response); L " - "; Body (snd response)] ;;
         print [L "ERROR: Failed to update Netskope group. Status ";
                I (fst response); L " - "; Body (snd response)])
      (fun e =>
         log ERROR [L "Netskope: FAILED to update group "; V group_id;
                    L " due to an exception: "; X e] ;;
         print [L "ERROR: Failed to update Netskope group. Exception: "; X e]).

Definition main (fuel : nat) : M W unit :=
  Script.main serve cfg set_iter
    get_entra_group_id
    (get_entra_group_members fuel)
    (get_netskope_group_id fuel)
    get_netskope_group_members
    (get_netskope_user_id fuel)
    update_netskope_group.
End Urllib3.
End Urllib3.

(** ** Vocabulary of the statements *)

(** The exchanges with the world among the events, in order. *)
Fixpoint exchanges (t : list event) : list (request * response) :=
  match t with
  | [] => []
  | Http q r :: t' => (q, r) :: exchanges t'
  | _ :: t' => exchanges t'
  end.

Definition is_patch (q : request) : bool :=
  match q with HttpRequest PATCH _ _ _ _ => true | _ => false end.

(** Some PATCH request was issued. *)
Definition patch_sent (t : list event) : bool :=
  existsb (fun x => is_patch (fst x)) (exchanges t).

(** A world that plays back a fixed list of responses, whatever is asked,
    and fails every request after the last. *)
Definition scripted (w : list response) (q : request) : response * list response :=
  match w with
  | [] => (Failed None, [])
  | r :: w' => (r, w')
  end.

(** The settings of UpdateEntraUsers.py as published. *)
Definition published_cfg : config :=
  {| ENTRA_GROUP_NAME := "Crest Core QA";
     NETSKOPE_API_TOKEN := "YOUR_NETSKOPE_API_TOKEN";
     NETSKOPE_TENANT := "alliances";
     NETSKOPE_GROUP_NAME := "Netskope" |}.

(** The request [get_netskope_group_members] sends for [group_id]. *)
Definition group_members_request (cfg : config) (group_id : json) : request :=
  HttpRequest GET
    (NETSKOPE_API_ENDPOINT cfg ++ [L "/Groups/"; V group_id; L "?attributes=members"])
    (NETSKOPE_HEADERS cfg) [] None.

(** The PATCH body of the interface description, for the identifiers
    [ids]:
    {"Operations":[{"op":"add","path":"members","value":[{"value":id}...]}],
     "schemas":["urn:ietf:params:scim:api:messages:2.0:PatchOp"]} *)
Definition scim_add_members_body (ids : list json) : json :=
  JObj [ ("Operations",
          JArr [ JObj [ ("op", JStr "add");
                        ("path", JStr "members");
                        ("value", JArr (map (fun id => JObj [("value", id)]) ids)) ] ]);
         ("schemas", JArr [JStr "urn:ietf:params:scim:api:messages:2.0:PatchOp"]) ].

(** The PATCH request for group [group_id] with body [body]. *)
Definition group_patch_request (cfg : config) (group_id body : json) : request :=
  HttpRequest PATCH (NETSKOPE_API_ENDPOINT cfg ++ [L "/Groups/"; V group_id])
    (NETSKOPE_HEADERS cfg) [] (Some body).

(** *** Pages of the offset-paginated searches *)

(** The request [get_netskope_group_id] sends for the page at [start_index]. *)
Definition groups_request (cfg : config) (start_index : Z) : request :=
  HttpRequest GET (NETSKOPE_API_ENDPOINT cfg ++ [L "/Groups"])
    (NETSKOPE_HEADERS cfg) (page_params start_index) None.

(** The request [get_netskope_user_id] sends for the page at [start_index]. *)
Definition users_request (cfg : config) (username : json) (start_index : Z) : request :=
  HttpRequest GET (NETSKOPE_API_ENDPOINT cfg ++ [L "/Users"])
    (NETSKOPE_HEADERS cfg) (user_page_params username start_index) None.

(** A transport-level failure as UpdateEntraUsers.py sees it: the request
    raised, or the status is 4xx or 5xx. *)
Definition transport_failure (r : response) : bool :=
  match r with
  | Failed _ => true
  | Status code _ => (400 <=? code) && (code <? 600)
  end.

(** A transport-level failure as updateUsersURLlib3.py sees it: the request
    raised, or the status is 400 or more. *)
Definition transport_failure_urllib3 (r : response) : bool :=
  match r with
  | Failed _ => true
  | Status code _ => 400 <=? code
  end.

(** The "Resources" of a response, when it carries a JSON object whose
    "Resources" (default: none) is a list. *)
Definition resources_of (r : response) : option (list json) :=
  match r with
  | Status _ (JObj m) =>
      match lookup "Resources" m with
      | Some (JArr l) => Some l
      | None => Some []
      | _ => None
      end
  | _ => None
  end.

(** The "totalResults" of a response (default 0), when it is an integer. *)
Definition total_results_of (r : response) : option Z :=
  match r with
  | Status _ (JObj m) =>
      match lookup "totalResults" m with
      | Some v => as_int v
      | None => Some 0
      end
  | _ => None
  end.

(** [group] is a JSON object whose displayName is not [group_name]. *)
Definition other_group (group_name : string) (group : json) : bool :=
  match group with
  | JObj m =>
      match lookup "displayName" m with
      | Some d => negb (py_eq_str d group_name)
      | None => true
      end
  | _ => false
  end.

(** [user] is a JSON object whose userName (default: empty) is a string
    that differs from the string [username] even when case is ignored. *)
Definition other_user (username : json) (user : json) : bool :=
  match user, username with
  | JObj m, JStr s =>
      match lookup "userName" m with
      | Some (JStr n) => negb (String.eqb (lower n) (lower s))
      | None => negb (String.eqb EmptyString (lower s))
      | _ => false
      end
  | _, _ => false
  end.

(** The page [r], fetched at [start_index], sends the loop on to the next
    page: the exchange succeeded, the page is a non-empty list of entries
    none of which is the one looked for ([other]), the reported total is not
    yet reached ([totalResults >= start_index + count]) and the page is
    full ([len >= count]). *)
Definition page_continues (other : json -> bool) (start_index : Z) (r : response)
  : bool :=
  negb (transport_failure r) &&
  match resources_of r, total_results_of r with
  | Some (g :: gs), Some total =>
      forallb other (g :: gs)
      && negb (total <? start_index + count)
      && negb (len (g :: gs) <? count)
  | _, _ => false
  end.

(** The shape of the exchanges of a paginated search that starts at
    [start_index]: the requests are those of consecutive pages; every page
    but the last sends the loop on; the last, if the search [finished], does
    not, and nothing is requested after it. *)
Fixpoint paging (request_at : Z -> request) (other : json -> bool)
         (start_index : Z) (xs : list (request * response)) (finished : bool)
  : Prop :=
  match xs with
  | [] => finished = false
  | (q, r) :: rest =>
      q = request_at start_index /\
      if page_continues other start_index r
      then paging request_at other (start_index + count) rest finished
      else rest = [] /\ finished = true
  end.

(** The computation came to an end: it returned or raised. *)
Definition finished {A} (o : outcome A) : bool :=
  match o with OutOfFuel => false | _ => true end.

(** The common form of the four [while True:] loops: run [page] at
    [start_index]; return what it returns, or go on [count] further. *)
Fixpoint paginate {W : Type} (page : Z -> M W (option json)) (fuel : nat)
         (start_index : Z) : M W json :=
  match fuel with
  | O => out_of_fuel
  | S fuel' =>
      r <- page start_index ;;
      match r with
      | Some v => ret v
      | None => paginate page fuel' (start_index + count)
      end
  end.

(** *** A SCIM service that lists a fixed collection *)

(** The integer value of the query parameter [k]. *)
Fixpoint int_param (k : string) (params : list (string * text)) : option Z :=
  match params with
  | [] => None
  | (k', v) :: rest =>
      if String.eqb k k'
      then match v with [I n] => Some n | _ => None end
      else int_param k rest
  end.

(** A service that holds [resources] and answers every GET that carries
    startIndex and count with that slice of the collection and its size as
    totalResults. *)
Definition scim_listing (resources : list json) (w : unit) (q : request)
  : response * unit :=
  match q with
  | HttpRequest GET _ _ params None =>
      match int_param "startIndex" params, int_param "count" params with
      | Some s, Some c =>
          (Status 200
             (JObj [ ("totalResults", JNum (len resources));
                     ("startIndex", JNum s);
                     ("Resources",
                      JArr (firstn (Z.to_nat c) (skipn (Z.to_nat (s - 1)) resources))) ]),
           tt)
      | _, _ => (Status 400 JNull, tt)
      end
  | _ => (Failed None, tt)
  end.

(** The number of pages of [count] entries that hold [n] entries, and at
    least one: max(1, ceil(n / 100)). *)
Definition pages_needed (n : nat) : nat := Nat.max 1 ((n + 99) / 100).

(** The three stopping conditions as the specification lists them: a match
    is found, the page is empty, or the reported total is reached. *)
Definition stops_as_specified (other : json -> bool) (start_index : Z) (r : response)
  : bool :=
  match resources_of r, total_results_of r with
  | Some gs, Some total =>
      negb (forallb other gs)
      || match gs with [] => true | _ => false end
      || (total <? start_index + count)
  | _, _ => false
  end.

(** A group entry named [name] with identifier [id]. *)
Definition group_entry (name id : string) : json :=
  JObj [("displayName", JStr name); ("id", JStr id)].

(** *** Pages of the Entra member listing *)

(** The field [k] of a JSON object, [None] when absent (what [m.get(k)]
    gives for a dict). *)
Definition field (m : json) (k : string) : json :=
  match m with
  | JObj o => match lookup k o with Some v => v | None => JNull end
  | _ => JNull
  end.

Definition is_dict (j : json) : bool :=
  match j with JObj _ => true | _ => false end.

(** The entry is marked as a user and has a displayName and a
    userPrincipalName, each present and not empty. *)
Definition is_user_entry (m : json) : bool :=
  is_dict m
  && py_eq_str (field m "@odata.type") "#microsoft.graph.user"
  && truthy (field m "displayName")
  && truthy (field m "userPrincipalName").

Definition member_of (m : json) : member :=
  {| displayName := field m "displayName";
     userPrincipalName := field m "userPrincipalName" |}.

(** The members that a list of returned entries contributes. *)
Definition kept_members (entries : list json) : list member :=
  map member_of (filter is_user_entry entries).

(** The entries of a page: its "value" when that is a list. *)
Definition entries_of (r : response) : list json :=
  match r with
  | Status _ (JObj d) =>
      match lookup "value" d with
      | Some (JArr l) => l
      | _ => []
      end
  | _ => []
  end.

(** The next-page link of a page, [None] when absent. *)
Definition next_link_of (r : response) : json :=
  match r with
  | Status _ d => field d "@odata.nextLink"
  | Failed _ => JNull
  end.

(** The first request of [get_entra_group_members]. *)
Definition members_request (group_id token : json) : request :=
  HttpRequest GET [L GRAPH_API_ENDPOINT; L "/groups/"; V group_id; L "/members"]
    [("Authorization", [L "Bearer "; V token])]
    [("$select", [L "displayName,userPrincipalName"])] None.

(** The request for the page behind [link]. *)
Definition link_request (token link : json) : request :=
  HttpRequest GET [V link] [("Authorization", [L "Bearer "; V token])] [] None.

(** The exchanges start with the request [q0]; each further request is for
    the next-page link of the page before it; the last page has none. *)
Fixpoint follows_links (token : json) (q0 : request)
         (xs : list (request * response)) : Prop :=
  match xs with
  | [] => False
  | (q, r) :: rest =>
      q = q0 /\
      if truthy (next_link_of r)
      then follows_links token (link_request token (next_link_of r)) rest
      else rest = []
  end.

(** The common form of the two [while url:] loops: [fetch] gets the
    document of one page. *)
Fixpoint members_loop {W : Type}
         (fetch : text -> list (string * text) -> list (string * text) -> M W json)
         (fuel : nat) (url : text) (headers params : list (string * text))
         (members_data : list member) : M W (list member) :=
  match fuel with
  | O => out_of_fuel
  | S fuel' =>
      data <- fetch url headers params ;;
      value <~ py_get data "value" (JArr []) ;;
      ms <~ py_iter value ;;
      members_data <~ collect_members ms members_data ;;
      next_link <~ py_get data "@odata.nextLink" JNull ;;
      if truthy next_link
      then members_loop fetch fuel' [V next_link] headers [] members_data
      else ret members_data
  end.

(** Fetching one page in UpdateEntraUsers.py. *)
Definition fetch_page_requests {W : Type} (serve : W -> request -> response * W)
           (url : text) (headers params : list (string * text)) : M W json :=
  response <- Requests.requests_get serve url headers params ;;
  Requests.raise_for_status response ;;
  ret (snd response).

(** Fetching one page in updateUsersURLlib3.py. *)
Definition fetch_page_urllib3 {W : Type} (serve : W -> request -> response * W)
           (url : text) (headers fields : list (string * text)) : M W json :=
  try_except
    (response <- Urllib3.http_request serve GET url headers fields None ;;
     Urllib3.handle_urllib3_response response "get_entra_group_members")
    (fun e =>
       log ERROR [L "Entra: Failed during get_entra_group_members request: "; X e] ;;
       raise e).

(** A Graph service that hands out the given pages one after the other,
    each but the last with a link to the next. *)
Fixpoint graph_pages (pages : list (list json)) : list response :=
  match pages with
  | [] => []
  | [p] => [Status 200 (JObj [("value", JArr p)])]
  | p :: rest =>
      Status 200 (JObj [("value", JArr p);
                        ("@odata.nextLink", JStr "https://graph.microsoft.com/v1.0/next")])
        :: graph_pages rest
  end.

(** What the body of the [while url:] loop computes from the document of a
    page: the extended member list and the next link. *)
Definition page_step (data : json) (members_data : list member)
  : res (list member * json) :=
  let? value := py_get data "value" (JArr []) in
  let? ms := py_iter value in
  let? members_data := collect_members ms members_data in
  let? next_link := py_get data "@odata.nextLink" JNull in
  Ok (members_data, next_link).

(** An entry of a Graph member page. *)
Definition graph_entry (type name upn : string) : json :=
  JObj [ ("@odata.type", JStr type);
         ("displayName", JStr name);
         ("userPrincipalName", JStr upn) ].

(** *** The reconciliation *)

(** No two keys of the list are equal. *)
Fixpoint distinct (l : list json) : bool :=
  match l with
  | [] => true
  | x :: l' => negb (set_mem x l') && distinct l'
  end.

(** The computation issues no PATCH request, whatever the world. *)
Definition no_patch {W A : Type} (m : M W A) : Prop :=
  forall w, patch_sent (events (m w)) = false.

(** The missing names [names] are resolved one after the other from world
    [w], each lookup returning: [rs] lists, in order, each name with its
    principal name and what the lookup returned. *)
Inductive resolved_in_turn {W : Type} (get_netskope_user_id : json -> M W json)
          (entra_users_map : dict)
  : list json -> W -> list (json * json * json) -> W -> Prop :=
| resolved_none (w : W) :
    resolved_in_turn get_netskope_user_id entra_users_map [] w [] w
| resolved_next (name upn id : json) (names : list json) (t : list event)
                (w w1 w2 : W) (rs : list (json * json * json)) :
    dict_item name entra_users_map = Ok upn ->
    get_netskope_user_id upn w = (Returns id, t, w1) ->
    resolved_in_turn get_netskope_user_id entra_users_map names w1 rs w2 ->
    resolved_in_turn get_netskope_user_id entra_users_map
      (name :: names) w ((name, upn, id) :: rs) w2.

(** What the lookups of [rs] returned. *)
Definition returned_ids (rs : list (json * json * json)) : list json :=
  map snd rs.

(** The two warnings for a missing user that Netskope does not know. *)
Definition not_found_printed (name upn : json) : event :=
  Printed [L "WARNING: User '"; V name; L "' ("; V upn;
           L ") exists in Entra group but was NOT found in Netskope tenant. Cannot add to group."].

Definition not_found_logged (name upn : json) : event :=
  Logged WARNING [L "User '"; V name; L "' ("; V upn;
                  L ") not found in Netskope; cannot add to group."].

(** The closing messages of a run that sends no PATCH. *)
Definition all_present_printed : event :=
  Printed [L "All users in the Entra group appear to be present in the Netskope group."].

Definition group_not_found_printed (cfg : config) : event :=
  Printed [L "ERROR: Cannot update Netskope because the group '";
           L (NETSKOPE_GROUP_NAME cfg); L "' was not found."].

Definition group_not_found_logged (cfg : config) : event :=
  Logged ERROR [L "Cannot update Netskope; group '";
                L (NETSKOPE_GROUP_NAME cfg); L "' not found."].

Definition no_users_printed : event :=
  Printed [L nl; L "No users to add to Netskope group (either none missing, or missing users don't exist in Netskope)."].

Definition error_printed (e : exn) : event :=
  Printed [L "An error occurred: "; X e].

Definition update_skipped_logged : event :=
  Logged WARNING [L "Netskope: Update skipped - No Group ID or no users to add."].

Section Reaching.
Context {W : Type}.
Variable serve : W -> request -> response * W.
Variable cfg : config.
Variable set_iter : list json -> list json.
Variable get_entra_group_id : string -> json -> M W json.
Variable get_entra_group_members : json -> json -> M W (list member).
Variable get_netskope_group_id : string -> M W json.
Variable get_netskope_group_members : json -> M W (list json).
Variable get_netskope_user_id : json -> M W json.

(** The run of [main] from world [w0] gets as far as the update step, with
    the Netskope group identifier [netskope_group_id] and the identifiers
    [netskope_ids_to_add] found for the missing users: both snapshots are
    fetched, some name is missing, and the loop over the missing names
    returns. *)
Definition reaches_update (w0 : W) (netskope_group_id : json)
           (netskope_ids_to_add : list json) : Prop :=
  exists entra_users_list entra_users_map entra_display_names
         netskope_users_list netskope_set sorted_names t1 w1 t2 w2 t3 w3,
    Script.fetch_entra_users serve cfg get_entra_group_id get_entra_group_members w0
    = (Returns entra_users_list, t1, w1)
    /\ Script.entra_users_map_of entra_users_list = Ok entra_users_map
    /\ py_set (dict_keys entra_users_map) = Ok entra_display_names
    /\ Script.fetch_netskope_users cfg get_netskope_group_id
         get_netskope_group_members w1
       = (Returns (netskope_group_id, netskope_users_list), t2, w2)
    /\ py_set netskope_users_list = Ok netskope_set
    /\ Script.missing_display_names entra_display_names netskope_set <> []
    /\ py_sorted (Script.missing_display_names entra_display_names netskope_set)
       = Ok sorted_names
    /\ Script.find_netskope_ids get_netskope_user_id
         (set_iter (Script.missing_display_names entra_display_names netskope_set))
         entra_users_map [] w2
       = (Returns netskope_ids_to_add, t3, w3).

(** A run that ends says why: it raised, it printed one of the closing
    messages, or it sent the PATCH. *)
Definition explained {A : Type} (x : outcome A * list event * W) : Prop :=
  (exists e, result x = Raises e)
  \/ result x = OutOfFuel
  \/ In all_present_printed (events x)
  \/ In (group_not_found_printed cfg) (events x)
  \/ In no_users_printed (events x)
  \/ patch_sent (events x) = true.
End Reaching.

(** *** A recorded run: the example of the specification *)

(** The Entra group has Alice and Bob. *)
Definition example_entra_page : response :=
  Status 200
    (JObj [("value",
            JArr [ graph_entry "#microsoft.graph.user" "Alice A" "alice@x.com";
                   graph_entry "#microsoft.graph.user" "Bob B" "bob@x.com" ])]).

(** What the world answers up to the Netskope member request, when the
    Netskope group has the members [display_names]. *)
Definition example_fetch (display_names : list string) : list response :=
  [ Status 200 (JObj [("access_token", JStr "token")]);       (* cached token *)
    Status 200 (JObj [("value", JArr [JObj [("id", JStr "entra-1")]])]);
    example_entra_page;
    Status 200 (JObj [("totalResults", JNum 1);
                      ("Resources", JArr [group_entry "Netskope" "ns-1"])]);
    Status 200 (JObj [("members",
                       JArr (map (fun d => JObj [("display", JStr d)]) display_names))]) ].

(** The Netskope group has Alice only; Bob is then found as "abc-123" and
    the PATCH is accepted. *)
Definition example_run : list response :=
  example_fetch ["Alice A"]
  ++ [ Status 200 (JObj [("totalResults", JNum 1);
                         ("Resources",
                          JArr [JObj [("userName", JStr "bob@x.com");
                                      ("id", JStr "abc-123")]])]);
       Status 204 JNull ].

(** The members of the example. *)
Definition example_members : list member :=
  [ {| displayName := JStr "Alice A"; userPrincipalName := JStr "alice@x.com" |};
    {| displayName := JStr "Bob B"; userPrincipalName := JStr "bob@x.com" |} ].

(** Sets are visited in the order they are held. *)
Definition in_order (l : list json) : list json := l.

(** Carol is unknown to Netskope (an empty page); Bob is found. *)
Definition example_lookups : list response :=
  [ Status 200 (JObj [("totalResults", JNum 0); ("Resources", JArr [])]);
    Status 200 (JObj [("totalResults", JNum 1);
                      ("Resources",
                       JArr [JObj [("userName", JStr "bob@x.com");
                                   ("id", JStr "abc-123")]])]) ].

Definition example_map : dict :=
  [ (JStr "Carol C", JStr "carol@x.com"); (JStr "Bob B", JStr "bob@x.com") ].

(** *** The token, the Entra group and the Netskope members *)

(** The answer the token client gave last. *)
Definition last_answer (t : list event) : request * response :=
  last (exchanges t) (AcquireTokenSilent, Failed None).

(** A call into the token client, not an HTTP request of the script. *)
Definition is_token_request (q : request) : bool :=
  match q with
  | AcquireTokenSilent | AcquireTokenForClient => true
  | HttpRequest _ _ _ _ _ => false
  end.

(** The request [get_entra_group_id] sends. *)
Definition entra_group_request (group_name : string) (token : json) : request :=
  HttpRequest GET [L GRAPH_API_ENDPOINT; L "/groups"]
    [("Authorization", [L "Bearer "; V token])]
    [("$filter", [L "displayName eq '"; L group_name; L "'"]);
     ("$select", [L "id,displayName"])] None.

(** The warning of [get_entra_group_id] when the filter matches more than
    one group. *)
Definition multiple_groups_logged (group_name : string) (first_id : json) : event :=
  Logged WARNING [L "Entra: Multiple groups found with name '"; L group_name;
                  L "'. Using first: "; V first_id].

(** The display names that a list of member entries carries: one for each
    entry that has a "display". *)
Definition displays (members : list json) : list json :=
  flat_map (fun m => match m with
                     | JObj o => match lookup "display" o with
                                 | Some d => [d]
                                 | None => []
                                 end
                     | _ => []
                     end) members.

(** The warning of the [KeyError] branch of [get_netskope_group_members]. *)
Definition members_key_missing_logged (group_id : json) : event :=
  Logged WARNING [L "Netskope: 'members' key not found in response for group ";
                  V group_id; L ". Assuming no members."].

(** *** The searches *)

(** An error of reading data: a key, an index, a method or an operation
    that the value at hand does not have. *)
Definition data_error (e : exn) : bool :=
  match e with
  | KeyError | IndexError | AttributeError | TypeError => true
  | _ => false
  end.

(** The requests and the pauses among the events, in order: [None] for a
    request, [Some n] for a pause of [n] seconds. *)
Fixpoint pace (t : list event) : list (option Z) :=
  match t with
  | [] => []
  | Http _ _ :: t' => None :: pace t'
  | Sleep n :: t' => Some n :: pace t'
  | _ :: t' => pace t'
  end.

(** [n] times: a request, then a pause of one second. *)
Fixpoint turns (n : nat) : list (option Z) :=
  match n with
  | O => []
  | S n' => None :: Some 1 :: turns n'
  end.

(** The requests of [t] come one second apart: each is followed by a pause
    of one second, except the last one of a search that has [ended]. *)
Definition paced (t : list event) (ended : bool) : Prop :=
  exists n : nat, pace t = if ended then turns n ++ [None] else turns n.

(** [entry] is a group entry named [group_name] with identifier [group_id]. *)
Definition group_named (group_name : string) (group_id : json) (entry : json) : Prop :=
  exists g,
    entry = JObj g
    /\ lookup "displayName" g = Some (JStr group_name)
    /\ lookup "id" g = Some group_id.

(** [entry] is a user entry with identifier [user_id] whose userName
    (default: empty) equals the string [username] when case is ignored. *)
Definition user_named (username : json) (user_id : json) (entry : json) : Prop :=
  exists u s n,
    entry = JObj u
    /\ username = JStr s
    /\ match lookup "userName" u with Some v => v | None => JStr EmptyString end = JStr n
    /\ lower n = lower s
    /\ lookup "id" u = Some user_id.

(** The response lists [entry] among its "Resources". *)
Definition lists_entry (r : response) (entry : json) : Prop :=
  exists code m entries,
    r = Status code (JObj m)
    /\ lookup "Resources" m = Some (JArr entries)
    /\ In entry entries.

(** What one iteration of the group search makes of a readable page, given
    what the scan of its entries found: the identifier found, [None] at the
    end of the listing, or nothing yet. *)
Definition page_verdict (found : option json) (total start_index : Z)
           (entries : list json) : option json :=
  match found with
  | Some group_id => Some group_id
  | None =>
      if (total <? start_index + count) || (len entries <? count)
      then Some JNull
      else None
  end.

(** *** The update *)

(** The closing line of a successful [update_netskope_group]. *)
Definition success_printed (cfg : config) (user_ids_to_add : list json) : event :=
  Printed [L nl; L "SUCCESS: Sent request to add "; I (len user_ids_to_add);
           L " users to Netskope group '"; L (NETSKOPE_GROUP_NAME cfg); L "'."].

(** *** The two scripts side by side *)

(** Every request is answered, with a status below 400. *)
Definition every_request_succeeds {W : Type} (serve : W -> request -> response * W)
  : Prop :=
  forall w q, transport_failure_urllib3 (fst (serve w q)) = false.

(** [m1] raises nothing that a handler of UpdateEntraUsers.py catches, and
    whenever it does not raise, [m2] does exactly what [m1] does: the same
    outcome, the same events, the same final world. *)
Definition agrees {W A : Type} (m1 m2 : M W A) : Prop :=
  forall w,
    match result (m1 w) with
    | Raises e => is_RequestException e = false
    | _ => m2 w = m1 w
    end.

(** Whatever [m] raises satisfies [P]. *)
Definition raises_only {W A : Type} (P : exn -> bool) (m : M W A) : Prop :=
  forall w e, result (m w) = Raises e -> P e = true.

(** The last piece of [url] is the literal [s]. *)
Definition url_ends_with (url : text) (s : string) : bool :=
  match last url (L EmptyString) with
  | L t => String.eqb t s
  | _ => false
  end.

(** A service that answers every request: the Entra group has Alice and
    Bob, the Netskope group has Alice, Netskope knows Bob as "abc-123", and
    the PATCH is accepted. *)
Definition example_service (w : unit) (q : request) : response * unit :=
  (match q with
   | AcquireTokenSilent | AcquireTokenForClient =>
       Status 200 (JObj [("access_token", JStr "token")])
   | HttpRequest PATCH _ _ _ _ => Status 204 JNull
   | HttpRequest GET url _ _ _ =>
       if url_ends_with url "/groups" then
         Status 200 (JObj [("value", JArr [JObj [("id", JStr "entra-1")]])])
       else if url_ends_with url "/members" then example_entra_page
       else if url_ends_with url "/Groups" then
         Status 200 (JObj [("totalResults", JNum 1);
                           ("Resources", JArr [group_entry "Netskope" "ns-1"])])
       else if url_ends_with url "?attributes=members" then
         Status 200 (JObj [("members", JArr [JObj [("display", JStr "Alice A")]])])
       else
         Status 200 (JObj [("totalResults", JNum 1);
                           ("Resources",
                            JArr [JObj [("userName", JStr "bob@x.com");
                                        ("id", JStr "abc-123")]])])
   end, tt).

(** What [main] logs and prints from the comparison to the lookups when
    somebody is missing: the heading, one line for each missing name in
    sorted order, their number. *)
Definition missing_printed (cfg : config) (sorted_names : list json) (total : Z)
  : list event :=
  [ Logged INFO [L "--- Comparing User Lists ---"];
    Printed [L nl; L rule];
    Printed [L "Users in Entra Group '"; L (ENTRA_GROUP_NAME cfg);
             L "' but NOT in Netskope Group '"; L (NETSKOPE_GROUP_NAME cfg);
             L "':"];
    Printed [L rule] ]
  ++ map (fun name => Printed [L "- "; V name]) sorted_names
  ++ [ Printed [L nl; L "Total users to potentially add to Netskope: "; I total];
       Printed [L rule; L nl];
       Logged INFO [L "--- Finding Netskope IDs for Missing Users ---"] ].

(** The two lines of the [except] clause of [main]. *)
Definition main_failed (e : exn) : list event :=
  [ Logged ERROR [L "An error occurred in the main process: "; X e];
    error_printed e ].

(** * Properties *)

Lemma exchanges_app (t u : list event) :
  exchanges (t ++ u) = exchanges t ++ exchanges u.
Proof.
  induction t as [|e t IH]; simpl; [reflexivity|].
  destruct e; simpl; now rewrite IH.
Qed.

Lemma patch_sent_app (t u : list event) :
  patch_sent (t ++ u) = patch_sent t || patch_sent u.
Proof.
  unfold patch_sent. now rewrite exchanges_app, existsb_app.
Qed.

(** ** Running a computation *)

Section MonadFacts.
Context {W : Type}.

Lemma bind_returns {A B} (m : M W A) (k : A -> M W B) w a t w' :
  m w = (Returns a, t, w') ->
  bind m k w = (result (k a w'), t ++ events (k a w'), world (k a w')).
Proof.
  intros H. unfold bind. rewrite H.
  destruct (k a w') as [[o t'] w'']. reflexivity.
Qed.

Lemma bind_raises {A B} (m : M W A) (k : A -> M W B) w e t w' :
  m w = (Raises e, t, w') -> bind m k w = (Raises e, t, w').
Proof. intros H. unfold bind. now rewrite H. Qed.

Lemma bind_out_of_fuel {A B} (m : M W A) (k : A -> M W B) w t w' :
  m w = (OutOfFuel, t, w') -> bind m k w = (OutOfFuel, t, w').
Proof. intros H. unfold bind. now rewrite H. Qed.

Lemma run_eta {A} (x : outcome A * list event * W) :
  x = (result x, events x, world x).
Proof. now destruct x as [[o t] w]. Qed.
End MonadFacts.

(** Expose the state passing of a computation. *)
Ltac unfold_monad :=
  unfold try_except, bind, send, log, print, sleep, emit, lift, ret, raise,
    out_of_fuel.

(** ** C10: a falsy group identifier *)

(** C10.  For a group identifier that is [None] or otherwise falsy,
    [get_entra_group_members] and [get_netskope_group_members] return the
    empty list at once: no request, no log record, the world untouched.
    This holds in both scripts. *)
Theorem falsy_group_id_gives_empty_snapshot
  {W : Type} (serve : W -> request -> response * W) (cfg : config)
  (fuel : nat) (group_id token : json) (w : W) :
  truthy group_id = false ->
  Requests.get_entra_group_members serve fuel group_id token w = (Returns [], [], w)
  /\ Requests.get_netskope_group_members serve cfg group_id w = (Returns [], [], w)
  /\ Urllib3.get_entra_group_members serve fuel group_id token w = (Returns [], [], w)
  /\ Urllib3.get_netskope_group_members serve cfg group_id w = (Returns [], [], w).
Proof.
  intros H.
  unfold Requests.get_entra_group_members, Requests.get_netskope_group_members,
    Urllib3.get_entra_group_members, Urllib3.get_netskope_group_members.
  rewrite H. simpl. repeat split; reflexivity.
Qed.

Lemma falsy_group_id_gives_empty_snapshot_witness :
  Requests.get_entra_group_members scripted 3 JNull (JStr "tok") [] = (Returns [], [], [])
  /\ Requests.get_netskope_group_members scripted published_cfg JNull [] = (Returns [], [], [])
  /\ Urllib3.get_entra_group_members scripted 3 JNull (JStr "tok") [] = (Returns [], [], [])
  /\ Urllib3.get_netskope_group_members scripted published_cfg JNull [] = (Returns [], [], []).
Proof.
  apply (falsy_group_id_gives_empty_snapshot scripted published_cfg 3 JNull (JStr "tok") []).
  reflexivity.
Defined.

(** ** C8: a group response without "members" *)

(** C8.  When the service answers the member request with a success status
    and a JSON object that has no "members" field,
    [get_netskope_group_members] returns the empty list and raises
    nothing; the only events are its two log records and the request.  This
    holds in both scripts. *)
Theorem missing_members_field_is_zero_members
  {W : Type} (serve : W -> request -> response * W) (cfg : config)
  (group_id : json) (w w' : W) (code : Z) (m : list (string * json)) :
  truthy group_id = true ->
  serve w (group_members_request cfg group_id) = (Status code (JObj m), w') ->
  code < 400 ->
  lookup "members" m = None ->
  let t := [ Logged INFO [L "Netskope: Fetching members for group ID: "; V group_id];
             Http (group_members_request cfg group_id) (Status code (JObj m));
             Logged INFO [L "Netskope: Found "; I 0; L " members."] ] in
  Requests.get_netskope_group_members serve cfg group_id w = (Returns [], t, w')
  /\ Urllib3.get_netskope_group_members serve cfg group_id w = (Returns [], t, w').
Proof.
  intros Hg Hs Hc Hm t. subst t.
  unfold Requests.get_netskope_group_members, Urllib3.get_netskope_group_members.
  rewrite Hg. unfold group_members_request in Hs.
  unfold try_except, bind, Requests.requests_get, Urllib3.http_request,
    Requests.raise_for_status, Urllib3.handle_urllib3_response, send, bind, log, emit, lift, ret.
  cbn -[NETSKOPE_API_ENDPOINT NETSKOPE_HEADERS Z.leb Z.ltb]. rewrite Hs.
  cbn -[NETSKOPE_API_ENDPOINT NETSKOPE_HEADERS Z.leb Z.ltb].
  assert (H4 : (400 <=? code) = false) by lia. rewrite H4.
  cbn -[NETSKOPE_API_ENDPOINT NETSKOPE_HEADERS Z.leb Z.ltb]. rewrite Hm.
  split; reflexivity.
Qed.

Lemma missing_members_field_is_zero_members_witness :
  let q := group_members_request published_cfg (JStr "g1") in
  let r := Status 200 (JObj [("id", JStr "g1")]) in
  let t := [ Logged INFO [L "Netskope: Fetching members for group ID: "; V (JStr "g1")];
             Http q r;
             Logged INFO [L "Netskope: Found "; I 0; L " members."] ] in
  Requests.get_netskope_group_members scripted published_cfg (JStr "g1") [r]
    = (Returns [], t, [])
  /\ Urllib3.get_netskope_group_members scripted published_cfg (JStr "g1") [r]
    = (Returns [], t, []).
Proof.
  apply (missing_members_field_is_zero_members scripted published_cfg (JStr "g1")
           [Status 200 (JObj [("id", JStr "g1")])] [] 200 [("id", JStr "g1")]).
  - reflexivity.
  - reflexivity.
  - lia.
  - reflexivity.
Defined.

(** ** C7: the PATCH body *)

(** The one exchange of [update_netskope_group] when it has a group and
    identifiers to add. *)
Lemma update_netskope_group_exchanges
  {W : Type} (serve : W -> request -> response * W) (cfg : config)
  (group_id : json) (user_ids_to_add : list json) (w : W) :
  truthy group_id = true ->
  user_ids_to_add <> [] ->
  let q := group_patch_request cfg group_id (scim_add_members_body user_ids_to_add) in
  exchanges (events (Requests.update_netskope_group serve cfg group_id user_ids_to_add w))
    = [(q, fst (serve w q))]
  /\ exchanges (events (Urllib3.update_netskope_group serve cfg group_id user_ids_to_add w))
    = [(q, fst (serve w q))].
Proof.
  intros Hg Hi q. subst q.
  unfold Requests.update_netskope_group, Urllib3.update_netskope_group.
  rewrite Hg. destruct user_ids_to_add as [|i ids]; [congruence|].
  unfold group_patch_request, scim_add_members_body, patch_payload, members_payload.
  set (body := JObj _).
  unfold Requests.requests_patch, Urllib3.http_request, Requests.raise_for_status.
  unfold_monad.
  cbn -[NETSKOPE_API_ENDPOINT NETSKOPE_HEADERS Z.leb Z.ltb body len].
  destruct (serve w _) as [[[[c0 b0]|]|code b] w'];
    cbn -[NETSKOPE_API_ENDPOINT NETSKOPE_HEADERS Z.leb Z.ltb body len].
  - split; reflexivity.
  - split; reflexivity.
  - split.
    + destruct ((400 <=? code) && (code <? 600)); reflexivity.
    + destruct (code <? 400); reflexivity.
Qed.

(** C7.  For a group identifier and a non-empty list of user identifiers,
    [update_netskope_group] makes exactly one exchange with the world: a
    PATCH whose body is the one operation "add" on path "members", with
    [{"value": id}] for each identifier in the order given, and the one
    PatchOp schema string.  The body depends on the identifiers only.  This
    holds in both scripts. *)
Theorem patch_body_has_fixed_shape
  {W : Type} (serve : W -> request -> response * W) (cfg : config)
  (group_id : json) (user_ids_to_add : list json) (w : W) :
  truthy group_id = true ->
  user_ids_to_add <> [] ->
  let q := group_patch_request cfg group_id (scim_add_members_body user_ids_to_add) in
  exchanges (events (Requests.update_netskope_group serve cfg group_id user_ids_to_add w))
    = [(q, fst (serve w q))]
  /\ exchanges (events (Urllib3.update_netskope_group serve cfg group_id user_ids_to_add w))
    = [(q, fst (serve w q))].
Proof. apply update_netskope_group_exchanges. Qed.

Lemma patch_body_has_fixed_shape_witness :
  let body :=
    JObj [ ("Operations",
            JArr [ JObj [ ("op", JStr "add");
                          ("path", JStr "members");
                          ("value", JArr [JObj [("value", JStr "abc-123")]]) ] ]);
           ("schemas", JArr [JStr "urn:ietf:params:scim:api:messages:2.0:PatchOp"]) ] in
  let q := group_patch_request published_cfg (JStr "g1") body in
  exchanges (events (Requests.update_netskope_group scripted published_cfg
                       (JStr "g1") [JStr "abc-123"] [Status 204 JNull]))
    = [(q, Status 204 JNull)]
  /\ exchanges (events (Urllib3.update_netskope_group scripted published_cfg
                          (JStr "g1") [JStr "abc-123"] [Status 204 JNull]))
    = [(q, Status 204 JNull)].
Proof.
  apply (patch_body_has_fixed_shape scripted published_cfg (JStr "g1")
           [JStr "abc-123"] [Status 204 JNull]).
  - reflexivity.
  - discriminate.
Defined.

(** ** Pages of the two searches *)

Lemma find_group_none (name : string) (gs : list json) :
  find_group name gs = Ok None <-> forallb (other_group name) gs = true.
Proof.
  induction gs as [|g gs IH]; simpl; [tauto|].
  destruct g as [|b|n|s|l|m]; simpl; try (split; discriminate).
  destruct (lookup "displayName" m) as [d|]; simpl.
  - destruct (py_eq_str d name); simpl.
    + unfold py_item. destruct (lookup "id" m); simpl; split; discriminate.
    + exact IH.
  - exact IH.
Qed.

Lemma find_user_none (username : json) (us : list json) :
  find_user username us = Ok None <-> forallb (other_user username) us = true.
Proof.
  induction us as [|u us' IH]; simpl; [tauto|].
  destruct u as [|b|n|s|l|m]; simpl; try (split; discriminate).
  destruct (lookup "userName" m) as [[|b|n|s|l|m2]|]; simpl;
    try (split; discriminate);
    destruct username as [|b'|n'|s'|l'|m']; simpl; try (split; discriminate).
  - destruct (String.eqb (lower s) (lower s')); simpl.
    + unfold py_item. destruct (lookup "id" m); split; discriminate.
    + exact IH.
  - destruct (lower s'); simpl.
    + unfold py_item. destruct (lookup "id" m); split; discriminate.
    + exact IH.
Qed.

Ltac red_run :=
  cbn -[Z.leb Z.ltb Z.eqb len count page_params user_page_params NETSKOPE_API_ENDPOINT
        NETSKOPE_HEADERS forallb find_group find_user lower String.eqb Z.of_nat
        List.length].

Ltac split_tests :=
  repeat (match goal with
          | |- context [if ?b then _ else _] => destruct b eqn:?
          | |- context [match ?x with _ => _ end] => is_var x; destruct x
          end; red_run).

Ltac finish_page :=
  red_run; split_tests;
  repeat split; intros; try discriminate; try reflexivity; try congruence; eauto.

Ltac no_other H :=
  match goal with
  | |- context [forallb ?f ?l] =>
      let G := fresh "G" in
      assert (G : forallb f l = false)
        by (destruct (forallb f l) eqn:G; [apply H in G; congruence | reflexivity]);
      rewrite G
  end.

Section Pages.
Context {W : Type}.
Variable serve : W -> request -> response * W.
Variable cfg : config.

(** What one iteration of the group search does with the response [r] the
    world gives it. *)
Lemma group_page_run (name : string) (start : Z) (w : W) :
  let q := groups_request cfg start in
  let x := Requests.get_netskope_group_id_page serve cfg name start w in
  exchanges (events x) = [(q, fst (serve w q))]
  /\ world x = snd (serve w q)
  /\ finished (result x) = true
  /\ (result x = Returns None <->
      page_continues (other_group name) start (fst (serve w q)) = true)
  /\ (transport_failure (fst (serve w q)) = true ->
      exists e, result x = Raises e /\ is_RequestException e = true).
Proof.
  intros q x. subst q x.
  unfold Requests.get_netskope_group_id_page, groups_request.
  unfold Requests.requests_get, Requests.raise_for_status. unfold_monad.
  red_run.
  destruct (serve w _) as [[|code body] w']; [solve [finish_page]|].
  unfold page_continues, resources_of, total_results_of, transport_failure, len.
  destruct ((400 <=? code) && (code <? 600)) eqn:Hc.
  { red_run. rewrite Hc. finish_page. }
  red_run. rewrite Hc.
  destruct body as [|b|n|s|l|m]; try solve [finish_page].
  red_run.
  destruct (lookup "Resources" m) as [[|b|n|s|l|m2] |] eqn:HR; try solve [finish_page].
  { destruct s; [solve [finish_page]|].
    cbn -[Z.leb Z.ltb count page_params NETSKOPE_API_ENDPOINT NETSKOPE_HEADERS].
    finish_page. }
  2:{ destruct m2 as [|[k v] m2]; [solve [finish_page]|].
      cbn -[Z.leb Z.ltb count page_params NETSKOPE_API_ENDPOINT NETSKOPE_HEADERS].
      finish_page. }
  destruct l as [|g gs]; [solve [finish_page]|].
  red_run.
  destruct (find_group name (g :: gs)) as [[id|]|e] eqn:HF.
  - no_other (proj2 (find_group_none name (g :: gs))). finish_page.
  - apply find_group_none in HF. rewrite HF.
    destruct (lookup "totalResults" m) as [[|b|n|s|l|m2] |] eqn:HT;
      try solve [finish_page].
  - no_other (proj2 (find_group_none name (g :: gs))). finish_page.
Qed.

(** A readable page without a match that does not send the loop on makes
    the group search return [None]. *)
Lemma group_page_not_found (name : string) (start : Z) (w : W) gs total :
  let r := fst (serve w (groups_request cfg start)) in
  transport_failure r = false ->
  resources_of r = Some gs ->
  forallb (other_group name) gs = true ->
  total_results_of r = Some total ->
  page_continues (other_group name) start r = false ->
  result (Requests.get_netskope_group_id_page serve cfg name start w)
  = Returns (Some JNull).
Proof.
  intros r. subst r.
  unfold Requests.get_netskope_group_id_page, groups_request.
  unfold Requests.requests_get, Requests.raise_for_status. unfold_monad.
  red_run.
  destruct (serve w _) as [[|code body] w']; [discriminate|].
  unfold page_continues, resources_of, total_results_of, transport_failure, len.
  red_run. intros Hc. rewrite Hc. red_run.
  destruct body as [|b|n|s|l|m]; try discriminate.
  red_run.
  destruct (lookup "Resources" m) as [[|b|n|s|l|m2] |] eqn:HR; try discriminate.
  2:{ intros; reflexivity. }
  intros E; injection E as ->.
  destruct gs as [|g gs]; [reflexivity|].
  red_run. intros HF. rewrite HF. rewrite (proj2 (find_group_none name _) HF).
  destruct (lookup "totalResults" m) as [[|b|n|s|l|m2] |] eqn:HT;
    try discriminate; red_run; intros E; injection E as <-; red_run;
    intros H; split_tests; try reflexivity; try discriminate.
Qed.

(** The same for one iteration of the user search; a transport failure
    makes it return [None]. *)
Lemma user_page_run (username : json) (start : Z) (w : W) :
  let q := users_request cfg username start in
  let x := Requests.get_netskope_user_id_page serve cfg username start w in
  exchanges (events x) = [(q, fst (serve w q))]
  /\ world x = snd (serve w q)
  /\ finished (result x) = true
  /\ (result x = Returns None <->
      page_continues (other_user username) start (fst (serve w q)) = true)
  /\ (transport_failure (fst (serve w q)) = true ->
      result x = Returns (Some JNull)).
Proof.
  intros q x. subst q x.
  unfold Requests.get_netskope_user_id_page, users_request.
  unfold Requests.requests_get, Requests.raise_for_status. unfold_monad.
  red_run.
  destruct (serve w _) as [[|code body] w']; [solve [finish_page]|].
  unfold page_continues, resources_of, total_results_of, transport_failure, len.
  destruct ((400 <=? code) && (code <? 600)) eqn:Hc.
  { red_run. rewrite Hc. finish_page. }
  red_run. rewrite Hc.
  destruct body as [|b|n|s|l|m]; try solve [finish_page].
  red_run.
  destruct (lookup "Resources" m) as [[|b|n|s|l|m2] |] eqn:HR; try solve [finish_page].
  { destruct s; [solve [finish_page]|].
    cbn -[Z.leb Z.ltb count user_page_params NETSKOPE_API_ENDPOINT NETSKOPE_HEADERS].
    finish_page. }
  2:{ destruct m2 as [|[k v] m2]; [solve [finish_page]|].
      cbn -[Z.leb Z.ltb count user_page_params NETSKOPE_API_ENDPOINT NETSKOPE_HEADERS
            lower String.eqb].
      finish_page. }
  destruct l as [|g gs]; [solve [finish_page]|].
  red_run.
  destruct (find_user username (g :: gs)) as [[id|]|e] eqn:HF.
  - no_other (proj2 (find_user_none username (g :: gs))). finish_page.
  - apply find_user_none in HF. rewrite HF.
    destruct (lookup "totalResults" m) as [[|b|n|s|l|m2] |] eqn:HT;
      try solve [finish_page].
  - no_other (proj2 (find_user_none username (g :: gs))). finish_page.
Qed.

Ltac split_all :=
  repeat (match goal with
          | |- context [if ?b then _ else _] => destruct b eqn:?
          | |- context [match ?x with _ => _ end] =>
              match type of x with
              | res _ => destruct x eqn:?
              | option _ => destruct x eqn:?
              end
          end; red_run).

(** One iteration of the two searches in updateUsersURLlib3.py. *)
Lemma group_page_run_urllib3 (name : string) (start : Z) (w : W) :
  let q := groups_request cfg start in
  let x := Urllib3.get_netskope_group_id_page serve cfg name start w in
  exchanges (events x) = [(q, fst (serve w q))]
  /\ world x = snd (serve w q)
  /\ finished (result x) = true
  /\ (transport_failure_urllib3 (fst (serve w q)) = true ->
      exists e, result x = Raises e).
Proof.
  intros q x. subst q x.
  unfold Urllib3.get_netskope_group_id_page, groups_request.
  unfold Urllib3.http_request, Urllib3.handle_urllib3_response. unfold_monad.
  red_run.
  destruct (serve w _) as [[|code body] w']; [solve [finish_page]|].
  unfold transport_failure_urllib3.
  red_run. destruct (400 <=? code) eqn:Hc; [solve [finish_page]|].
  red_run. split_all.
  all: repeat split; intros; try discriminate; reflexivity.
Qed.

Lemma user_page_run_urllib3 (username : json) (start : Z) (w : W) :
  let q := users_request cfg username start in
  let x := Urllib3.get_netskope_user_id_page serve cfg username start w in
  exchanges (events x) = [(q, fst (serve w q))]
  /\ world x = snd (serve w q)
  /\ finished (result x) = true
  /\ (transport_failure_urllib3 (fst (serve w q)) = true ->
      result x = Returns (Some JNull)).
Proof.
  intros q x. subst q x.
  unfold Urllib3.get_netskope_user_id_page, users_request.
  unfold Urllib3.http_request, Urllib3.handle_urllib3_response. unfold_monad.
  red_run.
  destruct (serve w _) as [[|code body] w']; [solve [finish_page]|].
  unfold transport_failure_urllib3.
  red_run. destruct (400 <=? code) eqn:Hc; [solve [finish_page]|].
  red_run. split_all.
  all: repeat split; intros; try discriminate; reflexivity.
Qed.
End Pages.

(** ** The pagination loop *)

Section Paginate.
Context {W : Type}.
Variable serve : W -> request -> response * W.
Variable page : Z -> M W (option json).
Variable request_at : Z -> request.

Hypothesis page_exchanges : forall start w,
  exchanges (events (page start w))
  = [(request_at start, fst (serve w (request_at start)))].
Hypothesis page_world : forall start w,
  world (page start w) = snd (serve w (request_at start)).
Hypothesis page_finished : forall start w,
  finished (result (page start w)) = true.

Lemma paginate_step (fuel : nat) (start : Z) (w : W) :
  let x := page start w in
  paginate page (S fuel) start w =
  match result x with
  | Returns (Some v) => (Returns v, events x ++ [], world x)
  | Returns None =>
      let y := paginate page fuel (start + count) (world x) in
      (result y, events x ++ events y, world y)
  | Raises e => (Raises e, events x, world x)
  | OutOfFuel => (OutOfFuel, events x, world x)
  end.
Proof.
  simpl. unfold bind. destruct (page start w) as [[[[v|]|e|] t] w1]; simpl.
  - reflexivity.
  - destruct (paginate page fuel (start + count) w1) as [[o t'] w2]. reflexivity.
  - reflexivity.
  - reflexivity.
Qed.

(** The exchanges of the loop have the shape [paging]. *)
Lemma paginate_paging (other : json -> bool) :
  (forall start w,
      result (page start w) = Returns None <->
      page_continues other start (fst (serve w (request_at start))) = true) ->
  forall fuel start w,
    paging request_at other start
           (exchanges (events (paginate page fuel start w)))
           (finished (result (paginate page fuel start w))).
Proof.
  intros Hc. induction fuel as [|fuel IH]; intros start w.
  - reflexivity.
  - rewrite paginate_step.
    specialize (page_exchanges start w). specialize (page_finished start w).
    specialize (Hc start w). cbv zeta.
    destruct (result (page start w)) as [[v|]|e|] eqn:R.
    + cbn [events result fst snd]. rewrite app_nil_r, page_exchanges. simpl.
      split; [reflexivity|].
      destruct (page_continues _ _ _); [|auto].
      destruct Hc as [_ Hc]. specialize (Hc eq_refl). discriminate.
    + cbn [events result fst snd]. rewrite exchanges_app, page_exchanges. simpl.
      split; [reflexivity|].
      rewrite (proj1 Hc eq_refl). apply IH.
    + cbn [events result fst snd]. rewrite page_exchanges. simpl.
      split; [reflexivity|].
      destruct (page_continues _ _ _); [|auto].
      destruct Hc as [_ Hc]. specialize (Hc eq_refl). discriminate.
    + discriminate.
Qed.

(** If a page that [fails] makes the iteration raise, the loop raises as
    soon as it meets one. *)
Lemma paginate_failure_raises (fails : response -> bool) (R : exn -> Prop) :
  (forall start w,
      fails (fst (serve w (request_at start))) = true ->
      exists e, result (page start w) = Raises e /\ R e) ->
  forall fuel start w q r,
    In (q, r) (exchanges (events (paginate page fuel start w))) ->
    fails r = true ->
    exists e, result (paginate page fuel start w) = Raises e /\ R e.
Proof.
  intros Hf. induction fuel as [|fuel IH]; intros start w q r Hin Hr.
  - contradiction.
  - rewrite paginate_step in Hin |- *. cbv zeta in *.
    specialize (page_exchanges start w). specialize (Hf start w).
    destruct (result (page start w)) as [[v|]|e|] eqn:E;
      cbn [events result fst snd] in *.
    + rewrite app_nil_r, page_exchanges in Hin. destruct Hin as [Hin|[]].
      inversion Hin; subst. destruct (Hf Hr) as [e [He _]]. discriminate.
    + rewrite exchanges_app, page_exchanges in Hin. destruct Hin as [Hin|Hin].
      * inversion Hin; subst. destruct (Hf Hr) as [e [He _]]. discriminate.
      * eapply IH; eauto.
    + rewrite page_exchanges in Hin. destruct Hin as [Hin|[]].
      inversion Hin; subst. destruct (Hf Hr) as [e' [He HR]].
      exists e'. split; congruence.
    + rewrite page_exchanges in Hin. destruct Hin as [Hin|[]].
      inversion Hin; subst. destruct (Hf Hr) as [e [He _]]. discriminate.
Qed.

(** If a page that [fails] makes the iteration return [v0], so does the
    loop as soon as it meets one. *)
Lemma paginate_failure_returns (fails : response -> bool) (v0 : json) :
  (forall start w,
      fails (fst (serve w (request_at start))) = true ->
      result (page start w) = Returns (Some v0)) ->
  forall fuel start w q r,
    In (q, r) (exchanges (events (paginate page fuel start w))) ->
    fails r = true ->
    result (paginate page fuel start w) = Returns v0.
Proof.
  intros Hf. induction fuel as [|fuel IH]; intros start w q r Hin Hr.
  - contradiction.
  - rewrite paginate_step in Hin |- *. cbv zeta in *.
    specialize (page_exchanges start w). specialize (Hf start w).
    destruct (result (page start w)) as [[v|]|e|] eqn:E;
      cbn [events result fst snd] in *.
    + rewrite app_nil_r, page_exchanges in Hin. destruct Hin as [Hin|[]].
      inversion Hin; subst. specialize (Hf Hr). congruence.
    + rewrite exchanges_app, page_exchanges in Hin. destruct Hin as [Hin|Hin].
      * inversion Hin; subst. specialize (Hf Hr). discriminate.
      * eapply IH; eauto.
    + rewrite page_exchanges in Hin. destruct Hin as [Hin|[]].
      inversion Hin; subst. specialize (Hf Hr). discriminate.
    + rewrite page_exchanges in Hin. destruct Hin as [Hin|[]].
      inversion Hin; subst. specialize (Hf Hr). discriminate.
Qed.
End Paginate.

(** ** The four searches are instances of the loop *)

Section Searches.
Context {W : Type}.
Variable serve : W -> request -> response * W.
Variable cfg : config.

Lemma group_search_paginate (fuel : nat) (name : string) :
  forall start w,
    Requests.get_netskope_group_id_from serve cfg fuel name start w
    = paginate (Requests.get_netskope_group_id_page serve cfg name) fuel start w.
Proof.
  induction fuel as [|fuel IH]; intros start w; [reflexivity|].
  simpl. unfold bind.
  destruct (Requests.get_netskope_group_id_page serve cfg name start w)
    as [[[[v|]|e|] t] w1]; try reflexivity.
  now rewrite IH.
Qed.

Lemma user_search_paginate (fuel : nat) (username : json) :
  forall start w,
    Requests.get_netskope_user_id_from serve cfg fuel username start w
    = paginate (Requests.get_netskope_user_id_page serve cfg username) fuel start w.
Proof.
  induction fuel as [|fuel IH]; intros start w; [reflexivity|].
  simpl. unfold bind.
  destruct (Requests.get_netskope_user_id_page serve cfg username start w)
    as [[[[v|]|e|] t] w1]; try reflexivity.
  now rewrite IH.
Qed.

Lemma group_search_paginate_urllib3 (fuel : nat) (name : string) :
  forall start w,
    Urllib3.get_netskope_group_id_from serve cfg fuel name start w
    = paginate (Urllib3.get_netskope_group_id_page serve cfg name) fuel start w.
Proof.
  induction fuel as [|fuel IH]; intros start w; [reflexivity|].
  simpl. unfold bind.
  destruct (Urllib3.get_netskope_group_id_page serve cfg name start w)
    as [[[[v|]|e|] t] w1]; try reflexivity.
  now rewrite IH.
Qed.

Lemma user_search_paginate_urllib3 (fuel : nat) (username : json) :
  forall start w,
    Urllib3.get_netskope_user_id_from serve cfg fuel username start w
    = paginate (Urllib3.get_netskope_user_id_page serve cfg username) fuel start w.
Proof.
  induction fuel as [|fuel IH]; intros start w; [reflexivity|].
  simpl. unfold bind.
  destruct (Urllib3.get_netskope_user_id_page serve cfg username start w)
    as [[[[v|]|e|] t] w1]; try reflexivity.
  now rewrite IH.
Qed.

(** The searches proper: one log record, then the loop from index 1. *)
Lemma group_search_run (fuel : nat) (name : string) (w : W) :
  let y := paginate (Requests.get_netskope_group_id_page serve cfg name) fuel 1 w in
  Requests.get_netskope_group_id serve cfg fuel name w
  = (result y,
     Logged INFO [L "Netskope: Searching for group ID: "; L name] :: events y,
     world y).
Proof.
  unfold Requests.get_netskope_group_id, bind, log, emit.
  rewrite group_search_paginate. cbv zeta.
  now destruct (paginate _ fuel 1 w) as [[o t] w'].
Qed.

Lemma user_search_run (fuel : nat) (username : json) (w : W) :
  let y := paginate (Requests.get_netskope_user_id_page serve cfg username) fuel 1 w in
  Requests.get_netskope_user_id serve cfg fuel username w
  = (result y,
     Logged INFO [L "Netskope: Searching for User ID with userName: "; V username]
       :: events y,
     world y).
Proof.
  unfold Requests.get_netskope_user_id, bind, log, emit.
  rewrite user_search_paginate. cbv zeta.
  now destruct (paginate _ fuel 1 w) as [[o t] w'].
Qed.

Lemma group_search_run_urllib3 (fuel : nat) (name : string) (w : W) :
  let y := paginate (Urllib3.get_netskope_group_id_page serve cfg name) fuel 1 w in
  Urllib3.get_netskope_group_id serve cfg fuel name w
  = (result y,
     Logged INFO [L "Netskope: Searching for group ID: "; L name] :: events y,
     world y).
Proof.
  unfold Urllib3.get_netskope_group_id, bind, log, emit.
  rewrite group_search_paginate_urllib3. cbv zeta.
  now destruct (paginate _ fuel 1 w) as [[o t] w'].
Qed.

Lemma user_search_run_urllib3 (fuel : nat) (username : json) (w : W) :
  let y := paginate (Urllib3.get_netskope_user_id_page serve cfg username) fuel 1 w in
  Urllib3.get_netskope_user_id serve cfg fuel username w
  = (result y,
     Logged INFO [L "Netskope: Searching for User ID with userName: "; V username]
       :: events y,
     world y).
Proof.
  unfold Urllib3.get_netskope_user_id, bind, log, emit.
  rewrite user_search_paginate_urllib3. cbv zeta.
  now destruct (paginate _ fuel 1 w) as [[o t] w'].
Qed.
End Searches.

(** ** C4: transport failures *)

(** C4.  Whenever a request made by [get_netskope_user_id] fails at
    transport level (the request raises, or the status is an error status),
    the call returns [None]; whenever a request made by
    [get_netskope_group_id] fails so, the call raises the exception (in
    UpdateEntraUsers.py a [RequestException]).  This holds on whichever page
    the failure comes, and in both scripts. *)
Theorem transport_failure_swallowed_for_users_raised_for_groups
  {W : Type} (serve : W -> request -> response * W) (cfg : config)
  (fuel : nat) (username : json) (group_name : string) (w : W) :
  (forall q r,
      In (q, r) (exchanges (events (Requests.get_netskope_user_id serve cfg fuel username w))) ->
      transport_failure r = true ->
      result (Requests.get_netskope_user_id serve cfg fuel username w) = Returns JNull)
  /\ (forall q r,
      In (q, r) (exchanges (events (Requests.get_netskope_group_id serve cfg fuel group_name w))) ->
      transport_failure r = true ->
      exists e,
        result (Requests.get_netskope_group_id serve cfg fuel group_name w) = Raises e
        /\ is_RequestException e = true)
  /\ (forall q r,
      In (q, r) (exchanges (events (Urllib3.get_netskope_user_id serve cfg fuel username w))) ->
      transport_failure_urllib3 r = true ->
      result (Urllib3.get_netskope_user_id serve cfg fuel username w) = Returns JNull)
  /\ (forall q r,
      In (q, r) (exchanges (events (Urllib3.get_netskope_group_id serve cfg fuel group_name w))) ->
      transport_failure_urllib3 r = true ->
      exists e,
        result (Urllib3.get_netskope_group_id serve cfg fuel group_name w) = Raises e).
Proof.
  rewrite user_search_run, group_search_run, user_search_run_urllib3,
    group_search_run_urllib3.
  cbn [result events fst snd exchanges].
  repeat split; intros q r Hin Hr.
  - apply (paginate_failure_returns serve _ (users_request cfg username)
             (fun s w0 => proj1 (user_page_run serve cfg username s w0))
             transport_failure JNull) with (3 := Hr) (2 := Hin).
    intros start w0 H. now apply user_page_run.
  - apply (paginate_failure_raises serve _ (groups_request cfg)
             (fun s w0 => proj1 (group_page_run serve cfg group_name s w0))
             transport_failure (fun e => is_RequestException e = true))
      with (3 := Hr) (2 := Hin).
    intros start w0 H. now apply group_page_run.
  - apply (paginate_failure_returns serve _ (users_request cfg username)
             (fun s w0 => proj1 (user_page_run_urllib3 serve cfg username s w0))
             transport_failure_urllib3 JNull) with (3 := Hr) (2 := Hin).
    intros start w0 H. now apply user_page_run_urllib3.
  - destruct (paginate_failure_raises serve _ (groups_request cfg)
                (fun s w0 => proj1 (group_page_run_urllib3 serve cfg group_name s w0))
                transport_failure_urllib3 (fun _ => True)) with (3 := Hr) (2 := Hin)
      as [e [He _]]; [|eauto].
    intros start w0 H. destruct (group_page_run_urllib3 serve cfg group_name start w0)
      as (_ & _ & _ & G). destruct (G H) as [e He]. eauto.
Qed.

Lemma transport_failure_swallowed_for_users_raised_for_groups_witness :
  result (Requests.get_netskope_user_id scripted published_cfg 3 (JStr "bob@x.com") [Failed None])
  = Returns JNull
  /\ (exists e,
         result (Requests.get_netskope_group_id scripted published_cfg 3 "Netskope" [Failed None])
         = Raises e /\ is_RequestException e = true)
  /\ result (Urllib3.get_netskope_user_id scripted published_cfg 3 (JStr "bob@x.com") [Failed None])
     = Returns JNull
  /\ (exists e,
         result (Urllib3.get_netskope_group_id scripted published_cfg 3 "Netskope" [Failed None])
         = Raises e).
Proof.
  destruct (transport_failure_swallowed_for_users_raised_for_groups
              scripted published_cfg 3 (JStr "bob@x.com") "Netskope" [Failed None])
    as (H1 & H2 & H3 & H4).
  split; [|split; [|split]].
  - apply (H1 (users_request published_cfg (JStr "bob@x.com") 1) (Failed None));
      [left; reflexivity | reflexivity].
  - apply (H2 (groups_request published_cfg 1) (Failed None));
      [left; reflexivity | reflexivity].
  - apply (H3 (users_request published_cfg (JStr "bob@x.com") 1) (Failed None));
      [left; reflexivity | reflexivity].
  - apply (H4 (groups_request published_cfg 1) (Failed None));
      [left; reflexivity | reflexivity].
Defined.

(** ** C3: the pagination loop against a service that lists a collection *)

Lemma pages_needed_small (n : nat) : (n <= 100)%nat -> pages_needed n = 1%nat.
Proof.
  intros H. unfold pages_needed.
  assert ((n + 99) / 100 < 2)%nat.
  { apply Nat.Div0.div_lt_upper_bound. lia. }
  lia.
Qed.

Lemma pages_needed_large (n : nat) :
  (101 <= n)%nat -> pages_needed n = S (pages_needed (n - 100)).
Proof.
  intros H. unfold pages_needed.
  replace (n + 99)%nat with ((n - 100 + 99) + 1 * 100)%nat by lia.
  rewrite Nat.div_add by lia.
  assert (1 <= (n - 100 + 99) / 100)%nat.
  { apply Nat.div_le_lower_bound; lia. }
  lia.
Qed.

Section Listing.
Variable cfg : config.
Variable resources : list json.
Variable name : string.
Hypothesis others : forallb (other_group name) resources = true.

(** What the listing service answers to the request for page [k]. *)
Lemma listing_response (k : nat) :
  fst (scim_listing resources tt (groups_request cfg (1 + 100 * Z.of_nat k)))
  = Status 200
      (JObj [ ("totalResults", JNum (len resources));
              ("startIndex", JNum (1 + 100 * Z.of_nat k));
              ("Resources", JArr (firstn 100 (skipn (100 * k) resources))) ]).
Proof.
  unfold scim_listing, groups_request, page_params. cbn -[Z.to_nat Z.mul firstn skipn Z.add].
  replace (Z.to_nat (1 + 100 * Z.of_nat k - 1)) with (100 * k)%nat by lia.
  replace (Z.to_nat count) with 100%nat by reflexivity.
  reflexivity.
Qed.

Lemma forallb_firstn_skipn {A} (f : A -> bool) (l : list A) n m :
  forallb f l = true -> forallb f (firstn n (skipn m l)) = true.
Proof.
  intros H. rewrite <- (firstn_skipn m l), forallb_app in H.
  apply andb_prop in H. destruct H as [_ H].
  rewrite <- (firstn_skipn n (skipn m l)), forallb_app in H.
  apply andb_prop in H. tauto.
Qed.

(** A page of the listing sends the search on exactly when more than 100
    entries are left from its start. *)
Lemma listing_page_continues (k : nat) :
  (100 * k <= List.length resources)%nat ->
  page_continues (other_group name) (1 + 100 * Z.of_nat k)
    (fst (scim_listing resources tt (groups_request cfg (1 + 100 * Z.of_nat k))))
  = (101 <=? List.length (skipn (100 * k) resources))%nat.
Proof.
  intros Hk. rewrite listing_response.
  unfold page_continues, resources_of, total_results_of, transport_failure.
  cbn -[firstn skipn Z.mul Z.add Z.ltb Z.of_nat len count forallb Nat.leb Nat.mul].
  pose proof (length_firstn 100 (skipn (100 * k) resources)) as Hl.
  pose proof (length_skipn (100 * k) resources) as Hs.
  pose proof (forallb_firstn_skipn (other_group name) resources 100 (100 * k) others) as Hf.
  destruct (firstn 100 (skipn (100 * k) resources)) as [|g gs] eqn:E.
  - cbn [List.length] in Hl. symmetry. apply Nat.leb_gt. lia.
  - rewrite Hf. unfold len, count. cbn [andb].
    destruct (101 <=? _)%nat eqn:C.
    + apply Nat.leb_le in C.
      apply andb_true_intro; split; apply negb_true_iff; apply Z.ltb_ge. { clear - Hk Hs C. lia. } clear - Hl C. lia.
    + apply Nat.leb_gt in C. apply andb_false_intro1.
      apply negb_false_iff. apply Z.ltb_lt. lia.
Qed.

(** From page [k] on, the search makes one request for each page that is
    left, and returns [None]. *)
Lemma listing_count (fuel : nat) :
  forall k : nat,
    (100 * k <= List.length resources)%nat ->
    (pages_needed (List.length (skipn (100 * k) resources)) <= fuel)%nat ->
    let y := paginate (Requests.get_netskope_group_id_page (scim_listing resources) cfg name)
                      fuel (1 + 100 * Z.of_nat k) tt in
    result y = Returns JNull
    /\ List.length (exchanges (events y))
       = pages_needed (List.length (skipn (100 * k) resources)).
Proof.
  induction fuel as [|fuel IH]; intros k Hk Hf.
  - unfold pages_needed in Hf. lia.
  - cbv zeta. rewrite paginate_step. cbv zeta.
    pose proof (group_page_run (scim_listing resources) cfg name (1 + 100 * Z.of_nat k) tt)
      as (Hx & _ & _ & Hc & _).
    cbv zeta in Hx, Hc. rewrite listing_page_continues in Hc by assumption.
    destruct (101 <=? _)%nat eqn:C.
    + rewrite (proj2 Hc eq_refl). cbn [result events fst snd].
      apply Nat.leb_le in C.
      rewrite exchanges_app, Hx, length_app. cbn [List.length].
      destruct (world _).
      replace (1 + 100 * Z.of_nat k + count) with (1 + 100 * Z.of_nat (S k))
        by (unfold count; lia).
      pose proof (length_skipn (100 * k) resources) as Hs.
      assert (Hs' : List.length (skipn (100 * S k) resources)
                    = (List.length (skipn (100 * k) resources) - 100)%nat).
      { rewrite !length_skipn. lia. }
      rewrite pages_needed_large in Hf |- * by assumption.
      destruct (IH (S k)) as [R Len].
      * lia.
      * rewrite Hs'. lia.
      * cbv zeta in R, Len. rewrite R, Len, Hs'. split; reflexivity.
    + apply Nat.leb_gt in C.
      assert (R : result (Requests.get_netskope_group_id_page (scim_listing resources) cfg name
                            (1 + 100 * Z.of_nat k) tt) = Returns (Some JNull)).
      { eapply group_page_not_found.
        - rewrite listing_response. reflexivity.
        - rewrite listing_response. reflexivity.
        - apply forallb_firstn_skipn, others.
        - rewrite listing_response. reflexivity.
        - rewrite listing_page_continues by assumption. apply Nat.leb_gt. exact C. }
      rewrite R. cbn [result events fst snd]. rewrite app_nil_r, Hx.
      rewrite pages_needed_small by lia. split; reflexivity.
Qed.
End Listing.

(** The conditions under which a page does not send the loop on. *)
Lemma page_closes_iff (other : json -> bool) (start : Z) (r : response) :
  page_continues other start r = false <->
  transport_failure r = true
  \/ resources_of r = None
  \/ resources_of r = Some []
  \/ (exists gs, resources_of r = Some gs /\ forallb other gs = false)
  \/ total_results_of r = None
  \/ (exists total, total_results_of r = Some total /\ total < start + count)
  \/ (exists gs, resources_of r = Some gs /\ len gs < count).
Proof.
  unfold page_continues.
  destruct (transport_failure r); [cbn; tauto|].
  destruct (resources_of r) as [[|g gs]|]; [cbn; tauto| |cbn; tauto].
  destruct (total_results_of r) as [total|]; [|cbn; tauto].
  cbn [negb andb].
  destruct (forallb other (g :: gs)) eqn:F.
  2:{ cbn. split; [|reflexivity]. intros _. right; right; right; left. eauto. }
  destruct (total <? start + count) eqn:T.
  { cbn. split; [|reflexivity]. intros _. apply Z.ltb_lt in T.
    right; right; right; right; right; left. eauto. }
  destruct (len (g :: gs) <? count) eqn:C.
  { cbn. split; [|reflexivity]. intros _. apply Z.ltb_lt in C.
    do 6 right. eauto. }
  cbn. split; [discriminate|].
  apply Z.ltb_ge in T, C.
  intros [H|[H|[H|[H|[H|[H|H]]]]]]; try discriminate.
  - destruct H as [gs' [E F']]. injection E as <-. congruence.
  - destruct H as [t [E Ht]]. injection E as <-. lia.
  - destruct H as [gs' [E Hl]]. injection E as <-. lia.
Qed.

(** C3 (amended).  The pagination loops of [get_netskope_group_id] and
    [get_netskope_user_id] request consecutive pages of 100 entries from
    index 1.  Every page but the last sends the loop on; the loop ends at the
    first page that does not, and requests nothing after it.  A page does not
    send the loop on when its request fails at transport level, when it
    cannot be read, when it is empty, when it holds a match (or an entry that
    cannot be read), when its reported totalResults (0 if absent) is below
    start_index + 100, or when it holds fewer than 100 entries.  Against a
    service that lists [n] entries, none of them a match, in the pages
    requested and with totalResults = [n], the group search makes exactly
    max(1, ceil(n/100)) requests and returns [None]. *)
Theorem pagination_ends_at_first_closing_page
  {W : Type} (serve : W -> request -> response * W) (cfg : config)
  (fuel : nat) (group_name : string) (username : json) (w : W) :
  paging (groups_request cfg) (other_group group_name) 1
    (exchanges (events (Requests.get_netskope_group_id serve cfg fuel group_name w)))
    (finished (result (Requests.get_netskope_group_id serve cfg fuel group_name w)))
  /\ paging (users_request cfg username) (other_user username) 1
       (exchanges (events (Requests.get_netskope_user_id serve cfg fuel username w)))
       (finished (result (Requests.get_netskope_user_id serve cfg fuel username w)))
  /\ (forall other start r,
         page_continues other start r = false <->
         transport_failure r = true
         \/ resources_of r = None
         \/ resources_of r = Some []
         \/ (exists gs, resources_of r = Some gs /\ forallb other gs = false)
         \/ total_results_of r = None
         \/ (exists total, total_results_of r = Some total /\ total < start + count)
         \/ (exists gs, resources_of r = Some gs /\ len gs < count))
  /\ (forall resources : list json,
         forallb (other_group group_name) resources = true ->
         (pages_needed (List.length resources) <= fuel)%nat ->
         let y := Requests.get_netskope_group_id (scim_listing resources) cfg
                    fuel group_name tt in
         result y = Returns JNull
         /\ List.length (exchanges (events y)) = pages_needed (List.length resources)).
Proof.
  split; [|split; [|split]].
  - rewrite group_search_run. cbn [result events fst snd exchanges].
    apply (paginate_paging serve).
    + intros; apply group_page_run.
    + intros; apply group_page_run.
    + intros; apply group_page_run.
  - rewrite user_search_run. cbn [result events fst snd exchanges].
    apply (paginate_paging serve).
    + intros; apply user_page_run.
    + intros; apply user_page_run.
    + intros; apply user_page_run.
  - apply page_closes_iff.
  - intros resources Ho Hf y. subst y.
    rewrite group_search_run. cbn [result events fst snd exchanges].
    apply (listing_count cfg resources group_name Ho fuel 0%nat); [lia|exact Hf].
Qed.

Lemma pagination_ends_at_first_closing_page_witness :
  let resources := repeat (group_entry "Other" "g7") 101 in
  let y := Requests.get_netskope_group_id (scim_listing resources) published_cfg
             3 "Netskope" tt in
  result y = Returns JNull /\ List.length (exchanges (events y)) = 2%nat.
Proof.
  destruct (pagination_ends_at_first_closing_page
              (scim_listing (repeat (group_entry "Other" "g7") 101))
              published_cfg 3 "Netskope" (JStr "bob@x.com") tt)
    as (_ & _ & _ & H).
  apply (H (repeat (group_entry "Other" "g7") 101)).
  - reflexivity.
  - vm_compute. lia.
Defined.

(** C3 as stated fails.  A page of one group that is not the one looked
    for, with totalResults = 1000, ends the search after one request: no
    match was found, the page is not empty and the reported total is not
    reached.  And a listing of no entries costs one request, not
    ceil(0/100) = 0. *)
Lemma short_page_ends_search_outside_specified_conditions :
  let r := Status 200 (JObj [ ("totalResults", JNum 1000);
                             ("Resources", JArr [group_entry "Other" "g7"]) ]) in
  let x := Requests.get_netskope_group_id scripted published_cfg 5 "Netskope" [r; r; r] in
  let y := Requests.get_netskope_group_id (scim_listing []) published_cfg 5 "Netskope" tt in
  result x = Returns JNull
  /\ exchanges (events x) = [(groups_request published_cfg 1, r)]
  /\ stops_as_specified (other_group "Netskope") 1 r = false
  /\ List.length (exchanges (events y)) = 1%nat
  /\ ((0 + 99) / 100 = 0)%nat.
Proof.
  vm_compute. repeat split.
Qed.

(** ** C6: the Entra member listing *)

Lemma collect_members_step (m : json) (rest : list json) (acc : list member) :
  is_dict m = true ->
  collect_members (m :: rest) acc
  = collect_members rest (acc ++ kept_members [m]).
Proof.
  destruct m as [|b|n|s|l|o]; try discriminate. intros _.
  unfold kept_members, is_user_entry, member_of, field.
  cbn -[py_eq_str truthy String.eqb lookup].
  destruct (lookup "@odata.type" o) as [t|]; cbn -[py_eq_str truthy String.eqb lookup].
  2:{ now rewrite app_nil_r. }
  destruct (py_eq_str t "#microsoft.graph.user"); cbn -[truthy String.eqb lookup].
  2:{ now rewrite app_nil_r. }
  destruct (lookup "displayName" o) as [d|] eqn:Ed; cbn -[truthy String.eqb lookup].
  2:{ now rewrite app_nil_r. }
  destruct (truthy d); cbn -[truthy String.eqb lookup].
  2:{ now rewrite app_nil_r. }
  destruct (lookup "userPrincipalName" o) as [u|] eqn:Eu; cbn -[truthy String.eqb lookup].
  2:{ now rewrite app_nil_r. }
  destruct (truthy u); cbn -[truthy String.eqb lookup].
  2:{ now rewrite app_nil_r. }
  rewrite ?Ed, ?Eu. reflexivity.
Qed.

Lemma kept_members_cons (m : json) (rest : list json) :
  kept_members (m :: rest) = kept_members [m] ++ kept_members rest.
Proof.
  unfold kept_members. cbn [filter]. destruct (is_user_entry m); reflexivity.
Qed.

Lemma kept_members_app (l1 l2 : list json) :
  kept_members (l1 ++ l2) = kept_members l1 ++ kept_members l2.
Proof.
  unfold kept_members. now rewrite filter_app, map_app.
Qed.

Lemma collect_members_dicts (ms : list json) :
  forall acc,
    forallb is_dict ms = true ->
    collect_members ms acc = Ok (acc ++ kept_members ms).
Proof.
  induction ms as [|m ms IH]; intros acc H.
  - cbn. now rewrite app_nil_r.
  - cbn [forallb] in H. apply andb_prop in H. destruct H as [Hm Hms].
    rewrite collect_members_step by assumption.
    rewrite IH by assumption. rewrite <- app_assoc, <- kept_members_cons. reflexivity.
Qed.

Lemma collect_members_ok (ms : list json) :
  forall acc out,
    collect_members ms acc = Ok out ->
    forallb is_dict ms = true.
Proof.
  induction ms as [|m ms IH]; intros acc out H; [reflexivity|].
  destruct m as [|b|n|s|l|o]; try discriminate.
  rewrite collect_members_step in H by reflexivity.
  cbn [forallb is_dict andb]. eapply IH, H.
Qed.

Lemma page_step_ok (data : json) (acc acc' : list member) (link : json) (code : Z) :
  page_step data acc = Ok (acc', link) ->
  acc' = acc ++ kept_members (entries_of (Status code data))
  /\ link = next_link_of (Status code data).
Proof.
  unfold page_step, entries_of, next_link_of, field.
  destruct data as [|b|n|s|l|d]; try discriminate.
  cbn -[lookup collect_members kept_members String.eqb].
  destruct (lookup "value" d) as [[|b|n|s|l|o]|];
    cbn -[lookup collect_members kept_members String.eqb]; try discriminate.
  - destruct s as [|c s]; cbn -[lookup kept_members String.eqb]; [|discriminate].
    intros E; injection E as <- <-. now rewrite app_nil_r.
  - destruct (collect_members l acc) as [out|e] eqn:C; [|discriminate].
    cbn -[lookup kept_members String.eqb]. intros E; injection E as <- <-.
    rewrite (collect_members_dicts l acc (collect_members_ok l acc out C)) in C.
    injection C as <-. split; reflexivity.
  - destruct o as [|[k v] o]; cbn -[lookup kept_members String.eqb]; [|discriminate].
    intros E; injection E as <- <-. now rewrite app_nil_r.
  - intros E; injection E as <- <-. now rewrite app_nil_r.
Qed.

Section Loop.
Context {W : Type}.
Variable serve : W -> request -> response * W.
Variable fetch : text -> list (string * text) -> list (string * text) -> M W json.

Lemma members_loop_step (fuel : nat) url headers params acc (w : W) :
  let x := fetch url headers params w in
  members_loop fetch (S fuel) url headers params acc w =
  match result x with
  | Returns data =>
      match page_step data acc with
      | Ok (acc', link) =>
          if truthy link then
            let y := members_loop fetch fuel [V link] headers [] acc' (world x) in
            (result y, events x ++ events y, world y)
          else (Returns acc', events x ++ [], world x)
      | Err e => (Raises e, events x ++ [], world x)
      end
  | Raises e => (Raises e, events x, world x)
  | OutOfFuel => (OutOfFuel, events x, world x)
  end.
Proof.
  cbn [members_loop]. unfold bind at 1.
  destruct (fetch url headers params w) as [[[data|e|] t] w1];
    cbn [result events world fst snd]; try reflexivity.
  unfold page_step. unfold_monad.
  destruct (py_get data "value" (JArr [])) as [value|e]; cbn [rbind]; [|reflexivity].
  destruct (py_iter value) as [ms|e]; cbn [rbind]; [|reflexivity].
  destruct (collect_members ms acc) as [acc'|e]; cbn [rbind]; [|reflexivity].
  destruct (py_get data "@odata.nextLink" JNull) as [link|e]; cbn [rbind]; [|reflexivity].
  destruct (truthy link); [|reflexivity].
  destruct (members_loop fetch fuel [V link] headers [] acc' w1) as [[o t'] w2].
  reflexivity.
Qed.
End Loop.

Section LoopFacts.
Context {W : Type}.
Variable serve : W -> request -> response * W.
Variable fetch : text -> list (string * text) -> list (string * text) -> M W json.
Variable fails : response -> bool.

Hypothesis fetch_exchanges : forall url headers params w,
  let q := HttpRequest GET url headers params None in
  exchanges (events (fetch url headers params w)) = [(q, fst (serve w q))].
Hypothesis fetch_world : forall url headers params w,
  world (fetch url headers params w)
  = snd (serve w (HttpRequest GET url headers params None)).
Hypothesis fetch_fails : forall url headers params w,
  fails (fst (serve w (HttpRequest GET url headers params None))) = true ->
  exists e, result (fetch url headers params w) = Raises e.
Hypothesis fetch_returns : forall url headers params w data,
  result (fetch url headers params w) = Returns data ->
  exists code,
    fst (serve w (HttpRequest GET url headers params None)) = Status code data.
Hypothesis fetch_succeeds : forall url headers params w code data,
  fst (serve w (HttpRequest GET url headers params None)) = Status code data ->
  fails (Status code data) = false ->
  result (fetch url headers params w) = Returns data.

Variable token : json.
Local Abbreviation headers := [("Authorization", [L "Bearer "; V token])].

Lemma members_loop_returns (fuel : nat) :
  forall url params acc w ms,
    let x := members_loop fetch fuel url headers params acc w in
    result x = Returns ms ->
    follows_links token (HttpRequest GET url headers params None) (exchanges (events x))
    /\ ms = acc ++ flat_map (fun qr => kept_members (entries_of (snd qr)))
                            (exchanges (events x)).
Proof.
  induction fuel as [|fuel IH]; intros url params acc w ms x; subst x.
  - discriminate.
  - rewrite members_loop_step. cbv zeta.
    pose proof (fetch_exchanges url headers params w) as Hx. cbv zeta in Hx.
    pose proof (fetch_returns url headers params w) as Hr.
    destruct (result (fetch url headers params w)) as [data|e|]; try discriminate.
    destruct (Hr data eq_refl) as [code Hq].
    destruct (page_step data acc) as [[acc' link]|e] eqn:Hs; [|discriminate].
    destruct (page_step_ok data acc acc' link code Hs) as [-> ->].
    destruct (truthy (next_link_of (Status code data))) eqn:Ht.
    + cbn [result events fst snd]. intros R.
      rewrite exchanges_app, Hx. cbn [app follows_links flat_map snd].
      rewrite Hq, Ht.
      destruct (IH _ _ _ _ _ R) as [F E].
      split; [split; [reflexivity|exact F]|].
      rewrite E, app_assoc. reflexivity.
    + cbn [result events fst snd]. intros R. injection R as <-.
      rewrite app_nil_r, Hx. cbn [follows_links flat_map snd].
      rewrite Hq, Ht, app_nil_r. auto.
Qed.

Lemma members_loop_failure (fuel : nat) :
  forall url params acc w q r,
    let x := members_loop fetch fuel url headers params acc w in
    In (q, r) (exchanges (events x)) ->
    fails r = true ->
    exists e, result x = Raises e.
Proof.
  induction fuel as [|fuel IH]; intros url params acc w q r x; subst x.
  - intros [].
  - rewrite members_loop_step. cbv zeta.
    pose proof (fetch_exchanges url headers params w) as Hx. cbv zeta in Hx.
    pose proof (fetch_fails url headers params w) as Hf.
    destruct (result (fetch url headers params w)) as [data|e|] eqn:R.
    + destruct (page_step data acc) as [[acc' link]|e] eqn:Hs.
      * destruct (truthy link).
        -- cbn [result events fst snd]. rewrite exchanges_app, Hx.
           intros [Hin|Hin] Hr.
           ++ inversion Hin; subst. destruct (Hf Hr) as [e He]. discriminate.
           ++ eapply IH; eauto.
        -- cbn [result events fst snd]. rewrite app_nil_r, Hx.
           intros [Hin|[]] Hr.
           inversion Hin; subst. destruct (Hf Hr) as [e He]. discriminate.
      * cbn [result events fst snd]. eauto.
    + cbn [result events fst snd]. eauto.
    + cbn [result events fst snd]. rewrite Hx. intros [Hin|[]] Hr.
      inversion Hin; subst. destruct (Hf Hr) as [e He]. discriminate.
Qed.
End LoopFacts.

Section Fetch.
Context {W : Type}.
Variable serve : W -> request -> response * W.

Lemma fetch_page_requests_run url headers params (w : W) :
  let q := HttpRequest GET url headers params None in
  let x := fetch_page_requests serve url headers params w in
  exchanges (events x) = [(q, fst (serve w q))]
  /\ world x = snd (serve w q)
  /\ (transport_failure (fst (serve w q)) = true -> exists e, result x = Raises e)
  /\ (forall data, result x = Returns data ->
      exists code, fst (serve w q) = Status code data)
  /\ (forall code data, fst (serve w q) = Status code data ->
      transport_failure (Status code data) = false -> result x = Returns data).
Proof.
  intros q x. subst q x.
  unfold fetch_page_requests, Requests.requests_get, Requests.raise_for_status.
  unfold_monad. unfold transport_failure.
  destruct (serve w _) as [[|code body] w']; cbn -[Z.leb Z.ltb].
  - repeat split; intros; try discriminate; eauto.
  - destruct ((400 <=? code) && (code <? 600)) eqn:E; cbn.
    + repeat split; intros; try discriminate; eauto.
      match goal with H : Status _ _ = Status _ _ |- _ => injection H as <- <- end.
      congruence.
    + repeat split; intros; try discriminate; eauto; try congruence.
      match goal with H : Returns _ = Returns _ |- _ => injection H as <- end.
      eauto.
Qed.

Lemma fetch_page_urllib3_run url headers params (w : W) :
  let q := HttpRequest GET url headers params None in
  let x := fetch_page_urllib3 serve url headers params w in
  exchanges (events x) = [(q, fst (serve w q))]
  /\ world x = snd (serve w q)
  /\ (transport_failure_urllib3 (fst (serve w q)) = true -> exists e, result x = Raises e)
  /\ (forall data, result x = Returns data ->
      exists code, fst (serve w q) = Status code data)
  /\ (forall code data, fst (serve w q) = Status code data ->
      transport_failure_urllib3 (Status code data) = false -> result x = Returns data).
Proof.
  intros q x. subst q x.
  unfold fetch_page_urllib3, Urllib3.http_request, Urllib3.handle_urllib3_response.
  unfold_monad. unfold transport_failure_urllib3.
  destruct (serve w _) as [[|code body] w']; cbn -[Z.leb Z.ltb].
  - repeat split; intros; try discriminate; eauto.
  - destruct (400 <=? code) eqn:E; cbn.
    + repeat split; intros; try discriminate; eauto.
      match goal with H : Status _ _ = Status _ _ |- _ => injection H as <- <- end.
      congruence.
    + repeat split; intros; try discriminate; eauto; try congruence.
      match goal with H : Returns _ = Returns _ |- _ => injection H as <- end.
      eauto.
Qed.

Lemma members_loop_requests (fuel : nat) :
  forall url headers params acc w,
    Requests.get_entra_group_members_loop serve fuel url headers params acc w
    = members_loop (fetch_page_requests serve) fuel url headers params acc w.
Proof.
  induction fuel as [|fuel IH]; intros; [reflexivity|].
  rewrite members_loop_step. cbv zeta.
  set (G := members_loop (fetch_page_requests serve) fuel) in *.
  cbn [Requests.get_entra_group_members_loop].
  unfold fetch_page_requests, Requests.requests_get, Requests.raise_for_status, page_step.
  unfold_monad.
  destruct (serve w _) as [[|code body] w']; cbn -[Z.leb Z.ltb]; [reflexivity|].
  destruct ((400 <=? code) && (code <? 600)); cbn; [reflexivity|].
  destruct (py_get body "value" (JArr [])) as [value|e]; cbn; [|reflexivity].
  destruct (py_iter value) as [ms|e]; cbn; [|reflexivity].
  destruct (collect_members ms acc) as [acc'|e]; cbn; [|reflexivity].
  destruct (py_get body "@odata.nextLink" JNull) as [link|e]; cbn; [|reflexivity].
  destruct (truthy link); [|reflexivity].
  rewrite IH. destruct (G [V link] headers [] acc' w') as [[o t] w2]. reflexivity.
Qed.

Lemma members_loop_urllib3 (fuel : nat) :
  forall url headers params acc w,
    Urllib3.get_entra_group_members_loop serve fuel url headers params acc w
    = members_loop (fetch_page_urllib3 serve) fuel url headers params acc w.
Proof.
  induction fuel as [|fuel IH]; intros; [reflexivity|].
  rewrite members_loop_step. cbv zeta.
  set (G := members_loop (fetch_page_urllib3 serve) fuel) in *.
  cbn [Urllib3.get_entra_group_members_loop].
  unfold fetch_page_urllib3, Urllib3.http_request, Urllib3.handle_urllib3_response, page_step.
  unfold_monad.
  destruct (serve w _) as [[|code body] w']; cbn -[Z.leb Z.ltb]; [reflexivity|].
  destruct (400 <=? code); cbn; [reflexivity|].
  destruct (py_get body "value" (JArr [])) as [value|e]; cbn; [|reflexivity].
  destruct (py_iter value) as [ms|e]; cbn; [|reflexivity].
  destruct (collect_members ms acc) as [acc'|e]; cbn; [|reflexivity].
  destruct (py_get body "@odata.nextLink" JNull) as [link|e]; cbn; [|reflexivity].
  destruct (truthy link); [|reflexivity].
  rewrite IH. destruct (G [V link] headers [] acc' w') as [[o t] w2]. reflexivity.
Qed.
End Fetch.

Section GraphPages.
Variable fetch : text -> list (string * text) -> list (string * text) -> M (list response) json.
Variable fails : response -> bool.

Hypothesis fetch_exchanges : forall url headers params w,
  let q := HttpRequest GET url headers params None in
  exchanges (events (fetch url headers params w)) = [(q, fst (scripted w q))].
Hypothesis fetch_world : forall url headers params w,
  world (fetch url headers params w)
  = snd (scripted w (HttpRequest GET url headers params None)).
Hypothesis fetch_succeeds : forall url headers params w code data,
  fst (scripted w (HttpRequest GET url headers params None)) = Status code data ->
  fails (Status code data) = false ->
  result (fetch url headers params w) = Returns data.
Hypothesis ok_200 : forall data, fails (Status 200 data) = false.

Lemma members_loop_graph_pages (pages : list (list json)) :
  pages <> [] ->
  forallb (forallb is_dict) pages = true ->
  forall fuel url headers params acc,
    (List.length pages <= fuel)%nat ->
    let x := members_loop fetch fuel url headers params acc (graph_pages pages) in
    result x = Returns (acc ++ flat_map kept_members pages)
    /\ List.length (exchanges (events x)) = List.length pages.
Proof.
  induction pages as [|p rest IH]; [congruence|].
  intros _ Hd fuel url headers params acc Hf.
  cbn [forallb] in Hd. apply andb_prop in Hd. destruct Hd as [Hp Hrest].
  destruct fuel as [|fuel]; [cbn in Hf; lia|].
  cbv zeta. rewrite members_loop_step. cbv zeta.
  pose proof (fetch_exchanges url headers params (graph_pages (p :: rest))) as Hx.
  pose proof (fetch_world url headers params (graph_pages (p :: rest))) as Hw.
  pose proof (fetch_succeeds url headers params (graph_pages (p :: rest))) as Hs.
  cbv zeta in Hx.
  destruct rest as [|p' rest].
  - cbn [graph_pages scripted fst snd] in *.
    rewrite (Hs _ _ eq_refl (ok_200 _)).
    unfold page_step. cbn -[collect_members kept_members].
    rewrite collect_members_dicts by assumption.
    cbn -[kept_members]. rewrite !app_nil_r, Hx. split; reflexivity.
  - change (graph_pages (p :: p' :: rest))
      with (Status 200 (JObj [("value", JArr p);
                              ("@odata.nextLink",
                               JStr "https://graph.microsoft.com/v1.0/next")])
              :: graph_pages (p' :: rest)) in *.
    cbn [scripted fst snd] in Hx, Hw, Hs.
    rewrite (Hs _ _ eq_refl (ok_200 _)).
    unfold page_step. cbn -[collect_members kept_members graph_pages members_loop].
    rewrite collect_members_dicts by assumption.
    cbn -[kept_members graph_pages members_loop]. rewrite Hw.
    destruct (IH ltac:(discriminate) Hrest fuel
                 [V (JStr "https://graph.microsoft.com/v1.0/next")] headers []
                 (acc ++ kept_members p)) as [R Len].
    { cbn [List.length] in Hf |- *. lia. }
    cbv zeta in R, Len. rewrite R, exchanges_app, Hx, length_app, Len.
    split; [|reflexivity].
    rewrite <- app_assoc. reflexivity.
Qed.
End GraphPages.

Section EntraMembers.
Context {W : Type}.
Variable serve : W -> request -> response * W.

Lemma entra_members_run (fuel : nat) (group_id token : json) (w : W) :
  truthy group_id = true ->
  let y := members_loop (fetch_page_requests serve) fuel
             [L GRAPH_API_ENDPOINT; L "/groups/"; V group_id; L "/members"]
             [("Authorization", [L "Bearer "; V token])]
             [("$select", [L "displayName,userPrincipalName"])] [] w in
  let x := Requests.get_entra_group_members serve fuel group_id token w in
  result x = result y /\ exchanges (events x) = exchanges (events y).
Proof.
  intros Hg y x. subst y x.
  unfold Requests.get_entra_group_members. rewrite Hg. cbn [negb].
  unfold bind, log, emit, ret. rewrite members_loop_requests.
  destruct (members_loop _ _ _ _ _ _ _) as [[[ms|e|] t] w1];
    cbn [result events fst snd exchanges app]; try (split; reflexivity).
  rewrite exchanges_app. cbn. now rewrite app_nil_r.
Qed.

Lemma entra_members_run_urllib3 (fuel : nat) (group_id token : json) (w : W) :
  truthy group_id = true ->
  let y := members_loop (fetch_page_urllib3 serve) fuel
             [L GRAPH_API_ENDPOINT; L "/groups/"; V group_id; L "/members"]
             [("Authorization", [L "Bearer "; V token])]
             [("$select", [L "displayName,userPrincipalName"])] [] w in
  let x := Urllib3.get_entra_group_members serve fuel group_id token w in
  result x = result y /\ exchanges (events x) = exchanges (events y).
Proof.
  intros Hg y x. subst y x.
  unfold Urllib3.get_entra_group_members. rewrite Hg. cbn [negb].
  unfold bind, log, emit, ret. rewrite members_loop_urllib3.
  destruct (members_loop _ _ _ _ _ _ _) as [[[ms|e|] t] w1];
    cbn [result events fst snd exchanges app]; try (split; reflexivity).
  rewrite exchanges_app. cbn. now rewrite app_nil_r.
Qed.
End EntraMembers.

(** C6.  For a group identifier, [get_entra_group_members] starts with the
    members request and then requests the next-page link of each page until
    a page has none.  When it returns, its result is, page after page and in
    the order returned, exactly the entries whose "@odata.type" is
    "#microsoft.graph.user" and whose displayName and userPrincipalName are
    both present and not empty.  A request that fails at transport level on
    any page makes the call raise: no list is returned.  Against a service
    that hands out a given sequence of pages, with fuel for each of them, it
    returns the kept entries of all the pages after one request a page.
    This holds in both scripts. *)
Theorem entra_members_follow_links_and_keep_users
  {W : Type} (serve : W -> request -> response * W)
  (fuel : nat) (group_id token : json) (w : W) :
  truthy group_id = true ->
  let x := Requests.get_entra_group_members serve fuel group_id token w in
  let x' := Urllib3.get_entra_group_members serve fuel group_id token w in
  (forall ms,
      result x = Returns ms ->
      follows_links token (members_request group_id token) (exchanges (events x))
      /\ ms = flat_map (fun qr => kept_members (entries_of (snd qr)))
                       (exchanges (events x)))
  /\ (forall q r,
         In (q, r) (exchanges (events x)) -> transport_failure r = true ->
         exists e, result x = Raises e)
  /\ (forall ms,
         result x' = Returns ms ->
         follows_links token (members_request group_id token) (exchanges (events x'))
         /\ ms = flat_map (fun qr => kept_members (entries_of (snd qr)))
                          (exchanges (events x')))
  /\ (forall q r,
         In (q, r) (exchanges (events x')) -> transport_failure_urllib3 r = true ->
         exists e, result x' = Raises e)
  /\ (forall pages : list (list json),
         pages <> [] ->
         forallb (forallb is_dict) pages = true ->
         (List.length pages <= fuel)%nat ->
         let y := Requests.get_entra_group_members scripted fuel group_id token
                    (graph_pages pages) in
         let y' := Urllib3.get_entra_group_members scripted fuel group_id token
                     (graph_pages pages) in
         result y = Returns (flat_map kept_members pages)
         /\ List.length (exchanges (events y)) = List.length pages
         /\ result y' = Returns (flat_map kept_members pages)
         /\ List.length (exchanges (events y')) = List.length pages).
Proof.
  intros Hg x x'. subst x x'.
  destruct (entra_members_run serve fuel group_id token w Hg) as [R X].
  destruct (entra_members_run_urllib3 serve fuel group_id token w Hg) as [R' X'].
  cbv zeta in R, X, R', X'. rewrite R, X, R', X'. unfold members_request.
  split; [|split; [|split; [|split]]].
  - intros ms H.
    exact (members_loop_returns serve (fetch_page_requests serve)
             (fun u h p v => proj1 (fetch_page_requests_run serve u h p v))
             (fun u h p v =>
                proj1 (proj2 (proj2 (proj2 (fetch_page_requests_run serve u h p v)))))
             token fuel _ _ [] w ms H).
  - intros q r Hin Hr.
    exact (members_loop_failure serve (fetch_page_requests serve) transport_failure
             (fun u h p v => proj1 (fetch_page_requests_run serve u h p v))
             (fun u h p v =>
                proj1 (proj2 (proj2 (fetch_page_requests_run serve u h p v))))
             token fuel _ _ [] w q r Hin Hr).
  - intros ms H.
    exact (members_loop_returns serve (fetch_page_urllib3 serve)
             (fun u h p v => proj1 (fetch_page_urllib3_run serve u h p v))
             (fun u h p v =>
                proj1 (proj2 (proj2 (proj2 (fetch_page_urllib3_run serve u h p v)))))
             token fuel _ _ [] w ms H).
  - intros q r Hin Hr.
    exact (members_loop_failure serve (fetch_page_urllib3 serve) transport_failure_urllib3
             (fun u h p v => proj1 (fetch_page_urllib3_run serve u h p v))
             (fun u h p v =>
                proj1 (proj2 (proj2 (fetch_page_urllib3_run serve u h p v))))
             token fuel _ _ [] w q r Hin Hr).
  - intros pages Hp Hd Hf. cbv zeta.
    destruct (entra_members_run scripted fuel group_id token (graph_pages pages) Hg)
      as [S E].
    destruct (entra_members_run_urllib3 scripted fuel group_id token (graph_pages pages) Hg)
      as [S' E'].
    cbv zeta in S, E, S', E'. rewrite S, E, S', E'.
    destruct (members_loop_graph_pages (fetch_page_requests scripted) transport_failure
                (fun u h p v => proj1 (fetch_page_requests_run scripted u h p v))
                (fun u h p v => proj1 (proj2 (fetch_page_requests_run scripted u h p v)))
                (fun u h p v => proj2 (proj2 (proj2 (proj2 (fetch_page_requests_run scripted u h p v)))))
                (fun _ => eq_refl) pages Hp Hd fuel
                [L GRAPH_API_ENDPOINT; L "/groups/"; V group_id; L "/members"]
                [("Authorization", [L "Bearer "; V token])]
                [("$select", [L "displayName,userPrincipalName"])] [] Hf) as [A B].
    destruct (members_loop_graph_pages (fetch_page_urllib3 scripted) transport_failure_urllib3
                (fun u h p v => proj1 (fetch_page_urllib3_run scripted u h p v))
                (fun u h p v => proj1 (proj2 (fetch_page_urllib3_run scripted u h p v)))
                (fun u h p v => proj2 (proj2 (proj2 (proj2 (fetch_page_urllib3_run scripted u h p v)))))
                (fun _ => eq_refl) pages Hp Hd fuel
                [L GRAPH_API_ENDPOINT; L "/groups/"; V group_id; L "/members"]
                [("Authorization", [L "Bearer "; V token])]
                [("$select", [L "displayName,userPrincipalName"])] [] Hf) as [A' B'].
    cbv zeta in A, B, A', B'. cbn [app] in A, A'. auto.
Qed.

Lemma entra_members_follow_links_and_keep_users_witness :
  let pages :=
    [ [ graph_entry "#microsoft.graph.user" "Alice A" "alice@x.com";
        graph_entry "#microsoft.graph.device" "Laptop 7" "laptop7@x.com" ];
      [ graph_entry "#microsoft.graph.user" "Bob B" "bob@x.com";
        JObj [("@odata.type", JStr "#microsoft.graph.user");
              ("displayName", JStr "No Principal")] ] ] in
  let kept :=
    [ {| displayName := JStr "Alice A"; userPrincipalName := JStr "alice@x.com" |};
      {| displayName := JStr "Bob B"; userPrincipalName := JStr "bob@x.com" |} ] in
  let y := Requests.get_entra_group_members scripted 2 (JStr "g1") (JStr "tok")
             (graph_pages pages) in
  let y' := Urllib3.get_entra_group_members scripted 2 (JStr "g1") (JStr "tok")
              (graph_pages pages) in
  result y = Returns kept
  /\ List.length (exchanges (events y)) = 2%nat
  /\ result y' = Returns kept
  /\ List.length (exchanges (events y')) = 2%nat.
Proof.
  intros pages kept y y'.
  destruct (entra_members_follow_links_and_keep_users
              scripted 2 (JStr "g1") (JStr "tok") (graph_pages pages) eq_refl)
    as (_ & _ & _ & _ & H).
  apply (H pages).
  - discriminate.
  - reflexivity.
  - apply le_n.
Defined.

(** ** Keys, dicts and sets *)

Lemma key_eqb_refl (x : json) : hashable x = true -> key_eqb x x = true.
Proof.
  destruct x as [|b|n|s|l|m]; cbn; try discriminate; intros _.
  - reflexivity.
  - destruct b; reflexivity.
  - apply Z.eqb_refl.
  - apply String.eqb_refl.
Qed.

Lemma key_eqb_sym (x y : json) : key_eqb x y = key_eqb y x.
Proof.
  destruct x as [|b|n|s|l|m], y as [|b'|n'|s'|l'|m']; cbn; try reflexivity;
    try apply Z.eqb_sym; try apply String.eqb_sym.
Qed.

Lemma key_eqb_trans (x y z : json) :
  key_eqb x y = true -> key_eqb y z = true -> key_eqb x z = true.
Proof.
  destruct x as [|b|n|s|l|m], y as [|b'|n'|s'|l'|m'], z as [|b''|n''|s''|l''|m''];
    cbn; try discriminate; try reflexivity;
    rewrite ?Z.eqb_eq, ?String.eqb_eq; intros; subst; try reflexivity; try lia; try congruence.
Qed.

Lemma key_eqb_str (s : string) (y : json) :
  key_eqb (JStr s) y = true <-> y = JStr s.
Proof.
  destruct y as [|b|n|t|l|m]; cbn; try (split; discriminate).
  rewrite String.eqb_eq. split; congruence.
Qed.

Lemma key_eqb_hashable (x y : json) : key_eqb x y = true -> hashable x = true /\ hashable y = true.
Proof.
  destruct x as [|b|n|s|l|m], y as [|b'|n'|s'|l'|m']; cbn; try discriminate; auto.
Qed.

(** Equal keys are members of the same sets. *)
Lemma set_mem_eq (x y : json) (s : list json) :
  key_eqb x y = true -> set_mem x s = set_mem y s.
Proof.
  intros H. unfold set_mem. induction s as [|z s IH]; [reflexivity|].
  cbn. rewrite IH. f_equal.
  destruct (key_eqb x z) eqn:A, (key_eqb y z) eqn:B; try reflexivity.
  - rewrite key_eqb_sym in H. now rewrite (key_eqb_trans _ _ _ H A) in B.
  - now rewrite (key_eqb_trans _ _ _ H B) in A.
Qed.

Lemma set_mem_app (x : json) (s t : list json) :
  set_mem x (s ++ t) = set_mem x s || set_mem x t.
Proof. unfold set_mem. apply existsb_app. Qed.

Lemma set_mem_add (x y : json) (s : list json) :
  set_mem x (set_add y s) = set_mem x s || key_eqb x y.
Proof.
  unfold set_add. destruct (set_mem y s) eqn:M.
  - destruct (key_eqb x y) eqn:E; [|now rewrite orb_false_r].
    rewrite (set_mem_eq x y s E), M. reflexivity.
  - rewrite set_mem_app. cbn. now rewrite orb_false_r.
Qed.

Lemma py_set_onto_mem (l : list json) :
  forall s out x,
    py_set_onto s l = Ok out ->
    set_mem x out = set_mem x s || set_mem x l.
Proof.
  induction l as [|y l IH]; intros s out x H; cbn in *.
  - injection H as <-. now rewrite orb_false_r.
  - destruct (hashable y); [|discriminate].
    rewrite (IH _ _ x H), set_mem_add, <- orb_assoc. reflexivity.
Qed.

Lemma py_set_mem (l out : list json) (x : json) :
  py_set l = Ok out -> set_mem x out = set_mem x l.
Proof. intros H. now rewrite (py_set_onto_mem l [] out x H). Qed.

Lemma py_set_onto_ok (l : list json) :
  forall s, forallb hashable l = true -> exists out, py_set_onto s l = Ok out.
Proof.
  induction l as [|y l IH]; intros s H; cbn in *; [eauto|].
  apply andb_prop in H. destruct H as [Hy Hl]. rewrite Hy. apply IH, Hl.
Qed.

Lemma set_mem_cons (x y : json) (s : list json) :
  set_mem x (y :: s) = key_eqb x y || set_mem x s.
Proof. reflexivity. Qed.

Lemma set_difference_mem (x : json) (s t : list json) :
  set_mem x (set_difference s t) = set_mem x s && negb (set_mem x t).
Proof.
  unfold set_difference. induction s as [|y s IH]; [reflexivity|].
  cbn [filter]. rewrite set_mem_cons.
  destruct (set_mem y t) eqn:M; cbn [negb].
  - rewrite IH.
    destruct (key_eqb x y) eqn:E; [|reflexivity].
    rewrite (set_mem_eq x y t E), M. cbn. now rewrite andb_false_r.
  - rewrite set_mem_cons, IH.
    destruct (key_eqb x y) eqn:E; [|reflexivity].
    rewrite (set_mem_eq x y t E), M. reflexivity.
Qed.

(** *** Dicts *)

Lemma dict_item_set_same (k1 k v : json) (d : dict) :
  key_eqb k1 k = true -> dict_item k1 (dict_set k v d) = Ok v.
Proof.
  intros H. induction d as [|[k' v'] d IH]; cbn.
  - rewrite key_eqb_sym, H. reflexivity.
  - destruct (key_eqb k' k) eqn:E; cbn.
    + rewrite key_eqb_sym in H.
      rewrite (key_eqb_trans _ _ _ E H). reflexivity.
    + destruct (key_eqb k' k1) eqn:E1; [|exact IH].
      rewrite (key_eqb_trans _ _ _ E1 H) in E. discriminate.
Qed.

Lemma dict_item_set_other (k1 k v : json) (d : dict) :
  key_eqb k k1 = false -> dict_item k1 (dict_set k v d) = dict_item k1 d.
Proof.
  intros H. induction d as [|[k' v'] d IH]; cbn.
  - now rewrite H.
  - destruct (key_eqb k' k) eqn:E; cbn.
    + destruct (key_eqb k' k1) eqn:E1; [|reflexivity].
      rewrite key_eqb_sym in E. rewrite (key_eqb_trans _ _ _ E E1) in H. discriminate.
    + destruct (key_eqb k' k1); [reflexivity|exact IH].
Qed.

Lemma dict_keys_set_mem (x k v : json) (d : dict) :
  set_mem x (dict_keys (dict_set k v d)) = set_mem x (dict_keys d) || key_eqb x k.
Proof.
  induction d as [|[k' v'] d IH]; cbn [dict_set dict_keys map fst].
  - rewrite set_mem_cons. cbn. now rewrite orb_false_r.
  - destruct (key_eqb k' k) eqn:E; cbn [dict_keys map fst]; rewrite !set_mem_cons.
    + destruct (key_eqb x k) eqn:Ex; [|now rewrite orb_false_r].
      rewrite key_eqb_sym in E. rewrite (key_eqb_trans _ _ _ Ex E). reflexivity.
    + fold (dict_keys (dict_set k v d)). fold (dict_keys d).
      rewrite IH, orb_assoc. reflexivity.
Qed.

Lemma dict_keys_set_hashable (k v : json) (d : dict) :
  hashable k = true ->
  forallb hashable (dict_keys d) = true ->
  forallb hashable (dict_keys (dict_set k v d)) = true.
Proof.
  intros Hk. induction d as [|[k' v'] d IH]; cbn.
  - now rewrite Hk.
  - intros H. apply andb_prop in H. destruct H as [H1 H2].
    destruct (key_eqb k' k); cbn; rewrite H1; [exact H2|apply IH, H2].
Qed.

Section Maps.
Context {W : Type}.



Lemma entra_users_map_onto_mem (l : list member) (x : json) :
  forall d out,
    Script.entra_users_map_onto d l = Ok out ->
    set_mem x (dict_keys out) = set_mem x (dict_keys d) || set_mem x (map displayName l).
Proof.
  induction l as [|u l IH]; intros d out H; cbn [map] in *.
  - cbn in H. injection H as <-. cbn. now rewrite orb_false_r.
  - cbn in H. destruct (hashable (displayName u)); [|discriminate].
    rewrite (IH _ _ H), dict_keys_set_mem, set_mem_cons, orb_assoc. reflexivity.
Qed.

Lemma entra_users_map_onto_hashable (l : list member) :
  forall d out,
    Script.entra_users_map_onto d l = Ok out ->
    forallb hashable (dict_keys d) = true ->
    forallb hashable (dict_keys out) = true.
Proof.
  induction l as [|u l IH]; intros d out H Hd; cbn in *.
  - now injection H as <-.
  - destruct (hashable (displayName u)) eqn:Hu; [|discriminate].
    eapply IH; [exact H|]. now apply dict_keys_set_hashable.
Qed.

Lemma entra_users_map_onto_ok (l : list member) :
  forall d,
    forallb hashable (map displayName l) = true ->
    exists out, Script.entra_users_map_onto d l = Ok out.
Proof.
  induction l as [|u l IH]; intros d H; cbn in *; [eauto|].
  apply andb_prop in H. destruct H as [Hu Hl]. rewrite Hu. apply IH, Hl.
Qed.
End Maps.

(** *** Sets hold each key once *)

Lemma distinct_app_one (s : list json) (x : json) :
  distinct s = true -> set_mem x s = false -> distinct (s ++ [x]) = true.
Proof.
  induction s as [|y s IH]; cbn [app distinct]; intros D M; [reflexivity|].
  apply andb_prop in D. destruct D as [D1 D2].
  rewrite set_mem_cons in M. apply orb_false_elim in M. destruct M as [M1 M2].
  rewrite set_mem_app, IH by assumption.
  apply negb_true_iff in D1. rewrite D1. cbn.
  rewrite key_eqb_sym, M1. reflexivity.
Qed.

Lemma py_set_onto_distinct (l : list json) :
  forall s out,
    py_set_onto s l = Ok out -> distinct s = true -> distinct out = true.
Proof.
  induction l as [|y l IH]; intros s out H D; cbn in H.
  - now injection H as <-.
  - destruct (hashable y); [|discriminate].
    eapply IH; [exact H|]. unfold set_add.
    destruct (set_mem y s) eqn:M; [exact D|]. now apply distinct_app_one.
Qed.

Lemma filter_distinct (f : json -> bool) (l : list json) :
  distinct l = true -> distinct (filter f l) = true.
Proof.
  induction l as [|x l IH]; cbn [filter distinct]; intros D; [reflexivity|].
  apply andb_prop in D. destruct D as [D1 D2].
  destruct (f x); [|auto]. cbn [distinct]. rewrite IH by assumption.
  rewrite andb_true_r. apply negb_true_iff. apply negb_true_iff in D1.
  unfold set_mem in *. destruct (existsb (key_eqb x) (filter f l)) eqn:E; [|reflexivity].
  apply existsb_exists in E. destruct E as [z [Hz Hk]].
  apply filter_In in Hz. destruct Hz as [Hz _].
  assert (existsb (key_eqb x) l = true) by (apply existsb_exists; eauto).
  congruence.
Qed.


(** ** Which computations send a PATCH *)

Section NoPatch.
Context {W : Type}.

Lemma no_patch_ret {A} (a : A) : no_patch (W := W) (ret a).
Proof. intros w. reflexivity. Qed.

Lemma no_patch_raise {A} (e : exn) : no_patch (W := W) (A := A) (raise e).
Proof. intros w. reflexivity. Qed.

Lemma no_patch_out_of_fuel {A} : no_patch (W := W) (A := A) out_of_fuel.
Proof. intros w. reflexivity. Qed.

Lemma no_patch_lift {A} (r : res A) : no_patch (W := W) (lift r).
Proof. intros w. destruct r; reflexivity. Qed.

Lemma no_patch_log lvl msg : no_patch (W := W) (log lvl msg).
Proof. intros w. reflexivity. Qed.

Lemma no_patch_print msg : no_patch (W := W) (print msg).
Proof. intros w. reflexivity. Qed.

Lemma no_patch_sleep n : no_patch (W := W) (sleep n).
Proof. intros w. reflexivity. Qed.

Lemma no_patch_send (serve : W -> request -> response * W) (q : request) :
  is_patch q = false -> no_patch (send serve q).
Proof.
  intros H w. unfold send. destruct (serve w q) as [r w'].
  unfold patch_sent. cbn. now rewrite H.
Qed.

Lemma no_patch_bind {A B} (m : M W A) (k : A -> M W B) :
  no_patch m -> (forall a, no_patch (k a)) -> no_patch (bind m k).
Proof.
  intros Hm Hk w. unfold bind. specialize (Hm w).
  destruct (m w) as [[[a|e|] t] w1]; cbn [events fst snd] in *; try exact Hm.
  specialize (Hk a w1). destruct (k a w1) as [[o t'] w2].
  cbn [events fst snd] in *. now rewrite patch_sent_app, Hm, Hk.
Qed.

Lemma no_patch_try {A} (m : M W A) (h : exn -> M W A) :
  no_patch m -> (forall e, no_patch (h e)) -> no_patch (try_except m h).
Proof.
  intros Hm Hh w. unfold try_except. specialize (Hm w).
  destruct (m w) as [[[a|e|] t] w1]; cbn [events fst snd] in *; try exact Hm.
  specialize (Hh e w1). destruct (h e w1) as [[o t'] w2].
  cbn [events fst snd] in *. now rewrite patch_sent_app, Hm, Hh.
Qed.

Lemma no_patch_exchanges {A} (m : M W A) :
  (forall w q r, In (q, r) (exchanges (events (m w))) -> is_patch q = false) ->
  no_patch m.
Proof.
  intros H w. unfold patch_sent.
  destruct (existsb _ _) eqn:E; [|reflexivity].
  apply existsb_exists in E. destruct E as [[q r] [Hin Hp]].
  cbn in Hp. rewrite (H w q r Hin) in Hp. discriminate.
Qed.
End NoPatch.

Ltac no_patch_step :=
  first
    [ apply no_patch_ret | apply no_patch_raise | apply no_patch_out_of_fuel
    | apply no_patch_lift | apply no_patch_log | apply no_patch_print
    | apply no_patch_sleep
    | apply no_patch_send; reflexivity
    | apply no_patch_bind; [|intros ?]
    | apply no_patch_try; [|intros ?]
    | match goal with
      | |- no_patch (if ?b then _ else _) => destruct b
      | |- no_patch (match ?x with _ => _ end) => destruct x
      | |- no_patch (let (_, _) := ?x in _) => destruct x
      end ].

Ltac no_patch_tac := repeat no_patch_step.

Section Fetches.
Context {W : Type}.
Variable serve : W -> request -> response * W.
Variable cfg : config.

Lemma no_patch_get_access_token : no_patch (Script.get_access_token serve).
Proof. unfold Script.get_access_token, Script.msal. no_patch_tac. Qed.

Lemma no_patch_requests_get url headers params :
  no_patch (Requests.requests_get serve url headers params).
Proof. unfold Requests.requests_get. no_patch_tac. Qed.

Lemma no_patch_raise_for_status r : no_patch (W := W) (Requests.raise_for_status r).
Proof. unfold Requests.raise_for_status. no_patch_tac. Qed.

Lemma no_patch_http_get url headers params :
  no_patch (Urllib3.http_request serve GET url headers params None).
Proof. unfold Urllib3.http_request. no_patch_tac. Qed.

Lemma no_patch_handle r fn : no_patch (W := W) (Urllib3.handle_urllib3_response r fn).
Proof. unfold Urllib3.handle_urllib3_response. no_patch_tac. Qed.
End Fetches.

Create HintDb no_patch.

#[local] Hint Resolve no_patch_requests_get no_patch_raise_for_status
  no_patch_http_get no_patch_handle : no_patch.

Ltac no_patch_script := repeat first [ solve [auto with no_patch] | no_patch_step ].

Section Functions.
Context {W : Type}.
Variable serve : W -> request -> response * W.
Variable cfg : config.

Lemma no_patch_get_entra_group_id name token :
  no_patch (Requests.get_entra_group_id serve name token).
Proof. unfold Requests.get_entra_group_id. no_patch_script. Qed.

Lemma no_patch_get_entra_group_id_urllib3 name token :
  no_patch (Urllib3.get_entra_group_id serve name token).
Proof. unfold Urllib3.get_entra_group_id. no_patch_script. Qed.

Lemma no_patch_members_loop fuel :
  forall url headers params acc,
    no_patch (Requests.get_entra_group_members_loop serve fuel url headers params acc).
Proof.
  induction fuel as [|fuel IH]; intros; cbn [Requests.get_entra_group_members_loop];
    no_patch_script.
Qed.

Lemma no_patch_members_loop_urllib3 fuel :
  forall url headers params acc,
    no_patch (Urllib3.get_entra_group_members_loop serve fuel url headers params acc).
Proof.
  induction fuel as [|fuel IH]; intros; cbn [Urllib3.get_entra_group_members_loop];
    no_patch_script.
Qed.

Lemma no_patch_get_entra_group_members fuel gid token :
  no_patch (Requests.get_entra_group_members serve fuel gid token).
Proof.
  unfold Requests.get_entra_group_members.
  pose proof no_patch_members_loop. no_patch_script.
Qed.

Lemma no_patch_get_entra_group_members_urllib3 fuel gid token :
  no_patch (Urllib3.get_entra_group_members serve fuel gid token).
Proof.
  unfold Urllib3.get_entra_group_members.
  pose proof no_patch_members_loop_urllib3. no_patch_script.
Qed.

Lemma no_patch_group_page name start :
  no_patch (Requests.get_netskope_group_id_page serve cfg name start).
Proof. unfold Requests.get_netskope_group_id_page. no_patch_script. Qed.

Lemma no_patch_user_page username start :
  no_patch (Requests.get_netskope_user_id_page serve cfg username start).
Proof. unfold Requests.get_netskope_user_id_page. no_patch_script. Qed.

Lemma no_patch_group_page_urllib3 name start :
  no_patch (Urllib3.get_netskope_group_id_page serve cfg name start).
Proof. unfold Urllib3.get_netskope_group_id_page. no_patch_script. Qed.

Lemma no_patch_user_page_urllib3 username start :
  no_patch (Urllib3.get_netskope_user_id_page serve cfg username start).
Proof. unfold Urllib3.get_netskope_user_id_page. no_patch_script. Qed.

Lemma no_patch_get_netskope_group_id fuel name :
  no_patch (Requests.get_netskope_group_id serve cfg fuel name).
Proof.
  unfold Requests.get_netskope_group_id. apply no_patch_bind; [apply no_patch_log|].
  intros _. generalize 1. induction fuel as [|fuel IH]; intros start;
    cbn [Requests.get_netskope_group_id_from]; [apply no_patch_out_of_fuel|].
  apply no_patch_bind; [apply no_patch_group_page|].
  intros [v|]; [apply no_patch_ret|apply IH].
Qed.

Lemma no_patch_get_netskope_user_id fuel username :
  no_patch (Requests.get_netskope_user_id serve cfg fuel username).
Proof.
  unfold Requests.get_netskope_user_id. apply no_patch_bind; [apply no_patch_log|].
  intros _. generalize 1. induction fuel as [|fuel IH]; intros start;
    cbn [Requests.get_netskope_user_id_from]; [apply no_patch_out_of_fuel|].
  apply no_patch_bind; [apply no_patch_user_page|].
  intros [v|]; [apply no_patch_ret|apply IH].
Qed.

Lemma no_patch_get_netskope_group_id_urllib3 fuel name :
  no_patch (Urllib3.get_netskope_group_id serve cfg fuel name).
Proof.
  unfold Urllib3.get_netskope_group_id. apply no_patch_bind; [apply no_patch_log|].
  intros _. generalize 1. induction fuel as [|fuel IH]; intros start;
    cbn [Urllib3.get_netskope_group_id_from]; [apply no_patch_out_of_fuel|].
  apply no_patch_bind; [apply no_patch_group_page_urllib3|].
  intros [v|]; [apply no_patch_ret|apply IH].
Qed.

Lemma no_patch_get_netskope_user_id_urllib3 fuel username :
  no_patch (Urllib3.get_netskope_user_id serve cfg fuel username).
Proof.
  unfold Urllib3.get_netskope_user_id. apply no_patch_bind; [apply no_patch_log|].
  intros _. generalize 1. induction fuel as [|fuel IH]; intros start;
    cbn [Urllib3.get_netskope_user_id_from]; [apply no_patch_out_of_fuel|].
  apply no_patch_bind; [apply no_patch_user_page_urllib3|].
  intros [v|]; [apply no_patch_ret|apply IH].
Qed.

Lemma no_patch_get_netskope_group_members gid :
  no_patch (Requests.get_netskope_group_members serve cfg gid).
Proof. unfold Requests.get_netskope_group_members. no_patch_script. Qed.

Lemma no_patch_get_netskope_group_members_urllib3 gid :
  no_patch (Urllib3.get_netskope_group_members serve cfg gid).
Proof. unfold Urllib3.get_netskope_group_members. no_patch_script. Qed.
End Functions.

Section BindFacts.
Context {W : Type}.

Lemma patch_in_bind {A B} (m : M W A) (k : A -> M W B) (w : W) :
  no_patch m ->
  patch_sent (events (bind m k w)) = true ->
  exists a t w', m w = (Returns a, t, w') /\ patch_sent (events (k a w')) = true.
Proof.
  intros Hm H. unfold bind in H. specialize (Hm w).
  destruct (m w) as [[[a|e|] t] w1]; cbn [events fst snd] in *; try congruence.
  exists a, t, w1. split; [reflexivity|].
  destruct (k a w1) as [[o t'] w2]. cbn [events fst snd] in *.
  rewrite patch_sent_app, Hm in H. exact H.
Qed.

Lemma patch_in_lift_bind {A B} (r : res A) (k : A -> M W B) (w : W) :
  patch_sent (events (bind (lift r) k w)) = true ->
  exists a, r = Ok a /\ patch_sent (events (k a w)) = true.
Proof.
  intros H. destruct r as [a|e]; [|discriminate].
  exists a. split; [reflexivity|].
  unfold bind, lift, ret in H. destruct (k a w) as [[o t'] w2]. exact H.
Qed.

Lemma patch_through_bind {A B} (m : M W A) (k : A -> M W B) (w : W) a t w' :
  m w = (Returns a, t, w') ->
  patch_sent (events (k a w')) = true ->
  patch_sent (events (bind m k w)) = true.
Proof.
  intros Hm H. rewrite (bind_returns m k w a t w' Hm). cbn [events fst snd].
  rewrite patch_sent_app, H. apply orb_true_r.
Qed.

Lemma patch_through_lift_bind {A B} (r : res A) (k : A -> M W B) (w : W) a :
  r = Ok a ->
  patch_sent (events (k a w)) = true ->
  patch_sent (events (bind (lift r) k w)) = true.
Proof. intros -> H. eapply patch_through_bind; [reflexivity|exact H]. Qed.

Lemma bind_lift_ok {A B} (a : A) (k : A -> M W B) (w : W) :
  bind (lift (Ok a)) k w = k a w.
Proof.
  unfold bind, lift, ret. destruct (k a w) as [[o t] w']. reflexivity.
Qed.

Lemma bind_log {B} lvl msg (k : unit -> M W B) (w : W) :
  bind (log lvl msg) k w
  = (result (k tt w), Logged lvl msg :: events (k tt w), world (k tt w)).
Proof.
  unfold bind, log, emit. destruct (k tt w) as [[o t] w']. reflexivity.
Qed.

Lemma try_except_patch {A} (m : M W A) (h : exn -> M W A) (w : W) :
  (forall e, no_patch (h e)) ->
  patch_sent (events (try_except m h w)) = patch_sent (events (m w)).
Proof.
  intros Hh. unfold try_except.
  destruct (m w) as [[[a|e|] t] w1]; try reflexivity.
  specialize (Hh e w1). destruct (h e w1) as [[o t'] w2].
  cbn [events fst snd] in *. now rewrite patch_sent_app, Hh, orb_false_r.
Qed.
End BindFacts.

Section Explained.
Context {W : Type}.
Variable cfg : config.

Lemma explained_bind {A B} (m : M W A) (k : A -> M W B) (w : W) :
  (forall a t w', m w = (Returns a, t, w') -> explained cfg (k a w')) ->
  explained cfg (bind m k w).
Proof.
  intros H. unfold bind.
  destruct (m w) as [[[a|e|] t] w1].
  - specialize (H a t w1 eq_refl). destruct (k a w1) as [[o t'] w2].
    unfold explained in *. cbn [result events fst snd] in *.
    destruct H as [H|[H|[H|[H|[H|H]]]]]; auto.
    + right; right; left. apply in_or_app; auto.
    + right; right; right; left. apply in_or_app; auto.
    + right; right; right; right; left. apply in_or_app; auto.
    + do 5 right. rewrite patch_sent_app, H. apply orb_true_r.
  - left. eexists. reflexivity.
  - right; left. reflexivity.
Qed.

Lemma explained_lift_bind {A B} (r : res A) (k : A -> M W B) (w : W) :
  (forall a, r = Ok a -> explained cfg (k a w)) ->
  explained cfg (bind (lift r) k w).
Proof.
  intros H. apply explained_bind. intros a t w' E.
  destruct r as [a'|e]; [|discriminate]. injection E as -> _ ->. auto.
Qed.
End Explained.

Section MainFacts.
Context {W : Type}.
Variable serve : W -> request -> response * W.
Variable cfg : config.
Variable set_iter : list json -> list json.
Variable get_entra_group_id : string -> json -> M W json.
Variable get_entra_group_members : json -> json -> M W (list member).
Variable get_netskope_group_id : string -> M W json.
Variable get_netskope_group_members : json -> M W (list json).
Variable get_netskope_user_id : json -> M W json.
Variable update_netskope_group : json -> list json -> M W unit.

Hypothesis quiet_entra_group_id : forall n t, no_patch (get_entra_group_id n t).
Hypothesis quiet_entra_group_members : forall g t, no_patch (get_entra_group_members g t).
Hypothesis quiet_netskope_group_id : forall n, no_patch (get_netskope_group_id n).
Hypothesis quiet_netskope_group_members : forall g, no_patch (get_netskope_group_members g).
Hypothesis quiet_netskope_user_id : forall u, no_patch (get_netskope_user_id u).
Hypothesis update_patches : forall g ids w,
  patch_sent (events (update_netskope_group g ids w))
  = truthy g && match ids with [] => false | _ => true end.

Local Abbreviation fetch_entra_users :=
  (Script.fetch_entra_users serve cfg get_entra_group_id get_entra_group_members).
Local Abbreviation fetch_netskope_users :=
  (Script.fetch_netskope_users cfg get_netskope_group_id get_netskope_group_members).
Local Abbreviation find_netskope_ids := (Script.find_netskope_ids get_netskope_user_id).
Local Abbreviation update_if_needed := (Script.update_if_needed cfg update_netskope_group).
Local Abbreviation reconcile :=
  (Script.reconcile cfg set_iter get_netskope_user_id update_netskope_group).
Local Abbreviation body :=
  (Script.main_body serve cfg set_iter get_entra_group_id get_entra_group_members
     get_netskope_group_id get_netskope_group_members get_netskope_user_id
     update_netskope_group).
Local Abbreviation main :=
  (Script.main serve cfg set_iter get_entra_group_id get_entra_group_members
     get_netskope_group_id get_netskope_group_members get_netskope_user_id
     update_netskope_group).

Lemma no_patch_fetch_entra_users : no_patch fetch_entra_users.
Proof.
  unfold Script.fetch_entra_users.
  pose proof (no_patch_get_access_token serve).
  repeat first [ solve [auto] | no_patch_step ].
Qed.

Lemma no_patch_fetch_netskope_users : no_patch fetch_netskope_users.
Proof.
  unfold Script.fetch_netskope_users.
  repeat first [ solve [auto] | no_patch_step ].
Qed.

Lemma no_patch_print_names names : no_patch (W := W) (Script.print_names names).
Proof.
  induction names as [|n names IH]; cbn [Script.print_names];
    repeat first [ solve [auto] | no_patch_step ].
Qed.

Lemma no_patch_find_netskope_ids names um :
  forall acc, no_patch (find_netskope_ids names um acc).
Proof.
  induction names as [|n names IH]; intros acc; cbn [Script.find_netskope_ids];
    repeat first [ solve [auto] | no_patch_step ].
Qed.

(** The update step sends the PATCH exactly when there is an identifier to
    add and the group identifier was found. *)
Lemma update_if_needed_patch (gid : json) (ids : list json) (w : W) :
  patch_sent (events (update_if_needed gid ids w))
  = truthy gid && match ids with [] => false | _ => true end.
Proof.
  unfold Script.update_if_needed.
  destruct ids as [|i ids]; [now rewrite andb_false_r|].
  destruct (truthy gid) eqn:G; [|reflexivity].
  unfold bind, print, emit.
  pose proof (update_patches gid (i :: ids) w) as H. rewrite G in H.
  destruct (update_netskope_group gid (i :: ids) w) as [[o t] w1].
  exact H.
Qed.

Lemma update_if_needed_silent (gid : json) (ids : list json) (w : W) :
  truthy gid && match ids with [] => false | _ => true end = false ->
  update_if_needed gid ids w
  = (Returns tt,
     match ids with
     | [] => [no_users_printed]
     | _ => [group_not_found_printed cfg; group_not_found_logged cfg]
     end, w).
Proof.
  unfold Script.update_if_needed.
  destruct ids as [|i ids]; [reflexivity|].
  rewrite andb_true_r. intros ->. reflexivity.
Qed.

Lemma update_if_needed_explained (gid : json) (ids : list json) (w : W) :
  explained cfg (update_if_needed gid ids w).
Proof.
  destruct (truthy gid && match ids with [] => false | _ => true end) eqn:E.
  - do 5 right. now rewrite update_if_needed_patch.
  - rewrite (update_if_needed_silent gid ids w E).
    destruct ids; unfold explained; cbn [events fst snd]; cbn; auto 7.
Qed.

Lemma print_names_run (names : list json) (w : W) :
  Script.print_names names w
  = (Returns tt, map (fun name => Printed [L "- "; V name]) names, w).
Proof.
  induction names as [|n names IH]; [reflexivity|].
  cbn [Script.print_names map]. unfold bind, print, emit. now rewrite IH.
Qed.

Lemma exchanges_printed (names : list json) :
  exchanges (map (fun name => Printed [L "- "; V name]) names) = [].
Proof. induction names; [reflexivity|exact IHnames]. Qed.

(** The run of the comparison when nobody is missing. *)
Lemma reconcile_none um keys gid set (w : W) :
  Script.missing_display_names keys set = [] ->
  reconcile um keys gid set w
  = (Returns tt,
     [ Logged INFO [L "--- Comparing User Lists ---"];
       Printed [L nl; L rule];
       Printed [L "Users in Entra Group '"; L (ENTRA_GROUP_NAME cfg);
                L "' but NOT in Netskope Group '"; L (NETSKOPE_GROUP_NAME cfg); L "':"];
       Printed [L rule];
       all_present_printed;
       Printed [L rule; L nl] ], w).
Proof.
  intros E. unfold Script.reconcile. rewrite E. reflexivity.
Qed.

(** The run of the comparison when somebody is missing. *)
Lemma reconcile_some um keys gid set (w : W) :
  Script.missing_display_names keys set <> [] ->
  exists pre,
    exchanges pre = [] /\ ~ In all_present_printed pre /\
    reconcile um keys gid set w
    = match py_sorted (Script.missing_display_names keys set) with
      | Err e =>
          (Raises e,
           [ Logged INFO [L "--- Comparing User Lists ---"];
             Printed [L nl; L rule];
             Printed [L "Users in Entra Group '"; L (ENTRA_GROUP_NAME cfg);
                      L "' but NOT in Netskope Group '"; L (NETSKOPE_GROUP_NAME cfg);
                      L "':"];
             Printed [L rule] ], w)
      | Ok _ =>
          let y := find_netskope_ids
                     (set_iter (Script.missing_display_names keys set)) um [] w in
          match result y with
          | Returns ids =>
              let z := update_if_needed gid ids (world y) in
              (result z, pre ++ events y ++ events z, world z)
          | Raises e => (Raises e, pre ++ events y, world y)
          | OutOfFuel => (OutOfFuel, pre ++ events y, world y)
          end
      end.
Proof.
  intros E. unfold Script.reconcile.
  destruct (Script.missing_display_names keys set) as [|x missing] eqn:Em; [congruence|].
  destruct (py_sorted (x :: missing)) as [names|e] eqn:Es.
  - exists ([ Logged INFO [L "--- Comparing User Lists ---"];
              Printed [L nl; L rule];
              Printed [L "Users in Entra Group '"; L (ENTRA_GROUP_NAME cfg);
                       L "' but NOT in Netskope Group '"; L (NETSKOPE_GROUP_NAME cfg);
                       L "':"];
              Printed [L rule] ]
            ++ map (fun name => Printed [L "- "; V name]) names
            ++ [ Printed [L nl; L "Total users to potentially add to Netskope: ";
                          I (len (x :: missing))];
                 Printed [L rule; L nl];
                 Logged INFO [L "--- Finding Netskope IDs for Missing Users ---"] ]).
    split; [|split].
    + rewrite !exchanges_app, exchanges_printed. reflexivity.
    + intros H. apply in_app_or in H. destruct H as [H|H].
      * cbn in H. repeat (destruct H as [H|H]; [discriminate|]). exact H.
      * apply in_app_or in H. destruct H as [H|H].
        -- apply in_map_iff in H. destruct H as [n [H _]]. discriminate.
        -- cbn in H. repeat (destruct H as [H|H]; [discriminate|]). exact H.
    + unfold bind at 1 2 3 4 5. unfold log, print, emit, lift, ret.
      unfold bind at 1. rewrite print_names_run.
      unfold bind at 1 2 3 4.
      cbv zeta.
      destruct (find_netskope_ids _ _ _ w) as [[[ids|e|] t3] w3];
        cbn [result events world fst snd].
      * destruct (update_if_needed gid ids w3) as [[o t4] w4].
        cbn [result events world fst snd]. cbn [app]. rewrite <- !app_assoc. reflexivity.
      * cbn [app]. rewrite <- !app_assoc. reflexivity.
      * cbn [app]. rewrite <- !app_assoc. reflexivity.
  - exists []. split; [reflexivity|]. split; [intros []|]. reflexivity.
Qed.
(** [main] is its [try] block, with the two closing lines when the block
    raises. *)
Lemma main_run (w0 : W) :
  main w0
  = match result (body w0) with
    | Raises e =>
        (Returns tt,
         events (body w0)
         ++ [Logged ERROR [L "An error occurred in the main process: "; X e];
             error_printed e],
         world (body w0))
    | _ => body w0
    end.
Proof.
  unfold Script.main, try_except.
  destruct (body w0) as [[[u|e|] t] w1]; reflexivity.
Qed.

(** The [try] block once both snapshots are fetched. *)
Lemma body_run (w0 w1 w2 : W) E um keys gid N set t1 t2 :
  fetch_entra_users w0 = (Returns E, t1, w1) ->
  Script.entra_users_map_of E = Ok um ->
  py_set (dict_keys um) = Ok keys ->
  fetch_netskope_users w1 = (Returns (gid, N), t2, w2) ->
  py_set N = Ok set ->
  let x := reconcile um keys gid set w2 in
  body w0
  = (result x,
     t1 ++ [Logged INFO [L "--- Finished Entra User Fetch ---"]]
        ++ t2 ++ [Logged INFO [L "--- Finished Netskope User Fetch ---"]]
        ++ events x,
     world x).
Proof.
  intros H1 H2 H3 H4 H5 x. subst x. unfold Script.main_body.
  rewrite (bind_returns _ _ _ _ _ _ H1). rewrite H2, bind_lift_ok, H3, bind_lift_ok.
  rewrite bind_log. rewrite (bind_returns _ _ _ _ _ _ H4).
  rewrite H5, bind_lift_ok, bind_log.
  cbn [result events world fst snd app]. reflexivity.
Qed.

(** A PATCH is sent exactly when the run reaches the update step with at
    least one identifier and a group identifier. *)
Lemma main_patch_iff (w0 : W) :
  patch_sent (events (main w0)) = true <->
  exists gid ids,
    reaches_update serve cfg set_iter get_entra_group_id get_entra_group_members
      get_netskope_group_id get_netskope_group_members get_netskope_user_id
      w0 gid ids
    /\ ids <> [] /\ truthy gid = true.
Proof.
  assert (Hm : patch_sent (events (main w0)) = patch_sent (events (body w0))).
  { rewrite main_run. destruct (result (body w0)); try reflexivity.
    cbn [events fst snd]. rewrite patch_sent_app. cbn. apply orb_false_r. }
  rewrite Hm. split.
  - intros H. unfold Script.main_body in H.
    apply patch_in_bind in H; [|apply no_patch_fetch_entra_users].
    destruct H as (E & t1 & w1 & H1 & H).
    apply patch_in_lift_bind in H. destruct H as (um & H2 & H).
    apply patch_in_lift_bind in H. destruct H as (keys & H3 & H).
    apply patch_in_bind in H; [|apply no_patch_log].
    destruct H as (u1 & tl1 & w1' & El & H).
    unfold log, emit in El. injection El as <- <- <-.
    apply patch_in_bind in H; [|apply no_patch_fetch_netskope_users].
    destruct H as ([gid N] & t2 & w2 & H4 & H).
    apply patch_in_lift_bind in H. destruct H as (set & H5 & H).
    apply patch_in_bind in H; [|apply no_patch_log].
    destruct H as (u2 & tl2 & w2' & El & H).
    unfold log, emit in El. injection El as <- <- <-.
    destruct (Script.missing_display_names keys set) as [|x ms] eqn:Em.
    { rewrite (reconcile_none _ _ _ _ _ Em) in H. discriminate. }
    destruct (reconcile_some um keys gid set w2) as (pre & Hp & _ & Hr).
    { rewrite Em. discriminate. }
    rewrite Hr, Em in H. clear Hr.
    destruct (py_sorted (x :: ms)) as [names|e] eqn:Es; [|discriminate].
    cbv zeta in H.
    pose proof (no_patch_find_netskope_ids (set_iter (x :: ms)) um [] w2) as Hf.
    destruct (find_netskope_ids (set_iter (x :: ms)) um [] w2) as [[[ids|e|] t3] w3] eqn:Ef;
      cbn [result events world fst snd] in H, Hf.
    + rewrite !patch_sent_app, Hf in H. unfold patch_sent at 1 in H. rewrite Hp in H.
      cbn [existsb orb] in H. rewrite update_if_needed_patch in H.
      apply andb_prop in H. destruct H as [Hg Hi].
      exists gid, ids. split; [|split; [|exact Hg]].
      * unfold reaches_update. exists E, um, keys, N, set, names, t1, w1, t2, w2, t3, w3.
        rewrite Em. repeat split; try assumption. discriminate.
      * destruct ids; [discriminate|discriminate].
    + rewrite !patch_sent_app, Hf in H. unfold patch_sent at 1 in H. rewrite Hp in H.
      discriminate.
    + rewrite !patch_sent_app, Hf in H. unfold patch_sent at 1 in H. rewrite Hp in H.
      discriminate.
  - intros (gid & ids & R & Hi & Hg).
    destruct R as (E & um & keys & N & set & names & t1 & w1 & t2 & w2 & t3 & w3
                   & H1 & H2 & H3 & H4 & H5 & Hm' & Hs & Hf).
    rewrite (body_run _ _ _ _ _ _ _ _ _ _ _ H1 H2 H3 H4 H5). cbn [events fst snd].
    rewrite !patch_sent_app.
    destruct (reconcile_some um keys gid set w2 Hm') as (pre & Hp & _ & Hr).
    rewrite Hr, Hs. cbv zeta. rewrite Hf.
    cbn [result events world fst snd]. rewrite !patch_sent_app, update_if_needed_patch, Hg.
    destruct ids; [congruence|]. cbn. now rewrite !orb_true_r.
Qed.
Lemma reconcile_explained um keys gid set (w : W) :
  explained cfg (reconcile um keys gid set w).
Proof.
  destruct (Script.missing_display_names keys set) as [|x ms] eqn:Em.
  - rewrite (reconcile_none _ _ _ _ _ Em). unfold explained. cbn. auto 10.
  - destruct (reconcile_some um keys gid set w) as (pre & Hp & _ & Hr).
    { rewrite Em. discriminate. }
    rewrite Hr. clear Hr.
    destruct (py_sorted _) as [names|e]; [|left; eexists; reflexivity].
    cbv zeta.
    destruct (find_netskope_ids _ um [] w) as [[[ids|e|] t3] w3];
      cbn [result events world fst snd].
    + pose proof (update_if_needed_explained gid ids w3) as H.
      destruct (update_if_needed gid ids w3) as [[o t4] w4].
      unfold explained in *. cbn [result events world fst snd] in *.
      destruct H as [H|[H|[H|[H|[H|H]]]]]; auto.
      * right; right; left. apply in_or_app; right. apply in_or_app; auto.
      * right; right; right; left. apply in_or_app; right. apply in_or_app; auto.
      * right; right; right; right; left. apply in_or_app; right. apply in_or_app; auto.
      * do 5 right. rewrite !patch_sent_app, H. now rewrite !orb_true_r.
    + left. eexists. reflexivity.
    + right; left. reflexivity.
Qed.

Lemma body_explained (w0 : W) : explained cfg (body w0).
Proof.
  unfold Script.main_body.
  apply explained_bind. intros E t1 w1 _.
  apply explained_lift_bind. intros um _.
  apply explained_lift_bind. intros keys _.
  apply explained_bind. intros u tl w1' _.
  apply explained_bind. intros [gid N] t2 w2 _.
  apply explained_lift_bind. intros set _.
  apply explained_bind. intros u' tl' w2' _.
  apply reconcile_explained.
Qed.

(** A run of [main] that ends without a PATCH has printed why. *)
Lemma main_explained (w0 : W) :
  finished (result (main w0)) = true ->
  patch_sent (events (main w0)) = false ->
  In all_present_printed (events (main w0))
  \/ In (group_not_found_printed cfg) (events (main w0))
  \/ In no_users_printed (events (main w0))
  \/ exists e, In (error_printed e) (events (main w0)).
Proof.
  rewrite main_run. pose proof (body_explained w0) as H. unfold explained in H.
  destruct (result (body w0)) as [u|e|] eqn:R.
  - intros _ Hp. rewrite Hp in H.
    destruct H as [[e H]|[H|[H|[H|[H|H]]]]]; try discriminate; auto.
  - intros _ _. do 3 right. exists e. cbn [events fst snd].
    apply in_or_app. right. right. left. reflexivity.
  - rewrite R. discriminate.
Qed.

(** [main] never lets an exception out. *)
Lemma main_never_raises (w0 : W) (e : exn) : result (main w0) <> Raises e.
Proof.
  rewrite main_run. destruct (result (body w0)) eqn:R; try rewrite R; discriminate.
Qed.
End MainFacts.

Section Update.
Context {W : Type}.
Variable serve : W -> request -> response * W.
Variable cfg : config.

Lemma update_netskope_group_skipped (gid : json) (ids : list json) (w : W) :
  truthy gid = false \/ ids = [] ->
  Requests.update_netskope_group serve cfg gid ids w
  = (Returns tt, [update_skipped_logged], w)
  /\ Urllib3.update_netskope_group serve cfg gid ids w
     = (Returns tt, [update_skipped_logged], w).
Proof.
  intros H. unfold Requests.update_netskope_group, Urllib3.update_netskope_group.
  assert (E : negb (truthy gid) || match ids with [] => true | _ => false end = true).
  { destruct H as [-> | ->]; [reflexivity|apply orb_true_r]. }
  rewrite E. split; reflexivity.
Qed.

Lemma update_netskope_group_patch (gid : json) (ids : list json) (w : W) :
  patch_sent (events (Requests.update_netskope_group serve cfg gid ids w))
  = truthy gid && match ids with [] => false | _ => true end
  /\ patch_sent (events (Urllib3.update_netskope_group serve cfg gid ids w))
     = truthy gid && match ids with [] => false | _ => true end.
Proof.
  destruct (truthy gid) eqn:G.
  - destruct ids as [|i ids].
    + destruct (update_netskope_group_skipped gid [] w) as [-> ->]; auto.
    + destruct (update_netskope_group_exchanges serve cfg gid (i :: ids) w G)
        as [E1 E2]; [discriminate|].
      cbv zeta in E1, E2. unfold patch_sent. rewrite E1, E2. split; reflexivity.
  - destruct (update_netskope_group_skipped gid ids w) as [-> ->]; auto.
Qed.
End Update.

(** ** C2: when the PATCH is sent *)

(** C2.  [update_netskope_group] does nothing but log that it skipped
    when the group identifier is absent or the list of identifiers is empty.
    A run of [main] sends the group PATCH if and only if it gets as far as
    the update step with at least one identifier resolved for a missing
    member and with the Netskope group identifier found.  A run that ends
    without a PATCH has printed why: the "all present" line, the "group not
    found" error, the "no users to add" line, or the error line of the
    top-level handler.  This holds in both scripts. *)
Theorem patch_sent_iff_ids_resolved_and_group_found
  {W : Type} (serve : W -> request -> response * W) (cfg : config)
  (set_iter : list json -> list json) (fuel : nat) (w0 : W) :
  (forall gid ids w,
      truthy gid = false \/ ids = [] ->
      Requests.update_netskope_group serve cfg gid ids w
      = (Returns tt, [update_skipped_logged], w)
      /\ Urllib3.update_netskope_group serve cfg gid ids w
         = (Returns tt, [update_skipped_logged], w))
  /\ (patch_sent (events (Requests.main serve cfg set_iter fuel w0)) = true <->
      exists gid ids,
        reaches_update serve cfg set_iter
          (Requests.get_entra_group_id serve)
          (Requests.get_entra_group_members serve fuel)
          (Requests.get_netskope_group_id serve cfg fuel)
          (Requests.get_netskope_group_members serve cfg)
          (Requests.get_netskope_user_id serve cfg fuel) w0 gid ids
        /\ ids <> [] /\ truthy gid = true)
  /\ (finished (result (Requests.main serve cfg set_iter fuel w0)) = true ->
      patch_sent (events (Requests.main serve cfg set_iter fuel w0)) = false ->
      In all_present_printed (events (Requests.main serve cfg set_iter fuel w0))
      \/ In (group_not_found_printed cfg) (events (Requests.main serve cfg set_iter fuel w0))
      \/ In no_users_printed (events (Requests.main serve cfg set_iter fuel w0))
      \/ exists e, In (error_printed e) (events (Requests.main serve cfg set_iter fuel w0)))
  /\ (patch_sent (events (Urllib3.main serve cfg set_iter fuel w0)) = true <->
      exists gid ids,
        reaches_update serve cfg set_iter
          (Urllib3.get_entra_group_id serve)
          (Urllib3.get_entra_group_members serve fuel)
          (Urllib3.get_netskope_group_id serve cfg fuel)
          (Urllib3.get_netskope_group_members serve cfg)
          (Urllib3.get_netskope_user_id serve cfg fuel) w0 gid ids
        /\ ids <> [] /\ truthy gid = true)
  /\ (finished (result (Urllib3.main serve cfg set_iter fuel w0)) = true ->
      patch_sent (events (Urllib3.main serve cfg set_iter fuel w0)) = false ->
      In all_present_printed (events (Urllib3.main serve cfg set_iter fuel w0))
      \/ In (group_not_found_printed cfg) (events (Urllib3.main serve cfg set_iter fuel w0))
      \/ In no_users_printed (events (Urllib3.main serve cfg set_iter fuel w0))
      \/ exists e, In (error_printed e) (events (Urllib3.main serve cfg set_iter fuel w0))).
Proof.
  split; [|split; [|split; [|split]]].
  - intros. now apply update_netskope_group_skipped.
  - apply main_patch_iff.
    + apply no_patch_get_entra_group_id.
    + apply no_patch_get_entra_group_members.
    + apply no_patch_get_netskope_group_id.
    + apply no_patch_get_netskope_group_members.
    + apply no_patch_get_netskope_user_id.
    + intros. apply update_netskope_group_patch.
  - apply main_explained.
    intros. apply update_netskope_group_patch.
  - apply main_patch_iff.
    + apply no_patch_get_entra_group_id_urllib3.
    + apply no_patch_get_entra_group_members_urllib3.
    + apply no_patch_get_netskope_group_id_urllib3.
    + apply no_patch_get_netskope_group_members_urllib3.
    + apply no_patch_get_netskope_user_id_urllib3.
    + intros. apply update_netskope_group_patch.
  - apply main_explained.
    intros. apply update_netskope_group_patch.
Qed.

(** ** The diff rule *)

Lemma set_mem_str (s : string) (l : list json) :
  set_mem (JStr s) l = true <-> In (JStr s) l.
Proof.
  unfold set_mem. rewrite existsb_exists. split.
  - intros [y [Hy Hk]]. apply key_eqb_str in Hk. now subst.
  - intros H. exists (JStr s). split; [exact H|]. now apply key_eqb_str.
Qed.

Lemma py_set_onto_hashable (l : list json) :
  forall s out,
    py_set_onto s l = Ok out ->
    forallb hashable s = true -> forallb hashable out = true.
Proof.
  induction l as [|y l IH]; intros s out H Hs; cbn in H.
  - now injection H as <-.
  - destruct (hashable y) eqn:Hy; [|discriminate].
    eapply IH; [exact H|]. unfold set_add. destruct (set_mem y s); [exact Hs|].
    rewrite forallb_app, Hs. cbn. now rewrite Hy.
Qed.

Lemma set_mem_in (x : json) (l : list json) :
  In x l -> hashable x = true -> set_mem x l = true.
Proof.
  intros Hin Hx. apply existsb_exists. exists x. split; [exact Hin|].
  now apply key_eqb_refl.
Qed.

(** The difference is what the diff rule says, on keys compared as Python
    compares them. *)
Lemma missing_display_names_mem (E : list member) (N : list json) um keys set :
  Script.entra_users_map_of E = Ok um ->
  py_set (dict_keys um) = Ok keys ->
  py_set N = Ok set ->
  (forall x, set_mem x (Script.missing_display_names keys set)
             = set_mem x (map displayName E) && negb (set_mem x N))
  /\ (forall s, In (JStr s) (Script.missing_display_names keys set)
                <-> In (JStr s) (map displayName E) /\ ~ In (JStr s) N)
  /\ distinct (Script.missing_display_names keys set) = true.
Proof.
  intros Hu Hk Hs.
  assert (A : forall x, set_mem x (Script.missing_display_names keys set)
                        = set_mem x (map displayName E) && negb (set_mem x N)).
  { intros x. unfold Script.missing_display_names.
    rewrite set_difference_mem, (py_set_mem _ _ x Hk), (py_set_mem _ _ x Hs).
    unfold Script.entra_users_map_of in Hu.
    rewrite (entra_users_map_onto_mem E x [] um Hu). reflexivity. }
  split; [exact A|]. split.
  - intros s. rewrite <- !set_mem_str, A, andb_true_iff, negb_true_iff.
    rewrite not_true_iff_false. reflexivity.
  - unfold Script.missing_display_names, set_difference. apply filter_distinct.
    eapply py_set_onto_distinct; [exact Hk|reflexivity].
Qed.

(** If every Entra name is among the Netskope names, nobody is missing. *)
Lemma missing_display_names_subset (E : list member) (N : list json) um keys set :
  Script.entra_users_map_of E = Ok um ->
  py_set (dict_keys um) = Ok keys ->
  py_set N = Ok set ->
  (forall m, In m E -> set_mem (displayName m) N = true) ->
  Script.missing_display_names keys set = [].
Proof.
  intros Hu Hk Hs Hsub.
  destruct (missing_display_names_mem E N um keys set Hu Hk Hs) as [A _].
  destruct (Script.missing_display_names keys set) as [|x ms] eqn:Em; [reflexivity|].
  exfalso.
  assert (Hx : hashable x = true).
  { assert (In x (filter (fun y => negb (set_mem y set)) keys)).
    { unfold Script.missing_display_names, set_difference in Em. rewrite Em. now left. }
    apply filter_In in H. destruct H as [H _].
    pose proof (py_set_onto_hashable _ _ _ Hk eq_refl) as Hh.
    rewrite forallb_forall in Hh. auto. }
  specialize (A x). rewrite set_mem_cons, (key_eqb_refl x Hx) in A. cbn [orb] in A.
  symmetry in A. apply andb_prop in A. destruct A as [A1 A2].
  apply existsb_exists in A1. destruct A1 as [d [Hd Hk']].
  apply in_map_iff in Hd. destruct Hd as [m [<- Hm]].
  rewrite (set_mem_eq _ _ N Hk'), (Hsub m Hm) in A2. discriminate.
Qed.

Section MainAllPresent.
Context {W : Type}.
Variable serve : W -> request -> response * W.
Variable cfg : config.
Variable set_iter : list json -> list json.
Variable get_entra_group_id : string -> json -> M W json.
Variable get_entra_group_members : json -> json -> M W (list member).
Variable get_netskope_group_id : string -> M W json.
Variable get_netskope_group_members : json -> M W (list json).
Variable get_netskope_user_id : json -> M W json.
Variable update_netskope_group : json -> list json -> M W unit.

Lemma main_all_present (w0 w1 w2 : W) E gid N t1 t2 :
  Script.fetch_entra_users serve cfg get_entra_group_id get_entra_group_members w0
  = (Returns E, t1, w1) ->
  Script.fetch_netskope_users cfg get_netskope_group_id get_netskope_group_members w1
  = (Returns (gid, N), t2, w2) ->
  forallb hashable (map displayName E) = true ->
  forallb hashable N = true ->
  (forall m, In m E -> set_mem (displayName m) N = true) ->
  Script.main serve cfg set_iter get_entra_group_id get_entra_group_members
    get_netskope_group_id get_netskope_group_members get_netskope_user_id
    update_netskope_group w0
  = (Returns tt,
     t1 ++ [Logged INFO [L "--- Finished Entra User Fetch ---"]]
        ++ t2
        ++ [ Logged INFO [L "--- Finished Netskope User Fetch ---"];
             Logged INFO [L "--- Comparing User Lists ---"];
             Printed [L nl; L rule];
             Printed [L "Users in Entra Group '"; L (ENTRA_GROUP_NAME cfg);
                      L "' but NOT in Netskope Group '"; L (NETSKOPE_GROUP_NAME cfg);
                      L "':"];
             Printed [L rule];
             all_present_printed;
             Printed [L rule; L nl] ],
     w2).
Proof.
  intros H1 H4 HE HN Hsub.
  destruct (entra_users_map_onto_ok E [] HE) as [um Hu].
  assert (Hh : forallb hashable (dict_keys um) = true).
  { eapply entra_users_map_onto_hashable; [exact Hu|reflexivity]. }
  destruct (py_set_onto_ok (dict_keys um) [] Hh) as [keys Hk].
  destruct (py_set_onto_ok N [] HN) as [set Hs].
  rewrite main_run.
  rewrite (body_run _ _ _ _ _ _ _ _ _ _ _ _ _ _ _ _ _ _ _ _ H1 Hu Hk H4 Hs).
  cbv zeta.
  rewrite reconcile_none
    by (eapply missing_display_names_subset; eauto).
  reflexivity.
Qed.
End MainAllPresent.

Lemma insert_sorted_in (x : json) (l : list json) :
  forall r, insert_sorted x l = Ok r -> forall y, In y r <-> y = x \/ In y l.
Proof.
  induction l as [|z l IH]; intros r H y; cbn [insert_sorted] in H.
  - injection H as <-. cbn. intuition.
  - destruct (py_lt x z) as [[|]|e]; cbn in H; [| |discriminate].
    + injection H as <-. cbn. intuition.
    + destruct (insert_sorted x l) as [r'|e] eqn:Hr; [|discriminate].
      injection H as <-. cbn [In]. rewrite (IH r' eq_refl y). intuition.
Qed.

Lemma py_sorted_in (l : list json) :
  forall s, py_sorted l = Ok s -> forall y, In y s <-> In y l.
Proof.
  induction l as [|x l IH]; intros s H y; cbn [py_sorted] in H.
  - injection H as <-. reflexivity.
  - destruct (py_sorted l) as [s'|e] eqn:Hs; [|discriminate]. cbn in H.
    rewrite (insert_sorted_in x s' s H y), (IH s' eq_refl y). cbn. intuition.
Qed.

Lemma missing_printed_names (cfg : config) (sorted_names : list json) (total : Z)
      (name : json) :
  In (Printed [L "- "; V name]) (missing_printed cfg sorted_names total)
  <-> In name sorted_names.
Proof.
  unfold missing_printed. split.
  - intros H. apply in_app_or in H. destruct H as [H|H].
    + cbn in H. repeat (destruct H as [H|H]; [discriminate|]). destruct H.
    + apply in_app_or in H. destruct H as [H|H].
      * apply in_map_iff in H. destruct H as [n [H Hn]]. now injection H as ->.
      * cbn in H. repeat (destruct H as [H|H]; [discriminate|]). destruct H.
  - intros H. apply in_or_app; right. apply in_or_app; left.
    apply in_map_iff. eauto.
Qed.

Lemma entra_users_map_onto_names_hashable (l : list member) :
  forall d out,
    Script.entra_users_map_onto d l = Ok out ->
    forall u, In u l -> hashable (displayName u) = true.
Proof.
  induction l as [|x l IH]; intros d out H u Hin; [destruct Hin|].
  cbn [Script.entra_users_map_onto] in H.
  destruct (hashable (displayName x)) eqn:Hx; [|discriminate].
  destruct Hin as [<-|Hin]; [exact Hx|]. eapply IH; eauto.
Qed.

(** Nobody is missing exactly when every Entra display name is a Netskope
    name. *)
Lemma missing_display_names_nil (E : list member) (N : list json) um keys set :
  Script.entra_users_map_of E = Ok um ->
  py_set (dict_keys um) = Ok keys ->
  py_set N = Ok set ->
  Script.missing_display_names keys set = []
  <-> (forall m, In m E -> set_mem (displayName m) N = true).
Proof.
  intros Hu Hk Hs. split.
  - intros Hm m Hin.
    destruct (missing_display_names_mem E N um keys set Hu Hk Hs) as [A _].
    specialize (A (displayName m)). rewrite Hm in A. cbn [set_mem existsb] in A.
    rewrite (set_mem_in (displayName m) (map displayName E)) in A.
    + cbn [andb] in A. now destruct (set_mem (displayName m) N).
    + now apply in_map.
    + exact (entra_users_map_onto_names_hashable E [] um Hu m Hin).
  - apply (missing_display_names_subset E N um keys set Hu Hk Hs).
Qed.

Section MainMissing.
Context {W : Type}.
Variable serve : W -> request -> response * W.
Variable cfg : config.
Variable set_iter : list json -> list json.
Variable get_entra_group_id : string -> json -> M W json.
Variable get_entra_group_members : json -> json -> M W (list member).
Variable get_netskope_group_id : string -> M W json.
Variable get_netskope_group_members : json -> M W (list json).
Variable get_netskope_user_id : json -> M W json.
Variable update_netskope_group : json -> list json -> M W unit.

(** The run of the comparison when somebody is missing. *)
Lemma reconcile_missing um keys gid set sorted_names (w : W) :
  let missing := Script.missing_display_names keys set in
  missing <> [] ->
  py_sorted missing = Ok sorted_names ->
  let y := Script.find_netskope_ids get_netskope_user_id (set_iter missing) um [] w in
  Script.reconcile cfg set_iter get_netskope_user_id update_netskope_group
    um keys gid set w
  = match result y with
    | Returns ids =>
        let z := Script.update_if_needed cfg update_netskope_group gid ids (world y) in
        (result z,
         missing_printed cfg sorted_names (len missing) ++ events y ++ events z,
         world z)
    | Raises e =>
        (Raises e, missing_printed cfg sorted_names (len missing) ++ events y, world y)
    | OutOfFuel =>
        (OutOfFuel, missing_printed cfg sorted_names (len missing) ++ events y, world y)
    end.
Proof.
  intros missing E Es y. subst missing y. unfold Script.reconcile, missing_printed.
  destruct (Script.missing_display_names keys set) as [|x missing] eqn:Em; [congruence|].
  rewrite Es.
  unfold bind at 1 2 3 4 5. unfold log, print, emit, lift, ret.
  unfold bind at 1. rewrite print_names_run.
  unfold bind at 1 2 3 4.
  cbv zeta.
  destruct (Script.find_netskope_ids _ _ _ _ w) as [[[ids|e|] t3] w3];
    cbn [result events world fst snd].
  - destruct (Script.update_if_needed cfg update_netskope_group gid ids w3) as [[o t4] w4].
    cbn [result events world fst snd]. cbn [app]. rewrite <- !app_assoc. reflexivity.
  - cbn [app]. rewrite <- !app_assoc. reflexivity.
  - cbn [app]. rewrite <- !app_assoc. reflexivity.
Qed.

(** The events of [main] when somebody is missing. *)
Lemma main_missing (w0 w1 w2 : W) E gid N t1 t2 um keys set sorted_names :
  Script.fetch_entra_users serve cfg get_entra_group_id get_entra_group_members w0
  = (Returns E, t1, w1) ->
  Script.fetch_netskope_users cfg get_netskope_group_id get_netskope_group_members w1
  = (Returns (gid, N), t2, w2) ->
  Script.entra_users_map_of E = Ok um ->
  py_set (dict_keys um) = Ok keys ->
  py_set N = Ok set ->
  let missing := Script.missing_display_names keys set in
  missing <> [] ->
  py_sorted missing = Ok sorted_names ->
  let y := Script.find_netskope_ids get_netskope_user_id (set_iter missing) um [] w2 in
  events (Script.main serve cfg set_iter get_entra_group_id get_entra_group_members
            get_netskope_group_id get_netskope_group_members get_netskope_user_id
            update_netskope_group w0)
  = t1 ++ [Logged INFO [L "--- Finished Entra User Fetch ---"]]
       ++ t2 ++ [Logged INFO [L "--- Finished Netskope User Fetch ---"]]
       ++ missing_printed cfg sorted_names (len missing)
       ++ events y
       ++ match result y with
          | Returns ids =>
              let z := Script.update_if_needed cfg update_netskope_group gid ids
                         (world y) in
              events z ++ match result z with
                          | Raises e => main_failed e
                          | _ => []
                          end
          | Raises e => main_failed e
          | OutOfFuel => []
          end.
Proof.
  intros H1 H4 Hu Hk Hs missing Hm Hsort y.
  rewrite main_run.
  rewrite (body_run _ _ _ _ _ _ _ _ _ _ _ _ _ _ _ _ _ _ _ _ H1 Hu Hk H4 Hs).
  cbv zeta.
  rewrite (reconcile_missing um keys gid set sorted_names w2 Hm Hsort).
  cbv zeta. fold missing. fold y.
  destruct (result y) as [ids|e|]; cbn [result events world fst snd].
  - destruct (result (Script.update_if_needed _ _ gid ids (world y))) as [u|e|];
      cbn [events fst snd]; rewrite <- ?app_assoc, ?app_nil_r; reflexivity.
  - rewrite <- !app_assoc. reflexivity.
  - rewrite app_nil_r. reflexivity.
Qed.
End MainMissing.

(** ** The loop over the missing names *)

Section Resolution.
Context {W : Type}.
Variable get_netskope_user_id : json -> M W json.
Variable um : dict.

Lemma find_netskope_ids_step (name : json) (names acc : list json) (w : W) upn :
  dict_item name um = Ok upn ->
  let x := get_netskope_user_id upn w in
  Script.find_netskope_ids get_netskope_user_id (name :: names) um acc w
  = match result x with
    | Returns id =>
        if truthy id then
          let y := Script.find_netskope_ids get_netskope_user_id names um
                     (acc ++ [id]) (world x) in
          (result y, events x ++ events y, world y)
        else
          let y := Script.find_netskope_ids get_netskope_user_id names um
                     acc (world x) in
          (result y,
           events x ++ not_found_printed name upn :: not_found_logged name upn :: events y,
           world y)
    | Raises e => (Raises e, events x, world x)
    | OutOfFuel => (OutOfFuel, events x, world x)
    end.
Proof.
  intros Hd x. subst x. cbn [Script.find_netskope_ids]. rewrite Hd, bind_lift_ok.
  unfold bind at 1.
  destruct (get_netskope_user_id upn w) as [[[id|e|] t] w1];
    cbn [result events world fst snd]; try reflexivity.
  destruct (truthy id).
  - destruct (Script.find_netskope_ids _ names um (acc ++ [id]) w1) as [[o t'] w2].
    reflexivity.
  - unfold bind, print, log, emit.
    destruct (Script.find_netskope_ids _ names um acc w1) as [[o t'] w2].
    reflexivity.
Qed.

Lemma find_netskope_ids_resolved names (w w' : W) rs :
  resolved_in_turn get_netskope_user_id um names w rs w' ->
  forall acc,
    let x := Script.find_netskope_ids get_netskope_user_id names um acc w in
    result x = Returns (acc ++ filter truthy (returned_ids rs))
    /\ world x = w'
    /\ (forall name upn id,
           In (name, upn, id) rs -> truthy id = false ->
           In (not_found_printed name upn) (events x)
           /\ In (not_found_logged name upn) (events x)).
Proof.
  induction 1 as [w|name upn id names t w w1 w2 rs Hd Hl Hr IH]; intros acc.
  - cbn. rewrite app_nil_r. split; [reflexivity|]. split; [reflexivity|].
    intros ? ? ? [].
  - cbv zeta. rewrite (find_netskope_ids_step name names acc w upn Hd). cbv zeta.
    rewrite Hl. cbn [result events world fst snd].
    unfold returned_ids. cbn [map snd filter]. fold (returned_ids rs).
    destruct (truthy id) eqn:T.
    + destruct (IH (acc ++ [id])) as (R & Wd & Hw). cbv zeta in R, Wd, Hw.
      rewrite R, Wd, <- app_assoc. split; [reflexivity|]. split; [reflexivity|].
      intros n u i [Hin|Hin] Hi.
      * injection Hin as <- <- <-. congruence.
      * destruct (Hw n u i Hin Hi). split; apply in_or_app; auto.
    + destruct (IH acc) as (R & Wd & Hw). cbv zeta in R, Wd, Hw.
      rewrite R, Wd. split; [reflexivity|]. split; [reflexivity|].
      intros n u i [Hin|Hin] Hi.
      * injection Hin as <- <- <-.
        split; apply in_or_app; right; [left|right; left]; reflexivity.
      * destruct (Hw n u i Hin Hi).
        split; apply in_or_app; right; right; right; assumption.
Qed.

End Resolution.

Section PageRequests.
Context {W : Type}.
Variable serve : W -> request -> response * W.
Variable page : Z -> M W (option json).
Variable request_at : Z -> request.

Hypothesis page_exchanges : forall start w,
  exchanges (events (page start w))
  = [(request_at start, fst (serve w (request_at start)))].

End PageRequests.

Section UserSearch.
Context {W : Type}.
Variable serve : W -> request -> response * W.
Variable cfg : config.


End UserSearch.


Section Lookups.
Context {W : Type}.
Variable get_netskope_user_id : json -> M W json.
Variable um : dict.


End Lookups.

Section FirstRequest.
Context {W : Type}.
Variable serve : W -> request -> response * W.
Variable cfg : config.


End FirstRequest.



(** ** C9: entries that share a display name *)


(** ** C1: the diff rule and what the run of [main] shows of it *)

(** C1.  The missing set that [main] computes from the Entra member list
    [E] and the Netskope member names [N] is the set difference of the
    display names: a key is in it exactly when it is a display name of [E]
    and not a name of [N] (keys compared as Python compares them; for
    strings this is plain membership), no name is in it twice, and it is
    empty exactly when every Entra display name is among the Netskope names.
    The run of [main] shows this set.  When both snapshots are fetched and
    every Entra display name is among the Netskope names, [main] prints the
    "all present" line and returns, and no PATCH request is made.  When both
    snapshots are fetched and the difference is not empty, the events of
    [main] are those of the two fetches, then the heading, one "- name" line
    for each name of the difference and no other, in sorted order, and their
    number, then the lookups of the names of the difference, then the update
    with the identifiers found (and the two lines of the [except] clause if
    the lookups or the update raise).  This holds in both scripts. *)
Theorem missing_is_set_difference_and_subset_sends_nothing
  {W : Type} (serve : W -> request -> response * W) (cfg : config)
  (set_iter : list json -> list json) (fuel : nat)
  (E : list member) (N : list json) (gid : json)
  (w0 w1 w2 : W) (t1 t2 : list event) :
  (forall um keys set,
      Script.entra_users_map_of E = Ok um ->
      py_set (dict_keys um) = Ok keys ->
      py_set N = Ok set ->
      (forall x, set_mem x (Script.missing_display_names keys set)
                 = set_mem x (map displayName E) && negb (set_mem x N))
      /\ (forall s, In (JStr s) (Script.missing_display_names keys set)
                    <-> In (JStr s) (map displayName E) /\ ~ In (JStr s) N)
      /\ distinct (Script.missing_display_names keys set) = true)
  /\ (Script.fetch_entra_users serve cfg (Requests.get_entra_group_id serve)
        (Requests.get_entra_group_members serve fuel) w0 = (Returns E, t1, w1) ->
      Script.fetch_netskope_users cfg (Requests.get_netskope_group_id serve cfg fuel)
        (Requests.get_netskope_group_members serve cfg) w1 = (Returns (gid, N), t2, w2) ->
      forallb hashable (map displayName E) = true ->
      forallb hashable N = true ->
      (forall m, In m E -> set_mem (displayName m) N = true) ->
      let x := Requests.main serve cfg set_iter fuel w0 in
      result x = Returns tt
      /\ patch_sent (events x) = false
      /\ In all_present_printed (events x)
      /\ exchanges (events x) = exchanges t1 ++ exchanges t2)
  /\ (Script.fetch_entra_users serve cfg (Urllib3.get_entra_group_id serve)
        (Urllib3.get_entra_group_members serve fuel) w0 = (Returns E, t1, w1) ->
      Script.fetch_netskope_users cfg (Urllib3.get_netskope_group_id serve cfg fuel)
        (Urllib3.get_netskope_group_members serve cfg) w1 = (Returns (gid, N), t2, w2) ->
      forallb hashable (map displayName E) = true ->
      forallb hashable N = true ->
      (forall m, In m E -> set_mem (displayName m) N = true) ->
      let x := Urllib3.main serve cfg set_iter fuel w0 in
      result x = Returns tt
      /\ patch_sent (events x) = false
      /\ In all_present_printed (events x)
      /\ exchanges (events x) = exchanges t1 ++ exchanges t2)
  /\ (forall um keys set sorted_names,
      Script.entra_users_map_of E = Ok um ->
      py_set (dict_keys um) = Ok keys ->
      py_set N = Ok set ->
      let missing := Script.missing_display_names keys set in
      (missing = [] <-> (forall m, In m E -> set_mem (displayName m) N = true))
      /\ (missing <> [] ->
          py_sorted missing = Ok sorted_names ->
          (forall s,
              In (Printed [L "- "; V (JStr s)])
                 (missing_printed cfg sorted_names (len missing))
              <-> In (JStr s) (map displayName E) /\ ~ In (JStr s) N)
          /\ (Script.fetch_entra_users serve cfg (Requests.get_entra_group_id serve)
                (Requests.get_entra_group_members serve fuel) w0
              = (Returns E, t1, w1) ->
              Script.fetch_netskope_users cfg
                (Requests.get_netskope_group_id serve cfg fuel)
                (Requests.get_netskope_group_members serve cfg) w1
              = (Returns (gid, N), t2, w2) ->
              let y := Script.find_netskope_ids
                         (Requests.get_netskope_user_id serve cfg fuel)
                         (set_iter missing) um [] w2 in
              events (Requests.main serve cfg set_iter fuel w0)
              = t1 ++ [Logged INFO [L "--- Finished Entra User Fetch ---"]]
                   ++ t2 ++ [Logged INFO [L "--- Finished Netskope User Fetch ---"]]
                   ++ missing_printed cfg sorted_names (len missing)
                   ++ events y
                   ++ match result y with
                      | Returns ids =>
                          let z := Script.update_if_needed cfg
                                     (Requests.update_netskope_group serve cfg)
                                     gid ids (world y) in
                          events z ++ match result z with
                                      | Raises e => main_failed e
                                      | _ => []
                                      end
                      | Raises e => main_failed e
                      | OutOfFuel => []
                      end)
          /\ (Script.fetch_entra_users serve cfg (Urllib3.get_entra_group_id serve)
                (Urllib3.get_entra_group_members serve fuel) w0
              = (Returns E, t1, w1) ->
              Script.fetch_netskope_users cfg
                (Urllib3.get_netskope_group_id serve cfg fuel)
                (Urllib3.get_netskope_group_members serve cfg) w1
              = (Returns (gid, N), t2, w2) ->
              let y := Script.find_netskope_ids
                         (Urllib3.get_netskope_user_id serve cfg fuel)
                         (set_iter missing) um [] w2 in
              events (Urllib3.main serve cfg set_iter fuel w0)
              = t1 ++ [Logged INFO [L "--- Finished Entra User Fetch ---"]]
                   ++ t2 ++ [Logged INFO [L "--- Finished Netskope User Fetch ---"]]
                   ++ missing_printed cfg sorted_names (len missing)
                   ++ events y
                   ++ match result y with
                      | Returns ids =>
                          let z := Script.update_if_needed cfg
                                     (Urllib3.update_netskope_group serve cfg)
                                     gid ids (world y) in
                          events z ++ match result z with
                                      | Raises e => main_failed e
                                      | _ => []
                                      end
                      | Raises e => main_failed e
                      | OutOfFuel => []
                      end))).
Proof.
  split; [|split; [|split]].
  - intros um keys set. apply missing_display_names_mem.
  - intros H1 H4 HE HN Hsub x. subst x. unfold Requests.main.
    rewrite (main_all_present serve cfg set_iter _ _ _ _ _ _ w0 w1 w2 E gid N t1 t2
               H1 H4 HE HN Hsub).
    cbn [result events fst snd].
    pose proof (no_patch_fetch_entra_users serve cfg _ _
                  (no_patch_get_entra_group_id serve)
                  (no_patch_get_entra_group_members serve fuel) w0) as P1.
    pose proof (no_patch_fetch_netskope_users cfg _ _
                  (no_patch_get_netskope_group_id serve cfg fuel)
                  (no_patch_get_netskope_group_members serve cfg) w1) as P2.
    rewrite H1 in P1. rewrite H4 in P2. cbn [events fst snd] in P1, P2.
    split; [reflexivity|]. split; [|split].
    + rewrite !patch_sent_app, P1, P2. reflexivity.
    + apply in_or_app; right. apply in_or_app; right. apply in_or_app; right.
      do 5 right. left. reflexivity.
    + rewrite !exchanges_app. cbn. now rewrite app_nil_r.
  - intros H1 H4 HE HN Hsub x. subst x. unfold Urllib3.main.
    rewrite (main_all_present serve cfg set_iter _ _ _ _ _ _ w0 w1 w2 E gid N t1 t2
               H1 H4 HE HN Hsub).
    cbn [result events fst snd].
    pose proof (no_patch_fetch_entra_users serve cfg _ _
                  (no_patch_get_entra_group_id_urllib3 serve)
                  (no_patch_get_entra_group_members_urllib3 serve fuel) w0) as P1.
    pose proof (no_patch_fetch_netskope_users cfg _ _
                  (no_patch_get_netskope_group_id_urllib3 serve cfg fuel)
                  (no_patch_get_netskope_group_members_urllib3 serve cfg) w1) as P2.
    rewrite H1 in P1. rewrite H4 in P2. cbn [events fst snd] in P1, P2.
    split; [reflexivity|]. split; [|split].
    + rewrite !patch_sent_app, P1, P2. reflexivity.
    + apply in_or_app; right. apply in_or_app; right. apply in_or_app; right.
      do 5 right. left. reflexivity.
    + rewrite !exchanges_app. cbn. now rewrite app_nil_r.
  - intros um keys set sorted_names Hu Hk Hs missing.
    split; [apply (missing_display_names_nil E N um keys set Hu Hk Hs)|].
    intros Hm Hsort. split; [|split].
    + intros s. rewrite missing_printed_names, (py_sorted_in _ _ Hsort).
      apply (missing_display_names_mem E N um keys set Hu Hk Hs).
    + intros H1 H4. unfold Requests.main.
      exact (main_missing serve cfg set_iter _ _ _ _ _ _ w0 w1 w2 E gid N t1 t2
               um keys set sorted_names H1 H4 Hu Hk Hs Hm Hsort).
    + intros H1 H4. unfold Urllib3.main.
      exact (main_missing serve cfg set_iter _ _ _ _ _ _ w0 w1 w2 E gid N t1 t2
               um keys set sorted_names H1 H4 Hu Hk Hs Hm Hsort).
Qed.

Lemma missing_is_set_difference_and_subset_sends_nothing_witness :
  (let x := Requests.main scripted published_cfg in_order 5
              (example_fetch ["Bob B"; "Alice A"]) in
   result x = Returns tt
   /\ patch_sent (events x) = false
   /\ In all_present_printed (events x)
   /\ List.length (exchanges (events x)) = 5%nat)
  /\ (let x := Requests.main scripted published_cfg in_order 5 example_run in
      Script.missing_display_names [JStr "Alice A"; JStr "Bob B"] [JStr "Alice A"]
      = [JStr "Bob B"]
      /\ In (Printed [L "- "; V (JStr "Bob B")])
            (missing_printed published_cfg [JStr "Bob B"] 1)
      /\ exists before after,
           events x = before ++ missing_printed published_cfg [JStr "Bob B"] 1 ++ after).
Proof.
  split.
  - pose (w0 := example_fetch ["Bob B"; "Alice A"]).
    pose (f1 := Script.fetch_entra_users scripted published_cfg
                  (Requests.get_entra_group_id scripted)
                  (Requests.get_entra_group_members scripted 5) w0).
    pose (f2 := Script.fetch_netskope_users published_cfg
                  (Requests.get_netskope_group_id scripted published_cfg 5)
                  (Requests.get_netskope_group_members scripted published_cfg)
                  (world f1)).
    destruct (missing_is_set_difference_and_subset_sends_nothing
                scripted published_cfg in_order 5 example_members
                [JStr "Bob B"; JStr "Alice A"] (JStr "ns-1")
                w0 (world f1) (world f2) (events f1) (events f2))
      as (_ & H & _).
    destruct H as (R & P & A & X).
    + reflexivity.
    + reflexivity.
    + reflexivity.
    + reflexivity.
    + intros m [<-|[<-|[]]]; reflexivity.
    + split; [exact R|]. split; [exact P|]. split; [exact A|].
      cbv zeta. unfold w0 in X. rewrite X. reflexivity.
  - pose (f1 := Script.fetch_entra_users scripted published_cfg
                  (Requests.get_entra_group_id scripted)
                  (Requests.get_entra_group_members scripted 5) example_run).
    pose (f2 := Script.fetch_netskope_users published_cfg
                  (Requests.get_netskope_group_id scripted published_cfg 5)
                  (Requests.get_netskope_group_members scripted published_cfg)
                  (world f1)).
    destruct (missing_is_set_difference_and_subset_sends_nothing
                scripted published_cfg in_order 5 example_members
                [JStr "Alice A"] (JStr "ns-1")
                example_run (world f1) (world f2) (events f1) (events f2))
      as (_ & _ & _ & H).
    destruct (H [(JStr "Alice A", JStr "alice@x.com"); (JStr "Bob B", JStr "bob@x.com")]
                [JStr "Alice A"; JStr "Bob B"] [JStr "Alice A"] [JStr "Bob B"])
      as (_ & H'); [reflexivity|reflexivity|reflexivity|].
    destruct H' as (Hn & Hr & _); [discriminate|reflexivity|].
    cbv zeta. split; [reflexivity|]. split.
    + apply Hn. split; [right; left; reflexivity|].
      intros [H0|[]]; discriminate.
    + assert (Hr' := Hr ltac:(vm_compute; reflexivity) ltac:(vm_compute; reflexivity)).
      cbv zeta in Hr'.
      exists (events f1 ++ [Logged INFO [L "--- Finished Entra User Fetch ---"]]
              ++ events f2 ++ [Logged INFO [L "--- Finished Netskope User Fetch ---"]]).
      eexists.
      rewrite Hr'.
      rewrite <- !app_assoc. reflexivity.
Defined.

(** ** C5: a missing user that Netskope does not know *)

(** C5.  When the lookups for the missing names each return (an identifier
    or [None]), the loop over the missing names returns the identifiers
    found, in order, and nothing for the names whose lookup returned [None]
    (or another falsy value); for each such name it has printed and logged
    the warning with the name and its principal name.  An unresolved name
    does not stop the loop: the names after it are looked up and their
    identifiers are in the list.  This holds in both scripts. *)
Theorem unresolved_names_are_skipped_with_a_warning
  {W : Type} (serve : W -> request -> response * W) (cfg : config) (fuel : nat)
  (entra_users_map : dict) (names : list json) (w w' : W)
  (rs : list (json * json * json)) (netskope_ids_to_add : list json) :
  (resolved_in_turn (Requests.get_netskope_user_id serve cfg fuel)
     entra_users_map names w rs w' ->
   let x := Script.find_netskope_ids (Requests.get_netskope_user_id serve cfg fuel)
              names entra_users_map netskope_ids_to_add w in
   result x = Returns (netskope_ids_to_add ++ filter truthy (returned_ids rs))
   /\ world x = w'
   /\ (forall name upn id,
          In (name, upn, id) rs -> truthy id = false ->
          In (not_found_printed name upn) (events x)
          /\ In (not_found_logged name upn) (events x)))
  /\ (resolved_in_turn (Urllib3.get_netskope_user_id serve cfg fuel)
        entra_users_map names w rs w' ->
      let x := Script.find_netskope_ids (Urllib3.get_netskope_user_id serve cfg fuel)
                 names entra_users_map netskope_ids_to_add w in
      result x = Returns (netskope_ids_to_add ++ filter truthy (returned_ids rs))
      /\ world x = w'
      /\ (forall name upn id,
             In (name, upn, id) rs -> truthy id = false ->
             In (not_found_printed name upn) (events x)
             /\ In (not_found_logged name upn) (events x))).
Proof.
  split; intros R; exact (find_netskope_ids_resolved _ _ _ _ _ _ R netskope_ids_to_add).
Qed.

Lemma unresolved_names_are_skipped_with_a_warning_witness :
  let x := Script.find_netskope_ids
             (Requests.get_netskope_user_id scripted published_cfg 3)
             [JStr "Carol C"; JStr "Bob B"] example_map [] example_lookups in
  result x = Returns [JStr "abc-123"]
  /\ In (not_found_printed (JStr "Carol C") (JStr "carol@x.com")) (events x)
  /\ In (not_found_logged (JStr "Carol C") (JStr "carol@x.com")) (events x).
Proof.
  destruct (unresolved_names_are_skipped_with_a_warning
              scripted published_cfg 3 example_map
              [JStr "Carol C"; JStr "Bob B"] example_lookups []
              [ (JStr "Carol C", JStr "carol@x.com", JNull);
                (JStr "Bob B", JStr "bob@x.com", JStr "abc-123") ] [])
    as [H _].
  destruct H as (R & _ & Hw).
  - eapply resolved_next; [reflexivity|reflexivity|].
    eapply resolved_next; [reflexivity|reflexivity|].
    apply resolved_none.
  - split; [exact R|].
    apply (Hw (JStr "Carol C") (JStr "carol@x.com") JNull); [left|]; reflexivity.
Defined.

Lemma patch_sent_iff_ids_resolved_and_group_found_witness :
  (exists gid ids,
      reaches_update scripted published_cfg in_order
        (Requests.get_entra_group_id scripted)
        (Requests.get_entra_group_members scripted 5)
        (Requests.get_netskope_group_id scripted published_cfg 5)
        (Requests.get_netskope_group_members scripted published_cfg)
        (Requests.get_netskope_user_id scripted published_cfg 5)
        example_run gid ids
      /\ ids <> [] /\ truthy gid = true)
  /\ Requests.update_netskope_group scripted published_cfg JNull [JStr "abc-123"]
       [Status 204 JNull]
     = (Returns tt, [update_skipped_logged], [Status 204 JNull]).
Proof.
  destruct (patch_sent_iff_ids_resolved_and_group_found
              scripted published_cfg in_order 5 example_run)
    as (S & P & _).
  split.
  - apply (proj1 P). reflexivity.
  - apply (S JNull [JStr "abc-123"] [Status 204 JNull]). left. reflexivity.
Defined.


(** * Further properties of the two scripts *)

(** ** The access token *)

(** X1.  [get_access_token] asks the token client for a new token exactly
    when the cache lookup gives a falsy result ([None], an empty dict): with
    a truthy cached result its only exchange is the cache lookup; otherwise
    it logs that the cache holds no token and makes the second call, and no
    other. *)
Theorem new_token_requested_only_on_cache_miss
  {W : Type} (serve : W -> request -> response * W) (w w1 : W)
  (code : Z) (cached : json) :
  serve w AcquireTokenSilent = (Status code cached, w1) ->
  let x := Script.get_access_token serve w in
  (truthy cached = true ->
   exchanges (events x) = [(AcquireTokenSilent, Status code cached)]
   /\ world x = w1)
  /\ (truthy cached = false ->
      exchanges (events x)
      = [ (AcquireTokenSilent, Status code cached);
          (AcquireTokenForClient, fst (serve w1 AcquireTokenForClient)) ]
      /\ world x = snd (serve w1 AcquireTokenForClient)
      /\ In (Logged INFO [L "Entra: No token in cache. Acquiring a new one..."])
            (events x)).
Proof.
  intros Hs x. subst x.
  unfold Script.get_access_token, Script.msal. unfold_monad. rewrite Hs.
  split; intros Ht; rewrite Ht; cbn [negb].
  - destruct (py_in "access_token" cached) as [[|]|e]; cbn;
      [destruct (py_item cached "access_token"); cbn| |]; split; reflexivity.
  - destruct (serve w1 AcquireTokenForClient) as [[|c2 v2] w2]; cbn.
    + repeat split; auto.
    + destruct (py_in "access_token" v2) as [[|]|e]; cbn;
        [destruct (py_item v2 "access_token"); cbn| |]; repeat split; auto.
Qed.

Lemma new_token_requested_only_on_cache_miss_witness :
  let hit := Status 200 (JObj [("access_token", JStr "cached")]) in
  let miss := Status 200 JNull in
  let fresh := Status 200 (JObj [("access_token", JStr "fresh")]) in
  exchanges (events (Script.get_access_token scripted [hit; fresh]))
  = [(AcquireTokenSilent, hit)]
  /\ exchanges (events (Script.get_access_token scripted [miss; fresh]))
     = [(AcquireTokenSilent, miss); (AcquireTokenForClient, fresh)].
Proof.
  intros hit miss fresh. split.
  - destruct (new_token_requested_only_on_cache_miss scripted [hit; fresh] [fresh]
                200 (JObj [("access_token", JStr "cached")]) eq_refl) as (H & _).
    apply H. reflexivity.
  - destruct (new_token_requested_only_on_cache_miss scripted [miss; fresh] [fresh]
                200 JNull eq_refl) as (_ & H).
    apply H. reflexivity.
Defined.

(** X2.  [get_access_token] returns a token only if the last answer of the
    token client is a dict with an "access_token" entry, and then it returns
    that entry.  When that answer is a dict without the entry, it logs the
    failure and raises the exception that carries the answer.  When a call
    into the client fails, the failure is raised. *)
Theorem token_is_the_access_token_of_the_answer
  {W : Type} (serve : W -> request -> response * W) (w : W) :
  let x := Script.get_access_token serve w in
  (forall v,
      result x = Returns v ->
      exists q code m,
        last_answer (events x) = (q, Status code (JObj m))
        /\ lookup "access_token" m = Some v)
  /\ (forall q code m,
         last_answer (events x) = (q, Status code (JObj m)) ->
         match lookup "access_token" m with
         | Some v => result x = Returns v
         | None =>
             result x = Raises (TokenError (JObj m))
             /\ In (Logged ERROR [L "Entra: Failed to obtain access token: "; V (JObj m)])
                   (events x)
         end)
  /\ (forall q a, In (q, Failed a) (exchanges (events x)) -> result x = Raises MsalError).
Proof.
  intros x. subst x.
  unfold Script.get_access_token, Script.msal, last_answer. unfold_monad.
  destruct (serve w AcquireTokenSilent) as [[|c1 v1] w1] eqn:E1; cbn [fst snd].
  { cbn. repeat split; intros; try discriminate. }
  destruct (truthy v1) eqn:T1; cbn [negb].
  - destruct v1 as [|b|n|s|l|m]; try discriminate T1; cbn;
      repeat match goal with
             | |- context [match lookup ?k ?m with _ => _ end] =>
                 destruct (lookup k m) eqn:?; cbn
             | |- context [if ?b then _ else _] => destruct b eqn:?; cbn
             end;
      repeat split; intros; try discriminate;
      repeat match goal with
             | H : (_, _) = (_, _) |- _ => injection H as ? ? ?; subst
             | H : Returns _ = Returns _ |- _ => injection H as ?; subst
             | H : _ \/ _ |- _ => destruct H
             | H : False |- _ => destruct H
             end;
      try discriminate;
      try (eexists _, _, _; split; [reflexivity|eassumption]);
      try match goal with
          | H : lookup _ ?m = _ |- context [lookup _ ?m] => rewrite H
          end; auto; try (split; [reflexivity | left; reflexivity]).
  - destruct (serve w1 AcquireTokenForClient) as [[|c2 v2] w2] eqn:E2; cbn [fst snd].
    { cbn. repeat split; intros; try discriminate. }
    destruct v2 as [|b|n|s|l|m]; cbn;
      repeat match goal with
             | |- context [match lookup ?k ?m with _ => _ end] =>
                 destruct (lookup k m) eqn:?; cbn
             | |- context [if ?b then _ else _] => destruct b eqn:?; cbn
             end;
      repeat split; intros; try discriminate;
      repeat match goal with
             | H : (_, _) = (_, _) |- _ => injection H as ? ? ?; subst
             | H : Returns _ = Returns _ |- _ => injection H as ?; subst
             | H : _ \/ _ |- _ => destruct H
             | H : False |- _ => destruct H
             end;
      try discriminate;
      try (eexists _, _, _; split; [reflexivity|eassumption]);
      try match goal with
          | H : lookup _ ?m = _ |- context [lookup _ ?m] => rewrite H
          end; auto; try (split; [reflexivity | do 3 right; left; reflexivity]).
Qed.

Lemma token_is_the_access_token_of_the_answer_witness :
  let refused := JObj [("error", JStr "invalid_client")] in
  let x := Script.get_access_token scripted [Status 200 JNull; Status 200 refused] in
  result x = Raises (TokenError refused)
  /\ In (Logged ERROR [L "Entra: Failed to obtain access token: "; V refused]) (events x).
Proof.
  intros refused x.
  destruct (token_is_the_access_token_of_the_answer scripted
              [Status 200 JNull; Status 200 refused]) as (_ & H & _).
  exact (H AcquireTokenForClient 200 [("error", JStr "invalid_client")] eq_refl).
Defined.

(** ** The Entra group *)

(** X3.  When the Graph answer to the group query carries no "value", or an
    empty (or otherwise falsy) one, [get_entra_group_id] logs the "not found"
    warning and returns [None], after that one request.  This holds in both
    scripts. *)
Theorem entra_group_without_match_is_none
  {W : Type} (serve : W -> request -> response * W)
  (group_name : string) (token : json) (w w' : W) (code : Z) (m : list (string * json)) :
  let q := entra_group_request group_name token in
  serve w q = (Status code (JObj m), w') ->
  code < 400 ->
  truthy (match lookup "value" m with Some v => v | None => JArr [] end) = false ->
  let t := [ Logged INFO [L "Entra: Searching for group ID: "; L group_name];
             Http q (Status code (JObj m));
             Logged WARNING [L "Entra: Group '"; L group_name; L "' not found."] ] in
  Requests.get_entra_group_id serve group_name token w = (Returns JNull, t, w')
  /\ Urllib3.get_entra_group_id serve group_name token w = (Returns JNull, t, w').
Proof.
  intros q Hs Hc Hv t. subst t.
  unfold Requests.get_entra_group_id, Urllib3.get_entra_group_id,
    Requests.requests_get, Requests.raise_for_status, Urllib3.http_request,
    Urllib3.handle_urllib3_response.
  unfold_monad. fold q. unfold entra_group_request in q. fold q. rewrite Hs. cbn [fst snd].
  assert (E4 : (400 <=? code) = false) by lia. rewrite E4. cbn [andb py_get].
  rewrite Hv. cbn. split; reflexivity.
Qed.

Lemma entra_group_without_match_is_none_witness :
  let r := Status 200 (JObj [("value", JArr [])]) in
  result (Requests.get_entra_group_id scripted "Crest Core QA" (JStr "tok") [r])
  = Returns JNull
  /\ result (Urllib3.get_entra_group_id scripted "Crest Core QA" (JStr "tok") [r])
     = Returns JNull.
Proof.
  intros r.
  destruct (entra_group_without_match_is_none scripted "Crest Core QA" (JStr "tok")
              [r] [] 200 [("value", JArr [])] eq_refl ltac:(lia) eq_refl) as (H & H').
  split; [now rewrite H | now rewrite H'].
Defined.

(** X4.  When the group query returns one group or more,
    [get_entra_group_id] returns the "id" of the first of them, after one
    request, and logs the "Multiple groups" warning exactly when more than
    one was returned.  A first group without an "id" makes it raise
    [KeyError].  This holds in both scripts. *)
Theorem entra_group_id_is_the_first_returned
  {W : Type} (serve : W -> request -> response * W)
  (group_name : string) (token : json) (w w' : W) (code : Z)
  (m g : list (string * json)) (rest : list json) :
  let q := entra_group_request group_name token in
  serve w q = (Status code (JObj m), w') ->
  code < 400 ->
  lookup "value" m = Some (JArr (JObj g :: rest)) ->
  let x := Requests.get_entra_group_id serve group_name token w in
  let x' := Urllib3.get_entra_group_id serve group_name token w in
  match lookup "id" g with
  | Some group_id =>
      result x = Returns group_id /\ result x' = Returns group_id
      /\ (In (multiple_groups_logged group_name group_id) (events x) <-> rest <> [])
      /\ (In (multiple_groups_logged group_name group_id) (events x') <-> rest <> [])
  | None => result x = Raises KeyError /\ result x' = Raises KeyError
  end
  /\ exchanges (events x) = [(q, Status code (JObj m))]
  /\ exchanges (events x') = [(q, Status code (JObj m))]
  /\ world x = w' /\ world x' = w'.
Proof.
  intros q Hs Hc Hv x x'. subst x x'.
  unfold Requests.get_entra_group_id, Urllib3.get_entra_group_id,
    Requests.requests_get, Requests.raise_for_status, Urllib3.http_request,
    Urllib3.handle_urllib3_response, multiple_groups_logged.
  unfold_monad. fold q. unfold entra_group_request in q. fold q. rewrite Hs. cbn [fst snd].
  assert (E4 : (400 <=? code) = false) by lia. rewrite E4. cbn [andb py_get].
  rewrite Hv. cbn [truthy negb py_len py_first py_item List.length].
  destruct rest as [|g' rest].
  - cbn. destruct (lookup "id" g) eqn:E; cbn; repeat split; intros; try discriminate;
      try congruence; cbn in *; intuition discriminate.
  - assert (E1 : (1 <? Z.of_nat (S (List.length (g' :: rest)))) = true)
      by (apply Z.ltb_lt; cbn [List.length]; lia).
    rewrite E1. destruct (lookup "id" g) eqn:E; cbn; repeat split; intros;
      try discriminate; try congruence; cbn in *; intuition discriminate.
Qed.

Lemma entra_group_id_is_the_first_returned_witness :
  let g1 := [("id", JStr "entra-1"); ("displayName", JStr "Crest Core QA")] in
  let g2 := JObj [("id", JStr "entra-2"); ("displayName", JStr "Crest Core QA")] in
  let r := Status 200 (JObj [("value", JArr [JObj g1; g2])]) in
  let x := Requests.get_entra_group_id scripted "Crest Core QA" (JStr "tok") [r] in
  result x = Returns (JStr "entra-1")
  /\ In (multiple_groups_logged "Crest Core QA" (JStr "entra-1")) (events x).
Proof.
  intros g1 g2 r x.
  destruct (entra_group_id_is_the_first_returned scripted "Crest Core QA" (JStr "tok")
              [r] [] 200 [("value", JArr [JObj g1; g2])] g1 [g2]
              eq_refl ltac:(lia) eq_refl) as ((H1 & _ & H2 & _) & _).
  split; [exact H1 | apply H2; discriminate].
Defined.

(** X5.  [get_entra_group_id] raises when its request fails at transport
    level (the request raises, or the status is an error status): in
    UpdateEntraUsers.py a [RequestException]; in updateUsersURLlib3.py after
    logging the failure.  No other request is made. *)
Theorem entra_group_id_raises_when_the_request_fails
  {W : Type} (serve : W -> request -> response * W)
  (group_name : string) (token : json) (w : W) :
  let q := entra_group_request group_name token in
  let r := fst (serve w q) in
  let x := Requests.get_entra_group_id serve group_name token w in
  let x' := Urllib3.get_entra_group_id serve group_name token w in
  (transport_failure r = true ->
   exists e, result x = Raises e /\ is_RequestException e = true
             /\ exchanges (events x) = [(q, r)])
  /\ (transport_failure_urllib3 r = true ->
      exists e, result x' = Raises e
                /\ In (Logged ERROR [L "Entra: Failed during get_entra_group_id request: "; X e])
                      (events x')
                /\ exchanges (events x') = [(q, r)]).
Proof.
  intros q r x x'. subst x x' r.
  unfold Requests.get_entra_group_id, Urllib3.get_entra_group_id,
    Requests.requests_get, Requests.raise_for_status, Urllib3.http_request,
    Urllib3.handle_urllib3_response, transport_failure, transport_failure_urllib3.
  unfold_monad. fold q. unfold entra_group_request in q. fold q.
  destruct (serve w q) as [[|code body] w1]; cbn [fst snd].
  - split; intros _; eexists; cbn; repeat split; auto.
  - split; intros H; rewrite H; eexists; cbn; repeat split; auto.
Qed.

Lemma entra_group_id_raises_when_the_request_fails_witness :
  let r := Status 401 (JObj [("error", JStr "InvalidAuthenticationToken")]) in
  (exists e, result (Requests.get_entra_group_id scripted "Crest Core QA" (JStr "tok") [r])
             = Raises e /\ is_RequestException e = true)
  /\ (exists e, result (Urllib3.get_entra_group_id scripted "Crest Core QA" (JStr "tok") [r])
                = Raises e).
Proof.
  intros r.
  destruct (entra_group_id_raises_when_the_request_fails scripted "Crest Core QA"
              (JStr "tok") [r]) as (H & H').
  split.
  - destruct (H eq_refl) as (e & He & Hr & _). exists e. split; assumption.
  - destruct (H' eq_refl) as (e & He & _). exists e. exact He.
Defined.

(** ** The members of the Netskope group *)

Lemma display_names_dicts (ms : list json) :
  forallb is_dict ms = true -> display_names ms = Ok (displays ms).
Proof.
  induction ms as [|m ms IH]; [reflexivity|].
  cbn [forallb]. intros H. apply andb_prop in H as [Hm Hms].
  destruct m as [|b|n|s|l|o]; try discriminate Hm.
  cbn [display_names py_in py_item rbind displays flat_map].
  change (flat_map _ ms) with (displays ms).
  destruct (lookup "display" o); cbn [rbind]; rewrite (IH Hms); reflexivity.
Qed.

Lemma display_names_error (ms : list json) (e : exn) :
  display_names ms = Err e -> e = TypeError.
Proof.
  induction ms as [|m ms IH]; [discriminate|].
  cbn [display_names].
  destruct m as [|b|n|s|l|o]; cbn [py_in py_item rbind]; try (intros [= <-]; reflexivity).
  - destruct (substring_of "display" s); [intros [= <-]; reflexivity | exact IH].
  - destruct (existsb _ l); [intros [= <-]; reflexivity | exact IH].
  - destruct (lookup "display" o); cbn [rbind]; [|exact IH].
    destruct (display_names ms); [discriminate|]. intros [= <-]. now apply IH.
Qed.

(** X6.  For a member list of JSON objects, [get_netskope_group_members]
    returns the "display" of each entry that has one, in the order listed,
    leaves out the entries without one, and logs how many names it found.
    This holds in both scripts. *)
Theorem group_members_are_the_displays_listed
  {W : Type} (serve : W -> request -> response * W) (cfg : config)
  (group_id : json) (w w' : W) (code : Z) (m : list (string * json))
  (members : list json) :
  truthy group_id = true ->
  serve w (group_members_request cfg group_id) = (Status code (JObj m), w') ->
  code < 400 ->
  lookup "members" m = Some (JArr members) ->
  forallb is_dict members = true ->
  let t := [ Logged INFO [L "Netskope: Fetching members for group ID: "; V group_id];
             Http (group_members_request cfg group_id) (Status code (JObj m));
             Logged INFO [L "Netskope: Found "; I (len (displays members)); L " members."] ] in
  Requests.get_netskope_group_members serve cfg group_id w
  = (Returns (displays members), t, w')
  /\ Urllib3.get_netskope_group_members serve cfg group_id w
     = (Returns (displays members), t, w').
Proof.
  intros Hg Hs Hc Hm Hd t. subst t.
  unfold Requests.get_netskope_group_members, Urllib3.get_netskope_group_members,
    Requests.requests_get, Requests.raise_for_status, Urllib3.http_request,
    Urllib3.handle_urllib3_response.
  rewrite Hg. cbn [negb]. unfold_monad.
  unfold group_members_request in Hs. rewrite Hs. cbn [fst snd].
  assert (E4 : (400 <=? code) = false) by lia. rewrite E4. cbn [andb py_get py_iter].
  rewrite Hm. cbn [py_iter]. rewrite (display_names_dicts members Hd).
  split; reflexivity.
Qed.

Lemma group_members_are_the_displays_listed_witness :
  let members := [ JObj [("value", JStr "u1"); ("display", JStr "Alice A")];
                   JObj [("value", JStr "u2")];
                   JObj [("value", JStr "u3"); ("display", JStr "Bob B")] ] in
  let r := Status 200 (JObj [("members", JArr members)]) in
  result (Requests.get_netskope_group_members scripted published_cfg (JStr "g1") [r])
  = Returns [JStr "Alice A"; JStr "Bob B"]
  /\ result (Urllib3.get_netskope_group_members scripted published_cfg (JStr "g1") [r])
     = Returns [JStr "Alice A"; JStr "Bob B"].
Proof.
  intros members r.
  destruct (group_members_are_the_displays_listed scripted published_cfg (JStr "g1")
              [r] [] 200 [("members", JArr members)] members
              eq_refl eq_refl ltac:(lia) eq_refl eq_refl) as (H & H').
  split; [now rewrite H | now rewrite H'].
Defined.

(** X7.  The [KeyError] branch of [get_netskope_group_members] is never
    taken: whatever the service answers, the function neither logs the
    "'members' key not found" warning nor raises [KeyError].  This holds in
    both scripts. *)
Theorem members_key_warning_is_never_logged
  {W : Type} (serve : W -> request -> response * W) (cfg : config)
  (group_id : json) (w : W) :
  let x := Requests.get_netskope_group_members serve cfg group_id w in
  let x' := Urllib3.get_netskope_group_members serve cfg group_id w in
  ~ In (members_key_missing_logged group_id) (events x)
  /\ ~ In (members_key_missing_logged group_id) (events x')
  /\ result x <> Raises KeyError
  /\ result x' <> Raises KeyError.
Proof.
  intros x x'. subst x x'.
  unfold Requests.get_netskope_group_members, Urllib3.get_netskope_group_members,
    Requests.requests_get, Requests.raise_for_status, Urllib3.http_request,
    Urllib3.handle_urllib3_response, members_key_missing_logged.
  destruct (truthy group_id); cbn [negb];
    [|repeat split; cbn; intuition discriminate].
  unfold_monad.
  destruct (serve w _) as [[|code body] w1]; cbn [fst snd];
    [repeat split; cbn; intuition discriminate|].
  assert (D : forall data : json,
             match py_get data "members" (JArr []) with
             | Ok members =>
                 match py_iter members with
                 | Ok ms => match display_names ms with
                            | Ok _ => True
                            | Err e => is_KeyError e = false
                            end
                 | Err e => is_KeyError e = false
                 end
             | Err e => is_KeyError e = false
             end).
  { intros data. destruct data as [|b|n|s|l|o]; cbn; try reflexivity.
    destruct (match lookup "members" o with Some v => v | None => JArr [] end)
      as [|b|n|s|l|o']; cbn; try reflexivity;
      match goal with
      | |- match display_names ?ms with _ => _ end =>
          destruct (display_names ms) eqn:E; [trivial|];
          apply display_names_error in E; now subst
      end. }
  specialize (D body).
  destruct ((400 <=? code) && (code <? 600)); destruct (400 <=? code);
    cbn [is_RequestException is_KeyError];
    destruct (py_get body "members" (JArr [])) as [members|e1];
    try (destruct (py_iter members) as [ms|e2]);
    try (destruct (display_names ms) as [names|e3]);
    repeat match goal with e : exn |- _ => destruct e; try discriminate D end;
    cbn;
    repeat split; try (intros H; intuition discriminate); try discriminate;
    try (intros [= ->]; discriminate D).
Qed.

Lemma members_key_warning_is_never_logged_witness :
  let r := Status 200 (JObj [("id", JStr "g1")]) in
  let x := Requests.get_netskope_group_members scripted published_cfg (JStr "g1") [r] in
  ~ In (members_key_missing_logged (JStr "g1")) (events x)
  /\ result x <> Raises KeyError.
Proof.
  intros r x.
  destruct (members_key_warning_is_never_logged scripted published_cfg (JStr "g1") [r])
    as (H1 & _ & H3 & _).
  split; assumption.
Defined.

(** X8.  [get_netskope_group_members] raises when its request fails at
    transport level, after logging the error; no other request is made.  In
    UpdateEntraUsers.py the exception is a [RequestException].  This holds in
    both scripts. *)
Theorem group_members_request_failure_is_raised
  {W : Type} (serve : W -> request -> response * W) (cfg : config)
  (group_id : json) (w : W) :
  truthy group_id = true ->
  let q := group_members_request cfg group_id in
  let r := fst (serve w q) in
  let x := Requests.get_netskope_group_members serve cfg group_id w in
  let x' := Urllib3.get_netskope_group_members serve cfg group_id w in
  (transport_failure r = true ->
   exists e, result x = Raises e /\ is_RequestException e = true
             /\ In (Logged ERROR [L "Netskope: Error fetching group members: "; X e])
                   (events x)
             /\ exchanges (events x) = [(q, r)])
  /\ (transport_failure_urllib3 r = true ->
      exists e, result x' = Raises e
                /\ In (Logged ERROR [L "Netskope: Error fetching group members: "; X e])
                      (events x')
                /\ exchanges (events x') = [(q, r)]).
Proof.
  intros Hg q r x x'. subst x x' r.
  unfold Requests.get_netskope_group_members, Urllib3.get_netskope_group_members,
    Requests.requests_get, Requests.raise_for_status, Urllib3.http_request,
    Urllib3.handle_urllib3_response, transport_failure, transport_failure_urllib3.
  rewrite Hg. cbn [negb]. unfold_monad. unfold group_members_request in q. fold q.
  destruct (serve w q) as [[|code body] w1]; cbn [fst snd].
  - split; intros _; eexists; cbn; repeat split; auto.
  - split; intros H; rewrite H; eexists; cbn; repeat split; auto.
Qed.

Lemma group_members_request_failure_is_raised_witness :
  let r := Status 503 (JObj [("detail", JStr "Service Unavailable")]) in
  (exists e, result (Requests.get_netskope_group_members scripted published_cfg
                       (JStr "g1") [r]) = Raises e
             /\ is_RequestException e = true)
  /\ (exists e, result (Urllib3.get_netskope_group_members scripted published_cfg
                          (JStr "g1") [r]) = Raises e).
Proof.
  intros r.
  destruct (group_members_request_failure_is_raised scripted published_cfg (JStr "g1") [r]
              eq_refl) as (H & H').
  split.
  - destruct (H eq_refl) as (e & He & Hr & _). exists e. split; assumption.
  - destruct (H' eq_refl) as (e & He & _). exists e. exact He.
Defined.

(** ** The searches: what they return, how they pause, what they raise *)

Lemma pace_app (t u : list event) : pace (t ++ u) = pace t ++ pace u.
Proof.
  induction t as [|e t IH]; [reflexivity|].
  destruct e; cbn; now rewrite IH.
Qed.

Section PaginateTraces.
Context {W : Type}.
Variable page : Z -> M W (option json).

Lemma paginate_raises (fuel : nat) :
  forall start w e,
    result (paginate page fuel start w) = Raises e ->
    exists s w', result (page s w') = Raises e.
Proof.
  induction fuel as [|fuel IH]; intros start w e; [discriminate|].
  rewrite paginate_step. cbv zeta.
  destruct (result (page start w)) as [[v|]|e'|] eqn:E; cbn [result fst]; try discriminate.
  - intros H. apply IH in H. exact H.
  - intros [= <-]. eauto.
Qed.

Lemma paginate_returns (fuel : nat) :
  forall start w v,
    result (paginate page fuel start w) = Returns v ->
    exists s w',
      result (page s w') = Returns (Some v)
      /\ incl (exchanges (events (page s w')))
              (exchanges (events (paginate page fuel start w))).
Proof.
  induction fuel as [|fuel IH]; intros start w v; [discriminate|].
  rewrite paginate_step. cbv zeta.
  destruct (result (page start w)) as [[v'|]|e'|] eqn:E; cbn [result events fst snd];
    try discriminate.
  - intros [= <-]. exists start, w. split; [exact E|].
    rewrite app_nil_r. apply incl_refl.
  - intros H. destruct (IH _ _ _ H) as (s & w' & Hr & Hi).
    exists s, w'. split; [exact Hr|].
    rewrite exchanges_app. apply incl_appr. exact Hi.
Qed.

Hypothesis page_pace : forall start w,
  pace (events (page start w))
  = match result (page start w) with
    | Returns None => [None; Some 1]
    | _ => [None]
    end.
Hypothesis page_finished : forall start w,
  finished (result (page start w)) = true.

Lemma paginate_pace (fuel : nat) :
  forall start w,
    let x := paginate page fuel start w in
    exists n : nat,
      pace (events x) = if finished (result x) then turns n ++ [None] else turns n.
Proof.
  induction fuel as [|fuel IH]; intros start w x; subst x.
  - exists O. reflexivity.
  - rewrite paginate_step. cbv zeta.
    pose proof (page_pace start w) as Hp. pose proof (page_finished start w) as Hf.
    destruct (result (page start w)) as [[v|]|e|] eqn:E; cbn [result events fst snd finished];
      try discriminate Hf.
    + exists O. rewrite app_nil_r. exact Hp.
    + destruct (IH (start + count) (world (page start w))) as (n & Hn).
      exists (S n). rewrite pace_app, Hp, Hn.
      match goal with |- context [finished ?r] => destruct (finished r) end;
        reflexivity.
    + exists O. exact Hp.
Qed.
End PaginateTraces.

Lemma find_group_some (name : string) (gs : list json) (v : json) :
  find_group name gs = Ok (Some v) ->
  exists entry, In entry gs /\ group_named name v entry.
Proof.
  induction gs as [|g gs IH]; [discriminate|].
  cbn [find_group]. destruct g as [|b|n|s|l|m]; try discriminate.
  cbn [py_get rbind].
  destruct (lookup "displayName" m) as [d|] eqn:Ed.
  - destruct (py_eq_str d name) eqn:Eq.
    + cbn [py_item]. destruct (lookup "id" m) as [i|] eqn:Ei; [|discriminate].
      cbn [rbind]. intros [= <-].
      exists (JObj m). split; [left; reflexivity|].
      exists m. destruct d; try discriminate Eq. cbn in Eq.
      apply String.eqb_eq in Eq. subst. auto.
    + intros H. destruct (IH H) as (entry & Hi & Hn). exists entry. split; [right|]; auto.
  - cbn [py_eq_str]. intros H. destruct (IH H) as (entry & Hi & Hn).
    exists entry. split; [right|]; auto.
Qed.

Lemma find_user_some (username : json) (us : list json) (v : json) :
  find_user username us = Ok (Some v) ->
  exists entry, In entry us /\ user_named username v entry.
Proof.
  induction us as [|u us IH]; [discriminate|].
  cbn [find_user]. destruct u as [|b|n|s|l|m]; try discriminate.
  cbn [py_get rbind].
  destruct (py_lower (match lookup "userName" m with
                      | Some v0 => v0 | None => JStr EmptyString end)) as [l|] eqn:El;
    [|discriminate].
  cbn [rbind]. destruct (py_lower username) as [s'|] eqn:Es; [|discriminate].
  cbn [rbind]. destruct (String.eqb l s') eqn:Eq.
  - cbn [py_item]. destruct (lookup "id" m) as [i|] eqn:Ei; [|discriminate].
    cbn [rbind]. intros [= <-].
    exists (JObj m). split; [left; reflexivity|].
    destruct username as [| | |s| |]; try discriminate Es.
    destruct (match lookup "userName" m with
              | Some v0 => v0 | None => JStr EmptyString end) as [| | |n| |] eqn:En;
      try discriminate El.
    cbn in El, Es. injection El as <-. injection Es as <-.
    apply String.eqb_eq in Eq.
    exists m, s, n. auto.
  - intros H. destruct (IH H) as (entry & Hi & Hn). exists entry. split; [right|]; auto.
Qed.

(** Case analysis on the results of the Python expressions of a page. *)
Ltac split_results :=
  repeat (match goal with
          | |- context [if ?b then _ else _] => destruct b eqn:?
          | |- context [match ?x with _ => _ end] =>
              match type of x with
              | res _ => destruct x eqn:?
              | option _ => destruct x eqn:?
              end
          end; red_run).

Ltac page_cases serve :=
  red_run;
  match goal with
  | |- context [serve ?w ?q] => destruct (serve w q) as [[|code body] w']
  end; red_run;
  [ | repeat match goal with
             | |- context [(400 <=? ?c) && (?c <? 600)] =>
                 destruct ((400 <=? c) && (c <? 600)) eqn:?; red_run
             | |- context [400 <=? ?c] => destruct (400 <=? c) eqn:?; red_run
             end ];
  split_results.

Section PageTraces.
Context {W : Type}.
Variable serve : W -> request -> response * W.
Variable cfg : config.

Lemma group_page_pace (name : string) (start : Z) (w : W) :
  let x := Requests.get_netskope_group_id_page serve cfg name start w in
  pace (events x)
  = match result x with Returns None => [None; Some 1] | _ => [None] end.
Proof.
  intros x. subst x.
  unfold Requests.get_netskope_group_id_page.
  unfold Requests.requests_get, Requests.raise_for_status. unfold_monad.
  page_cases serve; reflexivity.
Qed.

Lemma user_page_pace (username : json) (start : Z) (w : W) :
  let x := Requests.get_netskope_user_id_page serve cfg username start w in
  pace (events x)
  = match result x with Returns None => [None; Some 1] | _ => [None] end.
Proof.
  intros x. subst x.
  unfold Requests.get_netskope_user_id_page.
  unfold Requests.requests_get, Requests.raise_for_status. unfold_monad.
  page_cases serve; reflexivity.
Qed.

Lemma group_page_pace_urllib3 (name : string) (start : Z) (w : W) :
  let x := Urllib3.get_netskope_group_id_page serve cfg name start w in
  pace (events x)
  = match result x with Returns None => [None; Some 1] | _ => [None] end.
Proof.
  intros x. subst x.
  unfold Urllib3.get_netskope_group_id_page.
  unfold Urllib3.http_request, Urllib3.handle_urllib3_response. unfold_monad.
  page_cases serve; reflexivity.
Qed.

Lemma user_page_pace_urllib3 (username : json) (start : Z) (w : W) :
  let x := Urllib3.get_netskope_user_id_page serve cfg username start w in
  pace (events x)
  = match result x with Returns None => [None; Some 1] | _ => [None] end.
Proof.
  intros x. subst x.
  unfold Urllib3.get_netskope_user_id_page.
  unfold Urllib3.http_request, Urllib3.handle_urllib3_response. unfold_monad.
  page_cases serve; reflexivity.
Qed.
End PageTraces.

Lemma no_dict_among_chars (s : string) (g : list (string * json)) :
  ~ In (JObj g) (chars s).
Proof. induction s as [|c s IH]; cbn; [tauto|]. intros [H|H]; [discriminate|auto]. Qed.

Lemma no_dict_among_keys (m g : list (string * json)) :
  ~ In (JObj g) (map (fun kv => JStr (fst kv)) m).
Proof. intros H. apply in_map_iff in H. destruct H as (? & ? & _). discriminate. Qed.

(** The entries a page loops over are the "Resources" it lists, whenever
    one of them is a JSON object. *)
Lemma listed_entry (code : Z) (body resources : json) (entries : list json)
      (g : list (string * json)) :
  py_get body "Resources" (JArr []) = Ok resources ->
  py_iter resources = Ok entries ->
  In (JObj g) entries ->
  lists_entry (Status code body) (JObj g).
Proof.
  intros Hg Hi Hin.
  destruct body as [|b|n|s|l|m]; try discriminate Hg.
  cbn [py_get] in Hg. injection Hg as <-.
  exists code, m, entries. split; [reflexivity|].
  destruct (lookup "Resources" m) as [[|b|n|s|l|m2]|]; cbn [py_iter] in Hi;
    try discriminate Hi; injection Hi as <-.
  - now apply no_dict_among_chars in Hin.
  - auto.
  - now apply no_dict_among_keys in Hin.
  - destruct Hin.
Qed.

Section SearchTraces.
Context {W : Type}.
Variable serve : W -> request -> response * W.
Variable cfg : config.

Lemma group_page_found (name : string) (start : Z) (w : W) (v : json) :
  let x := Requests.get_netskope_group_id_page serve cfg name start w in
  result x = Returns (Some v) ->
  v <> JNull ->
  exists q r entry,
    exchanges (events x) = [(q, r)] /\ lists_entry r entry /\ group_named name v entry.
Proof.
  intros x. subst x.
  unfold Requests.get_netskope_group_id_page.
  unfold Requests.requests_get, Requests.raise_for_status. unfold_monad.
  page_cases serve; intros H Hv; try discriminate H;
    try (injection H as <-; congruence).
  injection H as <-.
  match goal with
  | Hf : find_group _ _ = Ok (Some _) |- _ =>
      destruct (find_group_some _ _ _ Hf) as (entry & Hi & Hn)
  end.
  do 2 eexists. exists entry. split; [reflexivity|]. split; [|exact Hn].
  destruct Hn as (g & -> & _).
  eapply listed_entry; eassumption.
Qed.

Lemma user_page_found (username : json) (start : Z) (w : W) (v : json) :
  let x := Requests.get_netskope_user_id_page serve cfg username start w in
  result x = Returns (Some v) ->
  v <> JNull ->
  exists q r entry,
    exchanges (events x) = [(q, r)] /\ lists_entry r entry /\ user_named username v entry.
Proof.
  intros x. subst x.
  unfold Requests.get_netskope_user_id_page.
  unfold Requests.requests_get, Requests.raise_for_status. unfold_monad.
  page_cases serve; intros H Hv; try discriminate H;
    try (injection H as <-; congruence).
  injection H as <-.
  match goal with
  | Hf : find_user _ _ = Ok (Some _) |- _ =>
      destruct (find_user_some _ _ _ Hf) as (entry & Hi & Hn)
  end.
  do 2 eexists. exists entry. split; [reflexivity|]. split; [|exact Hn].
  destruct Hn as (g & ? & ? & -> & _).
  eapply listed_entry; eassumption.
Qed.

Lemma group_page_found_urllib3 (name : string) (start : Z) (w : W) (v : json) :
  let x := Urllib3.get_netskope_group_id_page serve cfg name start w in
  result x = Returns (Some v) ->
  v <> JNull ->
  exists q r entry,
    exchanges (events x) = [(q, r)] /\ lists_entry r entry /\ group_named name v entry.
Proof.
  intros x. subst x.
  unfold Urllib3.get_netskope_group_id_page.
  unfold Urllib3.http_request, Urllib3.handle_urllib3_response. unfold_monad.
  page_cases serve; intros H Hv; try discriminate H;
    try (injection H as <-; congruence).
  injection H as <-.
  match goal with
  | Hf : find_group _ _ = Ok (Some _) |- _ =>
      destruct (find_group_some _ _ _ Hf) as (entry & Hi & Hn)
  end.
  do 2 eexists. exists entry. split; [reflexivity|]. split; [|exact Hn].
  destruct Hn as (g & -> & _).
  eapply listed_entry; eassumption.
Qed.

Lemma user_page_found_urllib3 (username : json) (start : Z) (w : W) (v : json) :
  let x := Urllib3.get_netskope_user_id_page serve cfg username start w in
  result x = Returns (Some v) ->
  v <> JNull ->
  exists q r entry,
    exchanges (events x) = [(q, r)] /\ lists_entry r entry /\ user_named username v entry.
Proof.
  intros x. subst x.
  unfold Urllib3.get_netskope_user_id_page.
  unfold Urllib3.http_request, Urllib3.handle_urllib3_response. unfold_monad.
  page_cases serve; intros H Hv; try discriminate H;
    try (injection H as <-; congruence).
  injection H as <-.
  match goal with
  | Hf : find_user _ _ = Ok (Some _) |- _ =>
      destruct (find_user_some _ _ _ Hf) as (entry & Hi & Hn)
  end.
  do 2 eexists. exists entry. split; [reflexivity|]. split; [|exact Hn].
  destruct Hn as (g & ? & ? & -> & _).
  eapply listed_entry; eassumption.
Qed.

(** The user search of updateUsersURLlib3.py catches everything. *)
Lemma user_page_never_raises_urllib3 (username : json) (start : Z) (w : W) (e : exn) :
  result (Urllib3.get_netskope_user_id_page serve cfg username start w) <> Raises e.
Proof.
  unfold Urllib3.get_netskope_user_id_page.
  unfold Urllib3.http_request, Urllib3.handle_urllib3_response. unfold_monad.
  page_cases serve; discriminate.
Qed.
End SearchTraces.

Lemma data_error_not_request (e : exn) :
  data_error e = true -> is_RequestException e = false.
Proof. destruct e; cbn; congruence. Qed.

Ltac data_error_cases :=
  repeat match goal with
         | |- context [match ?x with _ => _ end] => destruct x
         | |- context [if ?b then _ else _] => destruct b
         end;
  cbn; try discriminate; try (intros [= <-]; reflexivity).

Lemma py_get_error j k d e : py_get j k d = Err e -> data_error e = true.
Proof. unfold py_get. data_error_cases. Qed.

Lemma py_item_error j k e : py_item j k = Err e -> data_error e = true.
Proof. unfold py_item. data_error_cases. Qed.

Lemma py_first_error j e : py_first j = Err e -> data_error e = true.
Proof. unfold py_first. data_error_cases. Qed.

Lemma py_in_error k j e : py_in k j = Err e -> data_error e = true.
Proof. unfold py_in. data_error_cases. Qed.

Lemma py_iter_error j e : py_iter j = Err e -> data_error e = true.
Proof. unfold py_iter. data_error_cases. Qed.

Lemma py_len_error j e : py_len j = Err e -> data_error e = true.
Proof. unfold py_len. data_error_cases. Qed.

Lemma py_lt_int_error j n e : py_lt_int j n = Err e -> data_error e = true.
Proof. unfold py_lt_int. data_error_cases. Qed.

Lemma py_lower_error j e : py_lower j = Err e -> data_error e = true.
Proof. unfold py_lower. data_error_cases. Qed.

Lemma rbind_error {A B} (r : res A) (k : A -> res B) (e : exn) :
  rbind r k = Err e ->
  r = Err e \/ exists a, r = Ok a /\ k a = Err e.
Proof. destruct r as [a|e']; cbn; [right; eauto | intros [= <-]; left; reflexivity]. Qed.

Lemma find_group_error name gs e : find_group name gs = Err e -> data_error e = true.
Proof.
  induction gs as [|g gs IH]; [discriminate|]. cbn [find_group].
  intros H. apply rbind_error in H as [H|(d & Hd & H)].
  - now apply py_get_error in H.
  - destruct (py_eq_str d name); [|auto].
    apply rbind_error in H as [H|(i & _ & H)]; [now apply py_item_error in H|discriminate].
Qed.

Lemma find_user_error username us e : find_user username us = Err e -> data_error e = true.
Proof.
  induction us as [|u us IH]; [discriminate|]. cbn [find_user].
  intros H. apply rbind_error in H as [H|(n & _ & H)]; [now apply py_get_error in H|].
  apply rbind_error in H as [H|(l & _ & H)]; [now apply py_lower_error in H|].
  apply rbind_error in H as [H|(s & _ & H)]; [now apply py_lower_error in H|].
  destruct (String.eqb l s); [|auto].
  apply rbind_error in H as [H|(i & _ & H)]; [now apply py_item_error in H|discriminate].
Qed.

Lemma at_end_error (total groups : json) (start_index : Z) (e : exn) :
  (let? reached := py_lt_int total (start_index + count) in
   if reached then Ok true
   else let? n := py_len groups in Ok (n <? count)) = Err e ->
  data_error e = true.
Proof.
  intros H. apply rbind_error in H as [H|(b & _ & H)]; [now apply py_lt_int_error in H|].
  destruct b; [discriminate|].
  apply rbind_error in H as [H|(n & _ & H)]; [now apply py_len_error in H|discriminate].
Qed.

Ltac data_error_hyp :=
  match goal with
  | H : py_get _ _ _ = Err _ |- _ => exact (py_get_error _ _ _ _ H)
  | H : py_iter _ = Err _ |- _ => exact (py_iter_error _ _ H)
  | H : find_group _ _ = Err _ |- _ => exact (find_group_error _ _ _ H)
  | H : find_user _ _ = Err _ |- _ => exact (find_user_error _ _ _ H)
  | H : rbind _ _ = Err _ |- _ => exact (at_end_error _ _ _ _ H)
  end.

Section SearchErrors.
Context {W : Type}.
Variable serve : W -> request -> response * W.
Variable cfg : config.

Lemma user_page_raises_data_error (username : json) (start : Z) (w : W) (e : exn) :
  result (Requests.get_netskope_user_id_page serve cfg username start w) = Raises e ->
  data_error e = true.
Proof.
  unfold Requests.get_netskope_user_id_page.
  unfold Requests.requests_get, Requests.raise_for_status. unfold_monad.
  page_cases serve; intros H; try discriminate H; injection H as <-; data_error_hyp.
Qed.
End SearchErrors.

(** X9.  [get_netskope_user_id] of updateUsersURLlib3.py never raises.  In
    UpdateEntraUsers.py it raises only an error of reading data (a page that
    has not the expected shape, a user name that is not a string): no
    exception of [requests] leaves it. *)
Theorem user_search_swallows_every_request_error
  {W : Type} (serve : W -> request -> response * W) (cfg : config)
  (fuel : nat) (username : json) (w : W) :
  (forall e, result (Urllib3.get_netskope_user_id serve cfg fuel username w) <> Raises e)
  /\ (forall e,
         result (Requests.get_netskope_user_id serve cfg fuel username w) = Raises e ->
         data_error e = true).
Proof.
  split; intros e.
  - rewrite user_search_run_urllib3. cbn [result fst]. intros H.
    apply paginate_raises in H as (s & w' & H).
    now apply user_page_never_raises_urllib3 in H.
  - rewrite user_search_run. cbn [result fst]. intros H.
    apply paginate_raises in H as (s & w' & H).
    now apply user_page_raises_data_error in H.
Qed.

Lemma user_search_swallows_every_request_error_witness :
  let page := Status 200 (JObj [("Resources", JArr [JStr "bob@x.com"])]) in
  result (Requests.get_netskope_user_id scripted published_cfg 3 (JStr "bob@x.com") [page])
  = Raises AttributeError
  /\ data_error AttributeError = true
  /\ result (Urllib3.get_netskope_user_id scripted published_cfg 3 (JStr "bob@x.com") [page])
     = Returns JNull.
Proof.
  intros page.
  destruct (user_search_swallows_every_request_error scripted published_cfg 3
              (JStr "bob@x.com") [page]) as (_ & H).
  split; [reflexivity|]. split; [|reflexivity].
  apply H. reflexivity.
Defined.

(** X10.  In the four offset-paginated searches the requests come one
    second apart: every request but the last is followed by one pause of one
    second, and a search that has ended made no pause after its last
    request. *)
Theorem one_second_pause_between_pages
  {W : Type} (serve : W -> request -> response * W) (cfg : config)
  (fuel : nat) (group_name : string) (username : json) (w : W) :
  paced (events (Requests.get_netskope_group_id serve cfg fuel group_name w))
        (finished (result (Requests.get_netskope_group_id serve cfg fuel group_name w)))
  /\ paced (events (Requests.get_netskope_user_id serve cfg fuel username w))
           (finished (result (Requests.get_netskope_user_id serve cfg fuel username w)))
  /\ paced (events (Urllib3.get_netskope_group_id serve cfg fuel group_name w))
           (finished (result (Urllib3.get_netskope_group_id serve cfg fuel group_name w)))
  /\ paced (events (Urllib3.get_netskope_user_id serve cfg fuel username w))
           (finished (result (Urllib3.get_netskope_user_id serve cfg fuel username w))).
Proof.
  unfold paced.
  rewrite group_search_run, user_search_run, group_search_run_urllib3,
    user_search_run_urllib3.
  cbn [result events fst snd pace].
  split; [|split; [|split]].
  - apply paginate_pace.
    + intros. apply group_page_pace.
    + intros. apply (group_page_run serve cfg group_name start w0).
  - apply paginate_pace.
    + intros. apply user_page_pace.
    + intros. apply (user_page_run serve cfg username start w0).
  - apply paginate_pace.
    + intros. apply group_page_pace_urllib3.
    + intros. apply (group_page_run_urllib3 serve cfg group_name start w0).
  - apply paginate_pace.
    + intros. apply user_page_pace_urllib3.
    + intros. apply (user_page_run_urllib3 serve cfg username start w0).
Qed.

Lemma one_second_pause_between_pages_witness :
  let resources := repeat (group_entry "Other" "g7") 101 in
  let x := Requests.get_netskope_group_id (scim_listing resources) published_cfg
             3 "Netskope" tt in
  paced (events x) true /\ List.length (exchanges (events x)) = 2%nat.
Proof.
  intros resources x.
  destruct (one_second_pause_between_pages (scim_listing resources) published_cfg 3
              "Netskope" (JStr "bob@x.com") tt) as (H & _).
  split; [exact H | reflexivity].
Defined.

(** X11.  An identifier other than [None] that [get_netskope_group_id]
    returns is the "id" of an entry, on a page the search fetched, whose
    displayName is the name searched for; one that [get_netskope_user_id]
    returns is the "id" of a fetched entry whose userName equals the name
    searched for when case is ignored.  This holds in both scripts. *)
Theorem search_returns_the_identifier_of_a_listed_entry
  {W : Type} (serve : W -> request -> response * W) (cfg : config)
  (fuel : nat) (group_name : string) (username : json) (w : W) (v : json) :
  v <> JNull ->
  (result (Requests.get_netskope_group_id serve cfg fuel group_name w) = Returns v ->
   exists q r entry,
     In (q, r) (exchanges (events (Requests.get_netskope_group_id serve cfg fuel group_name w)))
     /\ lists_entry r entry /\ group_named group_name v entry)
  /\ (result (Requests.get_netskope_user_id serve cfg fuel username w) = Returns v ->
      exists q r entry,
        In (q, r) (exchanges (events (Requests.get_netskope_user_id serve cfg fuel username w)))
        /\ lists_entry r entry /\ user_named username v entry)
  /\ (result (Urllib3.get_netskope_group_id serve cfg fuel group_name w) = Returns v ->
      exists q r entry,
        In (q, r) (exchanges (events (Urllib3.get_netskope_group_id serve cfg fuel group_name w)))
        /\ lists_entry r entry /\ group_named group_name v entry)
  /\ (result (Urllib3.get_netskope_user_id serve cfg fuel username w) = Returns v ->
      exists q r entry,
        In (q, r) (exchanges (events (Urllib3.get_netskope_user_id serve cfg fuel username w)))
        /\ lists_entry r entry /\ user_named username v entry).
Proof.
  intros Hv.
  rewrite group_search_run, user_search_run, group_search_run_urllib3,
    user_search_run_urllib3.
  cbn [result events fst snd exchanges].
  split; [|split; [|split]]; intros H;
    apply paginate_returns in H as (s & w' & Hr & Hi).
  - destruct (group_page_found serve cfg group_name s w' v Hr Hv) as (q & r & en & Hx & Hl & Hn).
    exists q, r, en. split; [|auto]. apply Hi. rewrite Hx. left. reflexivity.
  - destruct (user_page_found serve cfg username s w' v Hr Hv) as (q & r & en & Hx & Hl & Hn).
    exists q, r, en. split; [|auto]. apply Hi. rewrite Hx. left. reflexivity.
  - destruct (group_page_found_urllib3 serve cfg group_name s w' v Hr Hv)
      as (q & r & en & Hx & Hl & Hn).
    exists q, r, en. split; [|auto]. apply Hi. rewrite Hx. left. reflexivity.
  - destruct (user_page_found_urllib3 serve cfg username s w' v Hr Hv)
      as (q & r & en & Hx & Hl & Hn).
    exists q, r, en. split; [|auto]. apply Hi. rewrite Hx. left. reflexivity.
Qed.

Lemma search_returns_the_identifier_of_a_listed_entry_witness :
  let page := Status 200 (JObj [("totalResults", JNum 1);
                                ("Resources",
                                 JArr [JObj [("userName", JStr "Bob@X.com");
                                             ("id", JStr "abc-123")]])]) in
  exists q r entry,
    In (q, r) (exchanges (events (Requests.get_netskope_user_id scripted published_cfg 3
                                    (JStr "bob@x.com") [page])))
    /\ lists_entry r entry /\ user_named (JStr "bob@x.com") (JStr "abc-123") entry.
Proof.
  intros page.
  destruct (search_returns_the_identifier_of_a_listed_entry scripted published_cfg 3
              "Netskope" (JStr "bob@x.com") [page] (JStr "abc-123") ltac:(discriminate))
    as (_ & H & _).
  apply H. reflexivity.
Defined.

(** ** The group search against a service that lists a collection *)

Lemma py_lt_int_as_int (v : json) (total n : Z) :
  as_int v = Some total -> py_lt_int v n = Ok (total <? n).
Proof. destruct v as [|b|a|s|l|m]; cbn; try discriminate; now intros [= <-]. Qed.

Section PageReads.
Context {W : Type}.
Variable serve : W -> request -> response * W.
Variable cfg : config.

Lemma group_page_reads (name : string) (start : Z) (w w' : W) (code : Z)
      (m : list (string * json)) (entries : list json) (found : option json) (total : Z) :
  serve w (groups_request cfg start) = (Status code (JObj m), w') ->
  code < 400 ->
  lookup "Resources" m = Some (JArr entries) ->
  entries <> [] ->
  find_group name entries = Ok found ->
  total_results_of (Status code (JObj m)) = Some total ->
  let q := groups_request cfg start in
  let x := Requests.get_netskope_group_id_page serve cfg name start w in
  let x' := Urllib3.get_netskope_group_id_page serve cfg name start w in
  result x = Returns (page_verdict found total start entries)
  /\ exchanges (events x) = [(q, Status code (JObj m))] /\ world x = w'
  /\ result x' = Returns (page_verdict found total start entries)
  /\ exchanges (events x') = [(q, Status code (JObj m))] /\ world x' = w'.
Proof.
  intros Hs Hc HR He Hf Ht q x x'. subst q x x'.
  unfold Requests.get_netskope_group_id_page, Urllib3.get_netskope_group_id_page,
    Requests.requests_get, Requests.raise_for_status, Urllib3.http_request,
    Urllib3.handle_urllib3_response.
  unfold_monad. unfold groups_request in Hs. rewrite Hs. cbn [fst snd].
  assert (E4 : (400 <=? code) = false) by lia. rewrite E4. cbn [andb py_get].
  rewrite HR. destruct entries as [|g gs]; [congruence|].
  cbn [truthy negb py_iter]. rewrite Hf.
  unfold page_verdict, groups_request. destruct found as [id|].
  { cbn. repeat split; reflexivity. }
  cbn [total_results_of] in Ht.
  assert (Hlt : py_lt_int (match lookup "totalResults" m with
                           | Some v => v | None => JNum 0 end) (start + count)
                = Ok (total <? start + count)).
  { destruct (lookup "totalResults" m) as [v|].
    - now apply py_lt_int_as_int.
    - injection Ht as <-. reflexivity. }
  rewrite Hlt. cbn [rbind py_len]. fold (len (g :: gs)).
  destruct (total <? start + count); cbn [orb rbind].
  { cbn. repeat split; reflexivity. }
  destruct (len (g :: gs) <? count); cbn; repeat split; reflexivity.
Qed.
End PageReads.

Lemma find_group_first (name : string) (l1 l2 : list json)
      (g : list (string * json)) (id : json) :
  forallb (other_group name) l1 = true ->
  lookup "displayName" g = Some (JStr name) ->
  lookup "id" g = Some id ->
  find_group name (l1 ++ JObj g :: l2) = Ok (Some id).
Proof.
  intros H1 Hd Hi. induction l1 as [|e l1 IH].
  - cbn. rewrite Hd. cbn. rewrite String.eqb_refl, Hi. reflexivity.
  - cbn [forallb] in H1. apply andb_prop in H1 as [He H1].
    destruct e as [|b|n|s|l|m]; try discriminate He.
    cbn [app find_group py_get rbind]. cbn [other_group] in He.
    destruct (lookup "displayName" m) as [d|].
    + apply negb_true_iff in He. rewrite He. auto.
    + cbn [py_eq_str]. auto.
Qed.

Section ListingFinds.
Variable cfg : config.
Variable name : string.
Variables before after : list json.
Variable g : list (string * json).
Variable id : json.
Hypothesis others : forallb (other_group name) before = true.
Hypothesis named : lookup "displayName" g = Some (JStr name).
Hypothesis has_id : lookup "id" g = Some id.

Local Abbreviation resources := (before ++ JObj g :: after).

Variable page : Z -> M unit (option json).
Hypothesis page_reads :
  forall start code m entries found total,
    scim_listing resources tt (groups_request cfg start) = (Status code (JObj m), tt) ->
    code < 400 ->
    lookup "Resources" m = Some (JArr entries) ->
    entries <> [] ->
    find_group name entries = Ok found ->
    total_results_of (Status code (JObj m)) = Some total ->
    result (page start tt) = Returns (page_verdict found total start entries)
    /\ exchanges (events (page start tt))
       = [(groups_request cfg start, Status code (JObj m))].

Lemma listing_answer (k : nat) :
  scim_listing resources tt (groups_request cfg (1 + 100 * Z.of_nat k))
  = (Status 200
       (JObj [ ("totalResults", JNum (len resources));
               ("startIndex", JNum (1 + 100 * Z.of_nat k));
               ("Resources", JArr (firstn 100 (skipn (100 * k) resources))) ]),
     tt).
Proof.
  rewrite <- (listing_response cfg resources k).
  destruct (scim_listing _ _ _) as [r []]. reflexivity.
Qed.

Lemma listing_finds (fuel : nat) :
  forall k : nat,
    (100 * k <= List.length before)%nat ->
    (List.length before / 100 - k < fuel)%nat ->
    let y := paginate page fuel (1 + 100 * Z.of_nat k) tt in
    result y = Returns id
    /\ List.length (exchanges (events y)) = S (List.length before / 100 - k).
Proof.
  pose proof (Nat.div_mod_eq (List.length before) 100) as Hdm.
  pose proof (Nat.mod_upper_bound (List.length before) 100 ltac:(lia)) as Hm.
  induction fuel as [|fuel IH]; intros k Hk Hf; [lia|].
  cbv zeta. rewrite paginate_step. cbv zeta.
  pose proof (listing_answer k) as Ha.
  assert (Hsk : skipn (100 * k) resources
                = skipn (100 * k) before ++ JObj g :: after).
  { rewrite skipn_app. replace (100 * k - List.length before)%nat with O by lia.
    reflexivity. }
  pose proof (length_skipn (100 * k) before) as Hls.
  destruct (Nat.lt_ge_cases (List.length before) (100 * k + 100)) as [Hin|Hout].
  - (* the group is on this page *)
    assert (He : firstn 100 (skipn (100 * k) resources)
                 = skipn (100 * k) before
                   ++ JObj g :: firstn (99 - List.length (skipn (100 * k) before)) after).
    { rewrite Hsk, firstn_app.
      rewrite firstn_all2 by lia.
      replace (100 - List.length (skipn (100 * k) before))%nat
        with (S (99 - List.length (skipn (100 * k) before))) by lia.
      reflexivity. }
    destruct (page_reads (1 + 100 * Z.of_nat k) 200 _ _ (Some id) (len resources)
                Ha ltac:(lia) eq_refl) as (Hr & Hx).
    + rewrite He. now destruct (skipn (100 * k) before).
    + rewrite He. apply find_group_first; [|assumption|assumption].
      rewrite <- (firstn_skipn (100 * k) before), forallb_app in others.
      apply andb_prop in others. tauto.
    + reflexivity.
    + rewrite Hr. cbn [page_verdict result events fst snd].
      rewrite app_nil_r, Hx. split; [reflexivity|].
      cbn [List.length]. f_equal. lia.
  - (* the page is full of other groups *)
    assert (He : firstn 100 (skipn (100 * k) resources)
                 = firstn 100 (skipn (100 * k) before)).
    { rewrite Hsk, firstn_app.
      replace (100 - List.length (skipn (100 * k) before))%nat with O by lia.
      cbn [firstn]. now rewrite app_nil_r. }
    assert (Hl : List.length (firstn 100 (skipn (100 * k) before)) = 100%nat).
    { rewrite length_firstn. lia. }
    destruct (page_reads (1 + 100 * Z.of_nat k) 200 _ _ None (len resources)
                Ha ltac:(lia) eq_refl) as (Hr & Hx).
    + rewrite He. intros E. rewrite E in Hl. discriminate Hl.
    + rewrite He. apply find_group_none. apply forallb_firstn_skipn, others.
    + reflexivity.
    + assert (Hv : page_verdict None (len resources) (1 + 100 * Z.of_nat k)
                     (firstn 100 (skipn (100 * k) resources)) = None).
      { unfold page_verdict, len, count. rewrite He, Hl.
        rewrite length_app. cbn [List.length].
        replace (_ <? _) with false by (symmetry; apply Z.ltb_ge; lia).
        reflexivity. }
      rewrite Hr, Hv. cbn [result events fst snd].
      destruct (world (page (1 + 100 * Z.of_nat k) tt)).
      replace (1 + 100 * Z.of_nat k + count) with (1 + 100 * Z.of_nat (S k))
        by (unfold count; lia).
      destruct (IH (S k)) as [R Len]; [lia|lia|].
      cbv zeta in R, Len. rewrite R, exchanges_app, length_app, Hx, Len.
      split; [reflexivity|]. cbn [List.length]. lia.
Qed.
End ListingFinds.

(** X12.  Against a service that lists a collection page by page, with its
    size as totalResults, [get_netskope_group_id] finds a group that is in
    the collection: it returns the identifier of the first entry with the
    name searched for, after one request for each page up to the one that
    holds it (floor(i / 100) + 1 requests when [i] entries come before it),
    given fuel for these pages.  This holds in both scripts. *)
Theorem listing_search_finds_the_first_group_of_that_name
  (cfg : config) (fuel : nat) (group_name : string)
  (before after : list json) (g : list (string * json)) (group_id : json) :
  forallb (other_group group_name) before = true ->
  lookup "displayName" g = Some (JStr group_name) ->
  lookup "id" g = Some group_id ->
  (List.length before / 100 < fuel)%nat ->
  let resources := before ++ JObj g :: after in
  let y := Requests.get_netskope_group_id (scim_listing resources) cfg fuel group_name tt in
  let y' := Urllib3.get_netskope_group_id (scim_listing resources) cfg fuel group_name tt in
  result y = Returns group_id
  /\ List.length (exchanges (events y)) = S (List.length before / 100)
  /\ result y' = Returns group_id
  /\ List.length (exchanges (events y')) = S (List.length before / 100).
Proof.
  intros Ho Hn Hi Hf resources y y'. subst y y'.
  rewrite group_search_run, group_search_run_urllib3.
  cbn [result events fst snd exchanges].
  destruct (listing_finds cfg group_name before after g group_id Ho Hn Hi
              (Requests.get_netskope_group_id_page (scim_listing resources) cfg group_name))
    with (fuel := fuel) (k := O) as (R & Len); try lia.
  { intros start code m entries found total Hs Hc HR He Hfd Ht.
    destruct (group_page_reads (scim_listing resources) cfg group_name start tt tt code m
                entries found total Hs Hc HR He Hfd Ht) as (H1 & H2 & _).
    split; assumption. }
  destruct (listing_finds cfg group_name before after g group_id Ho Hn Hi
              (Urllib3.get_netskope_group_id_page (scim_listing resources) cfg group_name))
    with (fuel := fuel) (k := O) as (R' & Len'); try lia.
  { intros start code m entries found total Hs Hc HR He Hfd Ht.
    destruct (group_page_reads (scim_listing resources) cfg group_name start tt tt code m
                entries found total Hs Hc HR He Hfd Ht) as (_ & _ & _ & H1 & H2 & _).
    split; assumption. }
  cbv zeta in R, Len, R', Len'. change (1 + 100 * Z.of_nat 0) with 1 in *.
  rewrite Nat.sub_0_r in Len, Len'. auto.
Qed.

Lemma listing_search_finds_the_first_group_of_that_name_witness :
  let before := repeat (group_entry "Other" "g7") 150 in
  let g := [("displayName", JStr "Netskope"); ("id", JStr "ns-1")] in
  let later := [group_entry "Netskope" "ns-2"] in
  let y := Requests.get_netskope_group_id (scim_listing (before ++ JObj g :: later))
             published_cfg 2 "Netskope" tt in
  result y = Returns (JStr "ns-1") /\ List.length (exchanges (events y)) = 2%nat.
Proof.
  intros before g later y.
  destruct (listing_search_finds_the_first_group_of_that_name published_cfg 2 "Netskope"
              before later g (JStr "ns-1"))
    as (R & Len & _).
  - reflexivity.
  - reflexivity.
  - reflexivity.
  - vm_compute. lia.
  - split; [exact R | exact Len].
Defined.

(** X13.  A first page that reports no "totalResults" ends the group
    search, however many entries it holds: when none of its entries has the
    name searched for, [get_netskope_group_id] returns [None] after that one
    request, since the absent total counts as 0.  This holds in both
    scripts. *)
Theorem page_without_total_ends_the_group_search
  {W : Type} (serve : W -> request -> response * W) (cfg : config)
  (fuel : nat) (group_name : string) (w w' : W) (code : Z)
  (m : list (string * json)) (entries : list json) :
  serve w (groups_request cfg 1) = (Status code (JObj m), w') ->
  code < 400 ->
  lookup "Resources" m = Some (JArr entries) ->
  entries <> [] ->
  forallb (other_group group_name) entries = true ->
  lookup "totalResults" m = None ->
  let x := Requests.get_netskope_group_id serve cfg (S fuel) group_name w in
  let x' := Urllib3.get_netskope_group_id serve cfg (S fuel) group_name w in
  result x = Returns JNull
  /\ exchanges (events x) = [(groups_request cfg 1, Status code (JObj m))]
  /\ result x' = Returns JNull
  /\ exchanges (events x') = [(groups_request cfg 1, Status code (JObj m))].
Proof.
  intros Hs Hc HR He Ho Ht x x'. subst x x'.
  rewrite group_search_run, group_search_run_urllib3.
  cbn [result events fst snd exchanges]. rewrite !paginate_step. cbv zeta.
  apply find_group_none in Ho.
  destruct (group_page_reads serve cfg group_name 1 w w' code m entries None 0
              Hs Hc HR He Ho) as (H1 & H2 & _ & H3 & H4 & _).
  { cbn. now rewrite Ht. }
  rewrite H1, H3. cbn [page_verdict Z.ltb Z.add count Z.compare orb result events fst snd].
  change (0 <? 1 + count) with true. cbn [orb result events fst snd].
  rewrite !app_nil_r, H2, H4. auto.
Qed.

Lemma page_without_total_ends_the_group_search_witness :
  let entries := repeat (group_entry "Other" "g7") 100 in
  let page := Status 200 (JObj [("Resources", JArr entries)]) in
  let x := Requests.get_netskope_group_id scripted published_cfg 5 "Netskope"
             [page; page; page] in
  result x = Returns JNull
  /\ exchanges (events x) = [(groups_request published_cfg 1, page)].
Proof.
  intros entries page x.
  destruct (page_without_total_ends_the_group_search scripted published_cfg 4 "Netskope"
              [page; page; page] [page; page] 200 [("Resources", JArr entries)] entries)
    as (R & X & _).
  - reflexivity.
  - lia.
  - reflexivity.
  - discriminate.
  - reflexivity.
  - reflexivity.
  - split; [exact R | exact X].
Defined.

Lemma find_user_first (s n : string) (before after : list json)
      (u : list (string * json)) (id : json) :
  forallb (other_user (JStr s)) before = true ->
  lookup "userName" u = Some (JStr n) ->
  lower n = lower s ->
  lookup "id" u = Some id ->
  find_user (JStr s) (before ++ JObj u :: after) = Ok (Some id).
Proof.
  intros H1 Hn Hl Hi. induction before as [|e before IH].
  - cbn. rewrite Hn. cbn. rewrite Hl, String.eqb_refl, Hi. reflexivity.
  - cbn [forallb] in H1. apply andb_prop in H1 as [He H1].
    destruct e as [|b|k|t|l|m]; try discriminate He.
    cbn [app find_user py_get rbind]. cbn [other_user] in He.
    destruct (lookup "userName" m) as [[|b|k|t|l|m2]|]; try discriminate He;
      cbn [py_lower rbind lower]; apply negb_true_iff in He; rewrite He; auto.
Qed.

(** X14.  [get_netskope_user_id] compares user names without regard to
    case: when the first page lists an entry whose userName equals the name
    searched for up to case, after entries that do not, the search returns
    the "id" of that entry after that one request.  This holds in both
    scripts. *)
Theorem user_search_matches_regardless_of_case
  {W : Type} (serve : W -> request -> response * W) (cfg : config)
  (fuel : nat) (s n : string) (w w' : W) (code : Z) (m u : list (string * json))
  (before after : list json) (user_id : json) :
  serve w (users_request cfg (JStr s) 1) = (Status code (JObj m), w') ->
  code < 400 ->
  lookup "Resources" m = Some (JArr (before ++ JObj u :: after)) ->
  forallb (other_user (JStr s)) before = true ->
  lookup "userName" u = Some (JStr n) ->
  lower n = lower s ->
  lookup "id" u = Some user_id ->
  let x := Requests.get_netskope_user_id serve cfg (S fuel) (JStr s) w in
  let x' := Urllib3.get_netskope_user_id serve cfg (S fuel) (JStr s) w in
  result x = Returns user_id
  /\ exchanges (events x) = [(users_request cfg (JStr s) 1, Status code (JObj m))]
  /\ result x' = Returns user_id
  /\ exchanges (events x') = [(users_request cfg (JStr s) 1, Status code (JObj m))].
Proof.
  intros Hs Hc HR Ho Hn Hl Hi x x'. subst x x'.
  pose proof (find_user_first s n before after u user_id Ho Hn Hl Hi) as Hf.
  unfold Requests.get_netskope_user_id, Urllib3.get_netskope_user_id.
  cbn [Requests.get_netskope_user_id_from Urllib3.get_netskope_user_id_from].
  unfold Requests.get_netskope_user_id_page, Urllib3.get_netskope_user_id_page,
    Requests.requests_get, Requests.raise_for_status, Urllib3.http_request,
    Urllib3.handle_urllib3_response.
  unfold_monad. unfold users_request in Hs. rewrite Hs. cbn [fst snd].
  assert (E4 : (400 <=? code) = false) by lia. rewrite E4. cbn [andb py_get].
  rewrite HR.
  assert (Ht : truthy (JArr (before ++ JObj u :: after)) = true)
    by (now destruct before).
  rewrite Ht. cbn [negb py_iter]. rewrite Hf.
  cbn. repeat split; reflexivity.
Qed.

Lemma user_search_matches_regardless_of_case_witness :
  let u := [("userName", JStr "Bob@X.com"); ("id", JStr "abc-123")] in
  let page := Status 200 (JObj [("totalResults", JNum 1); ("Resources", JArr [JObj u])]) in
  result (Requests.get_netskope_user_id scripted published_cfg 3 (JStr "bob@x.com") [page])
  = Returns (JStr "abc-123")
  /\ result (Urllib3.get_netskope_user_id scripted published_cfg 3 (JStr "bob@x.com") [page])
     = Returns (JStr "abc-123").
Proof.
  intros u page.
  destruct (user_search_matches_regardless_of_case scripted published_cfg 2
              "bob@x.com" "Bob@X.com" [page] [] 200
              [("totalResults", JNum 1); ("Resources", JArr [JObj u])] u [] []
              (JStr "abc-123") eq_refl ltac:(lia) eq_refl eq_refl eq_refl eq_refl eq_refl)
    as (R & _ & R' & _).
  split; [exact R | exact R'].
Defined.

(** ** The update *)

Lemma patch_payload_body (ids : list json) : patch_payload ids = scim_add_members_body ids.
Proof. reflexivity. Qed.

(** X15.  [update_netskope_group] never raises: whatever its arguments,
    and whatever the service answers or if the request fails, it returns.
    This holds in both scripts. *)
Theorem update_netskope_group_never_raises
  {W : Type} (serve : W -> request -> response * W) (cfg : config)
  (group_id : json) (user_ids_to_add : list json) (w : W) :
  result (Requests.update_netskope_group serve cfg group_id user_ids_to_add w) = Returns tt
  /\ result (Urllib3.update_netskope_group serve cfg group_id user_ids_to_add w) = Returns tt.
Proof.
  unfold Requests.update_netskope_group, Urllib3.update_netskope_group,
    Requests.requests_patch, Requests.raise_for_status, Urllib3.http_request.
  destruct (truthy group_id); [destruct user_ids_to_add as [|i ids]|];
    try (split; reflexivity).
  cbn [negb orb]. unfold_monad.
  destruct (serve w _) as [[[[c0 b0]|]|code body] w']; cbn [fst snd].
  - split; reflexivity.
  - split; reflexivity.
  - split.
    + destruct ((400 <=? code) && (code <? 600)); reflexivity.
    + destruct (code <? 400); reflexivity.
Qed.

(** X16.  For a group identifier and at least one user identifier,
    [update_netskope_group] prints the SUCCESS line exactly when the PATCH
    did not fail at transport level (in UpdateEntraUsers.py: it was answered
    with a status outside 400..599; in updateUsersURLlib3.py: with a status
    below 400).  On an error status it prints an ERROR line with the
    response body.  When the request itself raises, UpdateEntraUsers.py
    prints the "API Response:" line with the body of the response that the
    exception carries, or the "Error:" line with the exception when it
    carries none; updateUsersURLlib3.py prints the "Exception:" line.  The
    world is left as the PATCH left it. *)
Theorem update_reports_the_answer_of_the_service
  {W : Type} (serve : W -> request -> response * W) (cfg : config)
  (group_id : json) (user_ids_to_add : list json) (w : W) :
  truthy group_id = true ->
  user_ids_to_add <> [] ->
  let q := group_patch_request cfg group_id (scim_add_members_body user_ids_to_add) in
  let r := fst (serve w q) in
  let x := Requests.update_netskope_group serve cfg group_id user_ids_to_add w in
  let x' := Urllib3.update_netskope_group serve cfg group_id user_ids_to_add w in
  (In (success_printed cfg user_ids_to_add) (events x) <-> transport_failure r = false)
  /\ (In (success_printed cfg user_ids_to_add) (events x')
      <-> transport_failure_urllib3 r = false)
  /\ (forall code body,
         r = Status code body -> 400 <= code < 600 ->
         In (Printed [L "ERROR: Failed to update Netskope group. API Response: "; Body body])
            (events x))
  /\ (forall code body,
         r = Status code body -> 400 <= code ->
         In (Printed [L "ERROR: Failed to update Netskope group. Status "; I code;
                      L " - "; Body body])
            (events x'))
  /\ (forall attached,
         r = Failed attached ->
         In (match attached with
             | Some response =>
                 Printed [L "ERROR: Failed to update Netskope group. API Response: ";
                          Body (snd response)]
             | None =>
                 Printed [L "ERROR: Failed to update Netskope group. Error: ";
                          X (RequestException None)]
             end) (events x)
         /\ In (Printed [L "ERROR: Failed to update Netskope group. Exception: ";
                         X Urllib3Error]) (events x'))
  /\ world x = snd (serve w q)
  /\ world x' = snd (serve w q).
Proof.
  intros Hg Hi q r x x'. subst x x' r.
  unfold Requests.update_netskope_group, Urllib3.update_netskope_group,
    Requests.requests_patch, Requests.raise_for_status, Urllib3.http_request.
  rewrite Hg. destruct user_ids_to_add as [|i ids]; [congruence|].
  cbn [negb orb]. rewrite patch_payload_body. fold q.
  unfold success_printed, transport_failure, transport_failure_urllib3.
  unfold_monad. unfold group_patch_request in q. fold q.
  destruct (serve w q) as [[[[c b]|]|code body] w']; cbn [fst snd].
  - repeat split; intros; try discriminate;
      try match goal with H : Failed _ = Failed _ |- _ => injection H as <- end;
      cbn in *; intuition (try discriminate).
  - repeat split; intros; try discriminate;
      try match goal with H : Failed _ = Failed _ |- _ => injection H as <- end;
      cbn in *; intuition (try discriminate).
  - destruct (400 <=? code) eqn:E4; destruct (code <? 600) eqn:E6;
      destruct (code <? 400) eqn:E3; try lia;
      cbn -[len scim_add_members_body NETSKOPE_API_ENDPOINT NETSKOPE_HEADERS nl In];
      repeat split; intros; try discriminate; try reflexivity;
      try match goal with H : Status _ _ = Status _ _ |- _ => injection H as <- <- end;
      try lia; cbn -[len scim_add_members_body NETSKOPE_API_ENDPOINT NETSKOPE_HEADERS nl] in *;
      intuition (try discriminate; try lia).
Qed.

Lemma update_reports_the_answer_of_the_service_witness :
  let b := JObj [("detail", JStr "Forbidden")] in
  let x := Requests.update_netskope_group scripted published_cfg (JStr "g1")
             [JStr "abc-123"] [Status 403 b] in
  let x' := Urllib3.update_netskope_group scripted published_cfg (JStr "g1")
              [JStr "abc-123"] [Status 403 b] in
  let redirected := Failed (Some (302, JStr "Found")) in
  let y := Requests.update_netskope_group scripted published_cfg (JStr "g1")
             [JStr "abc-123"] [redirected] in
  let z := Requests.update_netskope_group scripted published_cfg (JStr "g1")
             [JStr "abc-123"] [Failed None] in
  ~ In (success_printed published_cfg [JStr "abc-123"]) (events x)
  /\ ~ In (success_printed published_cfg [JStr "abc-123"]) (events x')
  /\ In (Printed [L "ERROR: Failed to update Netskope group. API Response: "; Body b])
        (events x)
  /\ In (Printed [L "ERROR: Failed to update Netskope group. Status "; I 403;
                  L " - "; Body b])
        (events x')
  /\ In (Printed [L "ERROR: Failed to update Netskope group. API Response: ";
                  Body (JStr "Found")])
        (events y)
  /\ In (Printed [L "ERROR: Failed to update Netskope group. Error: ";
                  X (RequestException None)])
        (events z).
Proof.
  intros b x x' redirected y z.
  destruct (update_reports_the_answer_of_the_service
              scripted published_cfg (JStr "g1") [JStr "abc-123"] [Status 403 b]
              eq_refl ltac:(discriminate))
    as (H1 & H2 & H3 & H4 & _).
  destruct (update_reports_the_answer_of_the_service
              scripted published_cfg (JStr "g1") [JStr "abc-123"] [redirected]
              eq_refl ltac:(discriminate))
    as (_ & _ & _ & _ & H5 & _).
  destruct (update_reports_the_answer_of_the_service
              scripted published_cfg (JStr "g1") [JStr "abc-123"] [Failed None]
              eq_refl ltac:(discriminate))
    as (_ & _ & _ & _ & H6 & _).
  split; [|split; [|split; [|split; [|split]]]].
  - intros H. apply H1 in H. discriminate H.
  - intros H. apply H2 in H. discriminate H.
  - apply (H3 403 b); [reflexivity | lia].
  - apply (H4 403 b); [reflexivity | lia].
  - exact (proj1 (H5 (Some (302, JStr "Found")) eq_refl)).
  - exact (proj1 (H6 None eq_refl)).
Defined.

Lemma update_netskope_group_never_raises_witness :
  result (Requests.update_netskope_group scripted published_cfg (JStr "g1")
            [JStr "abc-123"] [Failed None]) = Returns tt
  /\ result (Urllib3.update_netskope_group scripted published_cfg (JStr "g1")
               [JStr "abc-123"] [Failed None]) = Returns tt.
Proof.
  apply (update_netskope_group_never_raises scripted published_cfg (JStr "g1")
           [JStr "abc-123"] [Failed None]).
Defined.

(** ** Runs of [main] *)

Lemma dict_item_of_key (k : json) (d : dict) :
  set_mem k (dict_keys d) = true -> exists v, dict_item k d = Ok v.
Proof.
  induction d as [|[k' v'] d IH]; [discriminate|].
  cbn [dict_keys map fst dict_item]. rewrite set_mem_cons.
  rewrite key_eqb_sym. destruct (key_eqb k' k); [eauto|exact IH].
Qed.

Lemma entra_users_map_onto_source (l : list member) :
  forall d out k v,
    Script.entra_users_map_onto d l = Ok out ->
    dict_item k out = Ok v ->
    dict_item k d = Ok v
    \/ exists u, In u l /\ key_eqb (displayName u) k = true /\ userPrincipalName u = v.
Proof.
  induction l as [|u l IH]; intros d out k v.
  - cbn. intros [= <-]. auto.
  - cbn [Script.entra_users_map_onto].
    destruct (hashable (displayName u)); [|discriminate].
    intros Ho Hi. destruct (IH _ _ _ _ Ho Hi) as [H|(u' & Hin & Hk & Hv)].
    + destruct (key_eqb (displayName u) k) eqn:E.
      * rewrite dict_item_set_same in H by (now rewrite key_eqb_sym).
        injection H as <-. right. exists u. split; [left; reflexivity|auto].
      * rewrite dict_item_set_other in H by exact E. auto.
    + right. exists u'. split; [right; exact Hin|auto].
Qed.

(** X17.  Every name of the missing set is a key of the map built from the
    Entra member list: the lookup [entra_users_map[name]] of the loop over
    the missing names cannot fail, and it gives the userPrincipalName of an
    Entra entry whose displayName equals the name. *)
Theorem missing_names_have_a_principal_name
  (E : list member) (um : dict) (keys set : list json) (name : json) :
  Script.entra_users_map_of E = Ok um ->
  py_set (dict_keys um) = Ok keys ->
  In name (Script.missing_display_names keys set) ->
  exists upn u,
    dict_item name um = Ok upn
    /\ In u E
    /\ key_eqb (displayName u) name = true
    /\ userPrincipalName u = upn.
Proof.
  intros Hu Hk Hin.
  unfold Script.missing_display_names, set_difference in Hin.
  apply filter_In in Hin as [Hin _].
  assert (Hh : forallb hashable keys = true).
  { eapply py_set_onto_hashable; [exact Hk|reflexivity]. }
  assert (Hn : hashable name = true).
  { rewrite forallb_forall in Hh. now apply Hh. }
  pose proof (set_mem_in name keys Hin Hn) as Hm.
  rewrite (py_set_mem _ _ name Hk) in Hm.
  destruct (dict_item_of_key name um Hm) as (upn & Hd).
  destruct (entra_users_map_onto_source E [] um name upn Hu Hd) as [H|(u & H1 & H2 & H3)];
    [discriminate H|].
  exists upn, u. auto.
Qed.

Lemma missing_names_have_a_principal_name_witness :
  exists upn u,
    dict_item (JStr "Bob B") [(JStr "Alice A", JStr "alice@x.com");
                              (JStr "Bob B", JStr "bob@x.com")] = Ok upn
    /\ In u example_members
    /\ key_eqb (displayName u) (JStr "Bob B") = true
    /\ userPrincipalName u = upn.
Proof.
  apply (missing_names_have_a_principal_name example_members _
           [JStr "Alice A"; JStr "Bob B"] [JStr "Alice A"] (JStr "Bob B")
           eq_refl eq_refl).
  left. reflexivity.
Defined.

Section TokenFacts.
Context {W : Type}.
Variable serve : W -> request -> response * W.

Lemma token_exchanges (w : W) :
  forallb (fun x => is_token_request (fst x))
          (exchanges (events (Script.get_access_token serve w))) = true.
Proof.
  unfold Script.get_access_token, Script.msal. unfold_monad.
  destruct (serve w AcquireTokenSilent) as [[|c1 v1] w1]; cbn [fst snd]; [reflexivity|].
  destruct (truthy v1); cbn [negb].
  - destruct (py_in "access_token" v1) as [[|]|e]; cbn; try reflexivity.
    destruct (py_item v1 "access_token"); reflexivity.
  - destruct (serve w1 AcquireTokenForClient) as [[|c2 v2] w2]; cbn [fst snd];
      [reflexivity|].
    destruct (py_in "access_token" v2) as [[|]|e]; cbn; try reflexivity.
    destruct (py_item v2 "access_token"); reflexivity.
Qed.
End TokenFacts.

Section MainFailures.
Context {W : Type}.
Variable serve : W -> request -> response * W.
Variable cfg : config.
Variable set_iter : list json -> list json.
Variable get_entra_group_id : string -> json -> M W json.
Variable get_entra_group_members : json -> json -> M W (list member).
Variable get_netskope_group_id : string -> M W json.
Variable get_netskope_group_members : json -> M W (list json).
Variable get_netskope_user_id : json -> M W json.
Variable update_netskope_group : json -> list json -> M W unit.

Local Abbreviation main :=
  (Script.main serve cfg set_iter get_entra_group_id get_entra_group_members
     get_netskope_group_id get_netskope_group_members get_netskope_user_id
     update_netskope_group).

Lemma main_without_token (w w' : W) (e : exn) (t : list event) :
  Script.get_access_token serve w = (Raises e, t, w') ->
  main w
  = (Returns tt,
     Logged INFO [L "--- Starting Entra User Fetch ---"] :: t
       ++ [Logged ERROR [L "An error occurred in the main process: "; X e];
           error_printed e],
     w').
Proof.
  intros H. rewrite main_run.
  unfold Script.main_body, Script.fetch_entra_users.
  assert (B : forall (B : Type) (k : list member -> M W B),
             bind (log INFO [L "--- Starting Entra User Fetch ---"] ;;
                   entra_token <- Script.get_access_token serve ;;
                   entra_group_id <- get_entra_group_id (ENTRA_GROUP_NAME cfg) entra_token ;;
                   entra_users_list <- get_entra_group_members entra_group_id entra_token ;;
                   ret entra_users_list) k w
             = (Raises e, Logged INFO [L "--- Starting Entra User Fetch ---"] :: t, w')).
  { intros B k. apply bind_raises. rewrite bind_log.
    rewrite (bind_raises _ _ _ _ _ _ H). reflexivity. }
  rewrite B. reflexivity.
Qed.

Lemma fetch_entra_users_without_group (w0 w1 w2 : W) token gid t0 t1 :
  Script.get_access_token serve w0 = (Returns token, t0, w1) ->
  get_entra_group_id (ENTRA_GROUP_NAME cfg) token w1 = (Returns gid, t1, w2) ->
  get_entra_group_members gid token w2 = (Returns [], [], w2) ->
  Script.fetch_entra_users serve cfg get_entra_group_id get_entra_group_members w0
  = (Returns [], Logged INFO [L "--- Starting Entra User Fetch ---"] :: t0 ++ t1, w2).
Proof.
  intros H0 H1 H2. unfold Script.fetch_entra_users.
  rewrite bind_log.
  rewrite (bind_returns _ _ _ _ _ _ H0).
  rewrite (bind_returns _ _ _ _ _ _ H1).
  rewrite (bind_returns _ _ _ _ _ _ H2).
  cbn. now rewrite !app_nil_r.
Qed.

Lemma fetch_netskope_users_group (w1 : W) gid N t w2 :
  Script.fetch_netskope_users cfg get_netskope_group_id get_netskope_group_members w1
  = (Returns (gid, N), t, w2) ->
  exists t' w', get_netskope_group_id (NETSKOPE_GROUP_NAME cfg) w1 = (Returns gid, t', w').
Proof.
  unfold Script.fetch_netskope_users. rewrite bind_log.
  destruct (get_netskope_group_id (NETSKOPE_GROUP_NAME cfg) w1) as [[[g| |] t1] w'] eqn:E.
  - rewrite (bind_returns _ _ _ _ _ _ E).
    destruct (get_netskope_group_members g w') as [[[n| |] t2] w''] eqn:E2.
    + rewrite (bind_returns _ _ _ _ _ _ E2). cbn. intros [= <- <- <- <-]. eauto.
    + rewrite (bind_raises _ _ _ _ _ _ E2). cbn. discriminate.
    + rewrite (bind_out_of_fuel _ _ _ _ _ E2). cbn. discriminate.
  - rewrite (bind_raises _ _ _ _ _ _ E). cbn. discriminate.
  - rewrite (bind_out_of_fuel _ _ _ _ _ E). cbn. discriminate.
Qed.
End MainFailures.

(** X18.  When [get_access_token] raises, [main] makes no HTTP request at
    all: every exchange of the run is a call into the token client; [main]
    prints the error and returns.  This holds in both scripts. *)
Theorem run_without_token_sends_no_request
  {W : Type} (serve : W -> request -> response * W) (cfg : config)
  (set_iter : list json -> list json) (fuel : nat) (w : W) (e : exn) :
  result (Script.get_access_token serve w) = Raises e ->
  let x := Requests.main serve cfg set_iter fuel w in
  let x' := Urllib3.main serve cfg set_iter fuel w in
  result x = Returns tt
  /\ forallb (fun qr => is_token_request (fst qr)) (exchanges (events x)) = true
  /\ In (error_printed e) (events x)
  /\ result x' = Returns tt
  /\ forallb (fun qr => is_token_request (fst qr)) (exchanges (events x')) = true
  /\ In (error_printed e) (events x').
Proof.
  intros H x x'. subst x x'.
  pose proof (token_exchanges serve w) as T.
  rewrite (run_eta (Script.get_access_token serve w)) in T. rewrite H in T.
  cbn [events fst snd] in T.
  unfold Requests.main, Urllib3.main.
  rewrite !(main_without_token serve cfg set_iter _ _ _ _ _ _ w _ e _
              (eq_trans (run_eta _) (f_equal (fun o => (o, _, _)) H))).
  cbn [result events fst snd exchanges].
  rewrite exchanges_app, forallb_app, T. cbn.
  repeat split; try reflexivity;
    right; apply in_or_app; right; right; left; reflexivity.
Qed.

Lemma run_without_token_sends_no_request_witness :
  let refused := JObj [("error", JStr "invalid_client")] in
  let w := [Status 200 JNull; Status 200 refused; Status 200 JNull] in
  let x := Requests.main scripted published_cfg in_order 5 w in
  result x = Returns tt
  /\ forallb (fun qr => is_token_request (fst qr)) (exchanges (events x)) = true
  /\ In (error_printed (TokenError refused)) (events x).
Proof.
  intros refused w x.
  destruct (run_without_token_sends_no_request scripted published_cfg in_order 5 w
              (TokenError refused) eq_refl) as (R & T & P & _).
  split; [exact R|]. split; [exact T | exact P].
Defined.

(** X19.  When the Entra group is not found ([get_entra_group_id] returns
    [None]), [main] does not request its members, still fetches the Netskope
    group and its members, and then prints the "all present" line and
    returns: the exchanges of the run are those of the token, of the group
    query and of the Netskope fetch.  This holds in both scripts. *)
Theorem run_without_entra_group_reports_all_present
  {W : Type} (serve : W -> request -> response * W) (cfg : config)
  (set_iter : list json -> list json) (fuel : nat)
  (w0 w1 w2 w3 : W) (token gid ngid : json) (N : list json) (t0 t1 t2 : list event) :
  Script.get_access_token serve w0 = (Returns token, t0, w1) ->
  truthy gid = false ->
  forallb hashable N = true ->
  (Requests.get_entra_group_id serve (ENTRA_GROUP_NAME cfg) token w1 = (Returns gid, t1, w2) ->
   Script.fetch_netskope_users cfg (Requests.get_netskope_group_id serve cfg fuel)
     (Requests.get_netskope_group_members serve cfg) w2 = (Returns (ngid, N), t2, w3) ->
   let x := Requests.main serve cfg set_iter fuel w0 in
   result x = Returns tt
   /\ In all_present_printed (events x)
   /\ exchanges (events x) = exchanges t0 ++ exchanges t1 ++ exchanges t2
   /\ world x = w3)
  /\ (Urllib3.get_entra_group_id serve (ENTRA_GROUP_NAME cfg) token w1 = (Returns gid, t1, w2) ->
      Script.fetch_netskope_users cfg (Urllib3.get_netskope_group_id serve cfg fuel)
        (Urllib3.get_netskope_group_members serve cfg) w2 = (Returns (ngid, N), t2, w3) ->
      let x := Urllib3.main serve cfg set_iter fuel w0 in
      result x = Returns tt
      /\ In all_present_printed (events x)
      /\ exchanges (events x) = exchanges t0 ++ exchanges t1 ++ exchanges t2
      /\ world x = w3).
Proof.
  intros H0 Hg HN. split; intros H1 H2 x; subst x.
  - assert (Hm : Requests.get_entra_group_members serve fuel gid token w2
                 = (Returns [], [], w2)).
    { unfold Requests.get_entra_group_members. rewrite Hg. reflexivity. }
    pose proof (fetch_entra_users_without_group serve cfg _ _ w0 w1 w2 token gid t0 t1
                  H0 H1 Hm) as F.
    unfold Requests.main.
    rewrite (main_all_present serve cfg set_iter _ _ _ _ _ _ w0 w2 w3 [] ngid N _ t2
               F H2 eq_refl HN) by (intros m []).
    cbn [result events world fst snd]. split; [reflexivity|]. split; [|split].
    + apply in_or_app; right. apply in_or_app; right. apply in_or_app; right.
      do 5 right. left. reflexivity.
    + rewrite !exchanges_app. cbn [exchanges]. rewrite exchanges_app.
      now rewrite !app_nil_r, <- app_assoc.
    + reflexivity.
  - assert (Hm : Urllib3.get_entra_group_members serve fuel gid token w2
                 = (Returns [], [], w2)).
    { unfold Urllib3.get_entra_group_members. rewrite Hg. reflexivity. }
    pose proof (fetch_entra_users_without_group serve cfg _ _ w0 w1 w2 token gid t0 t1
                  H0 H1 Hm) as F.
    unfold Urllib3.main.
    rewrite (main_all_present serve cfg set_iter _ _ _ _ _ _ w0 w2 w3 [] ngid N _ t2
               F H2 eq_refl HN) by (intros m []).
    cbn [result events world fst snd]. split; [reflexivity|]. split; [|split].
    + apply in_or_app; right. apply in_or_app; right. apply in_or_app; right.
      do 5 right. left. reflexivity.
    + rewrite !exchanges_app. cbn [exchanges]. rewrite exchanges_app.
      now rewrite !app_nil_r, <- app_assoc.
    + reflexivity.
Qed.

Lemma run_without_entra_group_reports_all_present_witness :
  let w0 := [ Status 200 (JObj [("access_token", JStr "token")]);
              Status 200 (JObj [("value", JArr [])]);
              Status 200 (JObj [("totalResults", JNum 1);
                                ("Resources", JArr [group_entry "Netskope" "ns-1"])]);
              Status 200 (JObj [("members", JArr [JObj [("display", JStr "Alice A")]])]) ] in
  let x := Requests.main scripted published_cfg in_order 5 w0 in
  result x = Returns tt
  /\ In all_present_printed (events x)
  /\ List.length (exchanges (events x)) = 4%nat.
Proof.
  intros w0 x.
  pose (a := Script.get_access_token scripted w0).
  pose (b := Requests.get_entra_group_id scripted "Crest Core QA" (JStr "token") (world a)).
  pose (c := Script.fetch_netskope_users published_cfg
               (Requests.get_netskope_group_id scripted published_cfg 5)
               (Requests.get_netskope_group_members scripted published_cfg) (world b)).
  destruct (run_without_entra_group_reports_all_present scripted published_cfg in_order 5
              w0 (world a) (world b) (world c) (JStr "token") JNull (JStr "ns-1")
              [JStr "Alice A"] (events a) (events b) (events c)
              eq_refl eq_refl eq_refl) as (H & _).
  destruct (H eq_refl eq_refl) as (R & P & X & _).
  split; [exact R|]. split; [exact P|].
  unfold x. rewrite X. reflexivity.
Defined.

Lemma missing_from_nobody (keys : list json) :
  Script.missing_display_names keys [] = keys.
Proof.
  unfold Script.missing_display_names, set_difference.
  induction keys as [|k keys IH]; [reflexivity|].
  cbn [filter set_mem existsb negb]. f_equal. exact IH.
Qed.

(** X20.  When the Netskope group is not found ([get_netskope_group_id]
    returns [None]), its members are not requested and the Netskope snapshot
    is empty, so that every Entra display name counts as missing; and [main]
    sends no PATCH.  This holds in both scripts. *)
Theorem run_without_netskope_group_sends_no_patch
  {W : Type} (serve : W -> request -> response * W) (cfg : config)
  (set_iter : list json -> list json) (fuel : nat)
  (w0 w1 w2 : W) (E : list member) (gid : json) (t1 t2 : list event) :
  truthy gid = false ->
  (Requests.get_netskope_group_id serve cfg fuel (NETSKOPE_GROUP_NAME cfg) w1
   = (Returns gid, t2, w2) ->
   Script.fetch_netskope_users cfg (Requests.get_netskope_group_id serve cfg fuel)
     (Requests.get_netskope_group_members serve cfg) w1
   = (Returns (gid, []), Logged INFO [L "--- Starting Netskope User Fetch ---"] :: t2, w2)
   /\ (forall keys, Script.missing_display_names keys [] = keys)
   /\ (Script.fetch_entra_users serve cfg (Requests.get_entra_group_id serve)
         (Requests.get_entra_group_members serve fuel) w0 = (Returns E, t1, w1) ->
       patch_sent (events (Requests.main serve cfg set_iter fuel w0)) = false))
  /\ (Urllib3.get_netskope_group_id serve cfg fuel (NETSKOPE_GROUP_NAME cfg) w1
      = (Returns gid, t2, w2) ->
      Script.fetch_netskope_users cfg (Urllib3.get_netskope_group_id serve cfg fuel)
        (Urllib3.get_netskope_group_members serve cfg) w1
      = (Returns (gid, []), Logged INFO [L "--- Starting Netskope User Fetch ---"] :: t2, w2)
      /\ (forall keys, Script.missing_display_names keys [] = keys)
      /\ (Script.fetch_entra_users serve cfg (Urllib3.get_entra_group_id serve)
            (Urllib3.get_entra_group_members serve fuel) w0 = (Returns E, t1, w1) ->
          patch_sent (events (Urllib3.main serve cfg set_iter fuel w0)) = false)).
Proof.
  intros Hg. split; intros H2; (split; [|split; [exact missing_from_nobody|]]).
  - unfold Script.fetch_netskope_users. rewrite bind_log.
    rewrite (bind_returns _ _ _ _ _ _ H2).
    unfold Requests.get_netskope_group_members. rewrite Hg. cbn. now rewrite app_nil_r.
  - intros H1. destruct (patch_sent _) eqn:P; [|reflexivity].
    apply main_patch_iff in P.
    + destruct P as (gid' & ids & R & _ & T).
      destruct R as (E' & um & keys & N & set & sorted & u1 & v1 & u2 & v2 & u3 & v3
                     & F1 & _ & _ & F2 & _).
      rewrite H1 in F1. injection F1 as _ _ <-.
      apply fetch_netskope_users_group in F2 as (t' & w' & F2).
      rewrite H2 in F2. injection F2 as -> _ _. congruence.
    + apply no_patch_get_entra_group_id.
    + apply no_patch_get_entra_group_members.
    + apply no_patch_get_netskope_group_id.
    + apply no_patch_get_netskope_group_members.
    + apply no_patch_get_netskope_user_id.
    + intros. apply update_netskope_group_patch.
  - unfold Script.fetch_netskope_users. rewrite bind_log.
    rewrite (bind_returns _ _ _ _ _ _ H2).
    unfold Urllib3.get_netskope_group_members. rewrite Hg. cbn. now rewrite app_nil_r.
  - intros H1. destruct (patch_sent _) eqn:P; [|reflexivity].
    apply main_patch_iff in P.
    + destruct P as (gid' & ids & R & _ & T).
      destruct R as (E' & um & keys & N & set & sorted & u1 & v1 & u2 & v2 & u3 & v3
                     & F1 & _ & _ & F2 & _).
      rewrite H1 in F1. injection F1 as _ _ <-.
      apply fetch_netskope_users_group in F2 as (t' & w' & F2).
      rewrite H2 in F2. injection F2 as -> _ _. congruence.
    + apply no_patch_get_entra_group_id_urllib3.
    + apply no_patch_get_entra_group_members_urllib3.
    + apply no_patch_get_netskope_group_id_urllib3.
    + apply no_patch_get_netskope_group_members_urllib3.
    + apply no_patch_get_netskope_user_id_urllib3.
    + intros. apply update_netskope_group_patch.
Qed.

Lemma run_without_netskope_group_sends_no_patch_witness :
  let found (upn id : string) :=
    Status 200 (JObj [("totalResults", JNum 1);
                      ("Resources", JArr [JObj [("userName", JStr upn); ("id", JStr id)]])]) in
  let w0 := [ Status 200 (JObj [("access_token", JStr "token")]);
              Status 200 (JObj [("value", JArr [JObj [("id", JStr "entra-1")]])]);
              example_entra_page;
              Status 200 (JObj [("totalResults", JNum 0); ("Resources", JArr [])]);
              found "alice@x.com" "u-1";
              found "bob@x.com" "abc-123" ] in
  let x := Requests.main scripted published_cfg in_order 5 w0 in
  patch_sent (events x) = false
  /\ In (group_not_found_printed published_cfg) (events x)
  /\ List.length (exchanges (events x)) = 6%nat.
Proof.
  intros found w0 x.
  pose (a := Script.fetch_entra_users scripted published_cfg
               (Requests.get_entra_group_id scripted)
               (Requests.get_entra_group_members scripted 5) w0).
  pose (b := Requests.get_netskope_group_id scripted published_cfg 5 "Netskope" (world a)).
  destruct (run_without_netskope_group_sends_no_patch scripted published_cfg in_order 5
              w0 (world a) (world b) example_members JNull (events a) (events b) eq_refl)
    as (H & _).
  destruct (H eq_refl) as (_ & _ & P).
  split; [exact (P eq_refl)|].
  split; [|reflexivity].
  cbn. repeat (first [left; reflexivity | right]).
Defined.

(** ** The two scripts side by side *)

Section Agreement.
Context {W : Type}.

Lemma agrees_ret {A} (a : A) : agrees (W := W) (ret a) (ret a).
Proof. intros w. reflexivity. Qed.

Lemma agrees_log lvl msg : agrees (W := W) (log lvl msg) (log lvl msg).
Proof. intros w. reflexivity. Qed.

Lemma agrees_print msg : agrees (W := W) (print msg) (print msg).
Proof. intros w. reflexivity. Qed.

Lemma agrees_sleep n : agrees (W := W) (sleep n) (sleep n).
Proof. intros w. reflexivity. Qed.

Lemma agrees_out_of_fuel {A} : agrees (W := W) (A := A) out_of_fuel out_of_fuel.
Proof. intros w. reflexivity. Qed.

Lemma agrees_raise {A} (e : exn) :
  is_RequestException e = false -> agrees (W := W) (A := A) (raise e) (raise e).
Proof. intros H w. exact H. Qed.

Lemma agrees_lift {A} (r : res A) :
  (forall e, r = Err e -> data_error e = true) ->
  agrees (W := W) (lift r) (lift r).
Proof.
  intros H w. destruct r as [a|e]; cbn; [reflexivity|].
  apply data_error_not_request. now apply H.
Qed.

Lemma agrees_bind {A B} (m1 m2 : M W A) (k1 k2 : A -> M W B) :
  agrees m1 m2 -> (forall a, agrees (k1 a) (k2 a)) -> agrees (bind m1 k1) (bind m2 k2).
Proof.
  intros Hm Hk w. specialize (Hm w). unfold bind.
  destruct (m1 w) as [[[a|e|] t] w1] eqn:E1; cbn [result fst] in Hm |- *.
  - rewrite Hm. specialize (Hk a w1).
    destruct (k1 a w1) as [[[b|e|] t1] w2] eqn:E2; cbn [result fst] in Hk |- *.
    + now rewrite Hk.
    + exact Hk.
    + now rewrite Hk.
  - exact Hm.
  - now rewrite Hm.
Qed.

(** A handler of UpdateEntraUsers.py lets through what it does not name. *)
Lemma agrees_try {A} (b1 b2 : M W A) (h1 h2 : exn -> M W A) :
  agrees b1 b2 ->
  (forall w e,
      result (b1 w) = Raises e -> is_RequestException e = false ->
      forall w', h1 e w' = (Raises e, [], w')) ->
  agrees (try_except b1 h1) (try_except b2 h2).
Proof.
  intros Hb Hh w. specialize (Hb w). specialize (Hh w). unfold try_except.
  destruct (b1 w) as [[[a|e|] t] w1] eqn:E1; cbn [result fst] in Hb, Hh |- *.
  - now rewrite Hb.
  - rewrite (Hh e eq_refl Hb w1). exact Hb.
  - now rewrite Hb.
Qed.

Lemma raises_only_ret {A} (P : exn -> bool) (a : A) : raises_only (W := W) P (ret a).
Proof. intros w e. discriminate. Qed.

Lemma raises_only_log (P : exn -> bool) lvl msg : raises_only (W := W) P (log lvl msg).
Proof. intros w e. discriminate. Qed.

Lemma raises_only_raise {A} (P : exn -> bool) (e : exn) :
  P e = true -> raises_only (W := W) (A := A) P (raise e).
Proof. intros H w e' [= <-]. exact H. Qed.

Lemma raises_only_lift {A} (P : exn -> bool) (r : res A) :
  (forall e, r = Err e -> P e = true) -> raises_only (W := W) P (lift r).
Proof. intros H w e. destruct r; cbn; [discriminate|]. intros [= <-]. now apply H. Qed.

Lemma raises_only_send (P : exn -> bool) (serve : W -> request -> response * W) q :
  raises_only P (send serve q).
Proof. intros w e. unfold send. destruct (serve w q). discriminate. Qed.

Lemma raises_only_bind {A B} (P : exn -> bool) (m : M W A) (k : A -> M W B) :
  raises_only P m -> (forall a, raises_only P (k a)) -> raises_only P (bind m k).
Proof.
  intros Hm Hk w e. unfold bind.
  destruct (m w) as [[[a|e'|] t] w1] eqn:E1.
  - destruct (k a w1) as [[o t1] w2] eqn:E2. cbn. intros ->.
    apply (Hk a w1). now rewrite E2.
  - cbn. intros [= <-]. apply (Hm w). now rewrite E1.
  - discriminate.
Qed.
End Agreement.

Lemma collect_members_error (ms : list json) :
  forall acc e, collect_members ms acc = Err e -> data_error e = true.
Proof.
  induction ms as [|m ms IH]; intros acc e; [discriminate|].
  cbn [collect_members]. intros H.
  apply rbind_error in H as [H|(ty & _ & H)]; [now apply py_get_error in H|].
  apply rbind_error in H as [H|(keep & _ & H)].
  - destruct (py_eq_str ty "#microsoft.graph.user"); [|discriminate].
    apply rbind_error in H as [H|(d & _ & H)]; [now apply py_get_error in H|].
    destruct (truthy d); [|discriminate].
    apply rbind_error in H as [H|(u & _ & H)]; [now apply py_get_error in H|discriminate].
  - destruct keep; [|eauto].
    apply rbind_error in H as [H|(d & _ & H)]; [now apply py_item_error in H|].
    apply rbind_error in H as [H|(u & _ & H)]; [now apply py_item_error in H|eauto].
Qed.

Lemma display_names_data_error (ms : list json) (e : exn) :
  display_names ms = Err e -> data_error e = true.
Proof.
  induction ms as [|m ms IH]; [discriminate|]. cbn [display_names]. intros H.
  apply rbind_error in H as [H|(b & _ & H)]; [now apply py_in_error in H|].
  destruct b; [|auto].
  apply rbind_error in H as [H|(d & _ & H)]; [now apply py_item_error in H|].
  apply rbind_error in H as [H|(ds & _ & H)]; [auto|discriminate].
Qed.

Lemma py_set_onto_error (l : list json) :
  forall s e, py_set_onto s l = Err e -> data_error e = true.
Proof.
  induction l as [|x l IH]; intros s e; [discriminate|]. cbn [py_set_onto].
  destruct (hashable x); [apply IH | intros [= <-]; reflexivity].
Qed.

Lemma entra_users_map_onto_error (l : list member) :
  forall d e, Script.entra_users_map_onto d l = Err e -> data_error e = true.
Proof.
  induction l as [|u l IH]; intros d e; [discriminate|]. cbn [Script.entra_users_map_onto].
  destruct (hashable (displayName u)); [apply IH | intros [= <-]; reflexivity].
Qed.

Lemma py_lt_error (a b : json) (e : exn) : py_lt a b = Err e -> data_error e = true.
Proof.
  unfold py_lt.
  destruct a, b; cbn; try discriminate; try (intros [= <-]; reflexivity).
Qed.

Lemma insert_sorted_error (x : json) (l : list json) (e : exn) :
  insert_sorted x l = Err e -> data_error e = true.
Proof.
  induction l as [|y l IH]; [discriminate|]. cbn [insert_sorted]. intros H.
  apply rbind_error in H as [H|(b & _ & H)]; [now apply py_lt_error in H|].
  destruct b; [discriminate|].
  apply rbind_error in H as [H|(r & _ & H)]; [auto|discriminate].
Qed.

Lemma py_sorted_error (l : list json) (e : exn) :
  py_sorted l = Err e -> data_error e = true.
Proof.
  induction l as [|x l IH]; [discriminate|]. cbn [py_sorted]. intros H.
  apply rbind_error in H as [H|(s & _ & H)]; [auto|now apply insert_sorted_error in H].
Qed.

Lemma dict_item_error (k : json) (d : dict) (e : exn) :
  dict_item k d = Err e -> data_error e = true.
Proof.
  induction d as [|[k' v] d IH]; cbn [dict_item]; [intros [= <-]; reflexivity|].
  destruct (key_eqb k' k); [discriminate|exact IH].
Qed.

Create HintDb data_errors.

#[local] Hint Resolve py_get_error py_item_error py_first_error py_in_error
  py_iter_error py_len_error py_lt_int_error py_lower_error find_group_error
  find_user_error at_end_error collect_members_error display_names_data_error
  py_set_onto_error entra_users_map_onto_error py_sorted_error dict_item_error
  : data_errors.

Ltac agrees_step :=
  first
    [ apply agrees_ret | apply agrees_log | apply agrees_print | apply agrees_sleep
    | apply agrees_out_of_fuel
    | apply agrees_lift; solve [eauto with data_errors]
    | apply agrees_bind; [|intros ?]
    | match goal with
      | |- agrees (if ?b then _ else _) (if ?b then _ else _) => destruct b
      | |- agrees (match ?x with _ => _ end) (match ?x with _ => _ end) => destruct x
      end ].

Ltac agrees_tac := repeat agrees_step.

Section Fetching.
Context {W : Type}.
Variable serve : W -> request -> response * W.
Hypothesis ok : every_request_succeeds serve.

Lemma answered (w : W) (q : request) :
  exists code body w', serve w q = (Status code body, w') /\ (400 <=? code) = false.
Proof.
  specialize (ok w q). destruct (serve w q) as [[|code body] w']; [discriminate|].
  exists code, body, w'. auto.
Qed.

Lemma agrees_fetch {A} url headers params function_name
      (k1 : Z * json -> M W A) (k2 : json -> M W A) :
  (forall code data, agrees (k1 (code, data)) (k2 data)) ->
  agrees (response <- Requests.requests_get serve url headers params ;;
          Requests.raise_for_status response ;;
          k1 response)
         (response <- Urllib3.http_request serve GET url headers params None ;;
          data <- Urllib3.handle_urllib3_response response function_name ;;
          k2 data).
Proof.
  intros Hk w.
  unfold Requests.requests_get, Requests.raise_for_status, Urllib3.http_request,
    Urllib3.handle_urllib3_response. unfold_monad.
  destruct (answered w (HttpRequest GET url headers params None))
    as (code & body & w' & -> & E4).
  cbn [fst snd]. rewrite E4. cbn [andb].
  specialize (Hk code body w').
  destruct (k1 (code, body) w') as [[[a|e|] t] w1]; cbn [result fst] in Hk |- *;
    try rewrite Hk; auto.
Qed.

Lemma agrees_fetch_try {A} url headers params function_name (h : exn -> M W json)
      (k1 : Z * json -> M W A) (k2 : json -> M W A) :
  (forall code data, agrees (k1 (code, data)) (k2 data)) ->
  agrees (response <- Requests.requests_get serve url headers params ;;
          Requests.raise_for_status response ;;
          k1 response)
         (data <- try_except
                    (response <- Urllib3.http_request serve GET url headers params None ;;
                     Urllib3.handle_urllib3_response response function_name) h ;;
          k2 data).
Proof.
  intros Hk w.
  unfold Requests.requests_get, Requests.raise_for_status, Urllib3.http_request,
    Urllib3.handle_urllib3_response. unfold_monad.
  destruct (answered w (HttpRequest GET url headers params None))
    as (code & body & w' & -> & E4).
  cbn [fst snd]. rewrite E4. cbn [andb].
  specialize (Hk code body w').
  destruct (k1 (code, body) w') as [[[a|e|] t] w1]; cbn [result fst] in Hk |- *;
    try rewrite Hk; auto.
Qed.
End Fetching.

Lemma py_get_attribute_error j k d e : py_get j k d = Err e -> e = AttributeError.
Proof. destruct j; cbn; try discriminate; now intros [= <-]. Qed.

Lemma py_iter_type_error j e : py_iter j = Err e -> e = TypeError.
Proof. destruct j; cbn; try discriminate; now intros [= <-]. Qed.

Section SideBySide.
Context {W : Type}.
Variable serve : W -> request -> response * W.
Variable cfg : config.
Hypothesis ok : every_request_succeeds serve.

Lemma agrees_get_entra_group_id (name : string) (token : json) :
  agrees (Requests.get_entra_group_id serve name token)
         (Urllib3.get_entra_group_id serve name token).
Proof.
  unfold Requests.get_entra_group_id, Urllib3.get_entra_group_id. cbv zeta.
  apply agrees_bind; [apply agrees_log|intros _].
  apply (agrees_fetch_try serve ok). intros code data. cbn [snd]. agrees_tac.
Qed.

Lemma agrees_members_loop (fuel : nat) :
  forall url headers params acc,
    agrees (Requests.get_entra_group_members_loop serve fuel url headers params acc)
           (Urllib3.get_entra_group_members_loop serve fuel url headers params acc).
Proof.
  induction fuel as [|fuel IH]; intros url headers params acc.
  - apply agrees_out_of_fuel.
  - cbn [Requests.get_entra_group_members_loop Urllib3.get_entra_group_members_loop].
    apply (agrees_fetch_try serve ok). intros code data. cbn [snd].
    agrees_tac. apply IH.
Qed.

Lemma agrees_get_entra_group_members (fuel : nat) (group_id token : json) :
  agrees (Requests.get_entra_group_members serve fuel group_id token)
         (Urllib3.get_entra_group_members serve fuel group_id token).
Proof.
  unfold Requests.get_entra_group_members, Urllib3.get_entra_group_members. cbv zeta.
  destruct (negb (truthy group_id)); [apply agrees_ret|].
  apply agrees_bind; [apply agrees_log|intros _].
  apply agrees_bind; [apply agrees_members_loop|intros ms]. agrees_tac.
Qed.

Lemma agrees_group_page (name : string) (start : Z) :
  agrees (Requests.get_netskope_group_id_page serve cfg name start)
         (Urllib3.get_netskope_group_id_page serve cfg name start).
Proof.
  unfold Requests.get_netskope_group_id_page, Urllib3.get_netskope_group_id_page.
  cbv zeta. apply agrees_try.
  - apply (agrees_fetch serve ok). intros code data. cbn [snd]. agrees_tac.
  - intros w e _ R w'. rewrite R. reflexivity.
Qed.

Lemma agrees_user_page (username : json) (start : Z) :
  agrees (Requests.get_netskope_user_id_page serve cfg username start)
         (Urllib3.get_netskope_user_id_page serve cfg username start).
Proof.
  unfold Requests.get_netskope_user_id_page, Urllib3.get_netskope_user_id_page.
  cbv zeta. apply agrees_try.
  - apply (agrees_fetch serve ok). intros code data. cbn [snd]. agrees_tac.
  - intros w e _ R w'. rewrite R. reflexivity.
Qed.

Lemma agrees_paginate (page1 page2 : Z -> M W (option json)) :
  (forall start, agrees (page1 start) (page2 start)) ->
  forall fuel start, agrees (paginate page1 fuel start) (paginate page2 fuel start).
Proof.
  intros Hp. induction fuel as [|fuel IH]; intros start.
  - apply agrees_out_of_fuel.
  - cbn [paginate]. apply agrees_bind; [apply Hp|intros [v|]].
    + apply agrees_ret.
    + apply IH.
Qed.

Lemma agrees_get_netskope_group_id (fuel : nat) (name : string) :
  agrees (Requests.get_netskope_group_id serve cfg fuel name)
         (Urllib3.get_netskope_group_id serve cfg fuel name).
Proof.
  unfold Requests.get_netskope_group_id, Urllib3.get_netskope_group_id.
  apply agrees_bind; [apply agrees_log|intros _].
  intros w. rewrite group_search_paginate, group_search_paginate_urllib3.
  apply agrees_paginate. apply agrees_group_page.
Qed.

Lemma agrees_get_netskope_user_id (fuel : nat) (username : json) :
  agrees (Requests.get_netskope_user_id serve cfg fuel username)
         (Urllib3.get_netskope_user_id serve cfg fuel username).
Proof.
  unfold Requests.get_netskope_user_id, Urllib3.get_netskope_user_id.
  apply agrees_bind; [apply agrees_log|intros _].
  intros w. rewrite user_search_paginate, user_search_paginate_urllib3.
  apply agrees_paginate. apply agrees_user_page.
Qed.

Lemma agrees_get_netskope_group_members (group_id : json) :
  agrees (Requests.get_netskope_group_members serve cfg group_id)
         (Urllib3.get_netskope_group_members serve cfg group_id).
Proof.
  unfold Requests.get_netskope_group_members, Urllib3.get_netskope_group_members.
  cbv zeta. destruct (negb (truthy group_id)); [apply agrees_ret|].
  apply agrees_bind; [apply agrees_log|intros _].
  apply agrees_try.
  - apply (agrees_fetch serve ok). intros code data. cbn [snd]. agrees_tac.
  - intros w e H R w'. rewrite R.
    assert (K : negb (is_KeyError e) = true).
    { revert H.
      match goal with
      | |- result (?b w) = _ -> _ =>
          assert (K : raises_only (fun e => negb (is_KeyError e)) b);
          [|exact (K w e)]
      end.
      unfold Requests.requests_get, Requests.raise_for_status.
      repeat first
        [ apply raises_only_ret | apply raises_only_log | apply raises_only_send
        | apply raises_only_raise; reflexivity
        | apply raises_only_lift; intros e0 He;
          first [ apply py_get_attribute_error in He
                | apply py_iter_type_error in He
                | apply display_names_error in He ];
          subst e0; reflexivity
        | apply raises_only_bind; [|intros ?]
        | match goal with
          | |- raises_only _ (if ?b then _ else _) => destruct b
          | |- raises_only _ (match ?x with _ => _ end) => destruct x
          end ]. }
    apply negb_true_iff in K. rewrite K. reflexivity.
Qed.
Lemma agrees_update_netskope_group (group_id : json) (user_ids_to_add : list json) :
  agrees (Requests.update_netskope_group serve cfg group_id user_ids_to_add)
         (Urllib3.update_netskope_group serve cfg group_id user_ids_to_add).
Proof.
  intros w.
  unfold Requests.update_netskope_group, Urllib3.update_netskope_group,
    Requests.requests_patch, Requests.raise_for_status, Urllib3.http_request.
  destruct (negb (truthy group_id) || _); [reflexivity|].
  unfold_monad.
  match goal with
  | |- context [serve w ?q] => destruct (answered serve ok w q) as (code & body & w' & -> & E4)
  end.
  cbn [fst snd]. rewrite E4.
  assert (E3 : (code <? 400) = true) by lia. rewrite E3. reflexivity.
Qed.
End SideBySide.

Section Scripts.
Context {W : Type}.
Variable serve : W -> request -> response * W.
Variable cfg : config.
Variable set_iter : list json -> list json.
Variables get_entra_group_id get_entra_group_id' : string -> json -> M W json.
Variables get_entra_group_members get_entra_group_members'
  : json -> json -> M W (list member).
Variables get_netskope_group_id get_netskope_group_id' : string -> M W json.
Variables get_netskope_group_members get_netskope_group_members'
  : json -> M W (list json).
Variables get_netskope_user_id get_netskope_user_id' : json -> M W json.
Variables update_netskope_group update_netskope_group' : json -> list json -> M W unit.

Hypothesis agrees_entra_group_id :
  forall n t, agrees (get_entra_group_id n t) (get_entra_group_id' n t).
Hypothesis agrees_entra_group_members :
  forall g t, agrees (get_entra_group_members g t) (get_entra_group_members' g t).
Hypothesis agrees_netskope_group_id :
  forall n, agrees (get_netskope_group_id n) (get_netskope_group_id' n).
Hypothesis agrees_netskope_group_members :
  forall g, agrees (get_netskope_group_members g) (get_netskope_group_members' g).
Hypothesis agrees_netskope_user_id :
  forall u, agrees (get_netskope_user_id u) (get_netskope_user_id' u).
Hypothesis agrees_update :
  forall g ids, agrees (update_netskope_group g ids) (update_netskope_group' g ids).

Lemma agrees_msal (q : request) : agrees (Script.msal serve q) (Script.msal serve q).
Proof.
  intros w. unfold Script.msal. unfold_monad.
  destruct (serve w q) as [[|code body] w']; reflexivity.
Qed.

Lemma agrees_get_access_token :
  agrees (Script.get_access_token serve) (Script.get_access_token serve).
Proof.
  unfold Script.get_access_token.
  repeat first [ apply agrees_msal | apply agrees_raise; reflexivity | agrees_step ].
Qed.

Lemma agrees_print_names (names : list json) :
  agrees (W := W) (Script.print_names names) (Script.print_names names).
Proof.
  induction names as [|n names IH]; cbn [Script.print_names]; [apply agrees_ret|].
  apply agrees_bind; [apply agrees_print|intros _; exact IH].
Qed.

Lemma agrees_find_netskope_ids (names : list json) (um : dict) :
  forall acc,
    agrees (Script.find_netskope_ids get_netskope_user_id names um acc)
           (Script.find_netskope_ids get_netskope_user_id' names um acc).
Proof.
  induction names as [|n names IH]; intros acc; cbn [Script.find_netskope_ids].
  - apply agrees_ret.
  - apply agrees_bind; [apply agrees_lift; eauto with data_errors|intros upn].
    apply agrees_bind; [apply agrees_netskope_user_id|intros id].
    destruct (truthy id); [apply IH|].
    agrees_tac. apply IH.
Qed.

Lemma agrees_main_body :
  agrees (Script.main_body serve cfg set_iter get_entra_group_id get_entra_group_members
            get_netskope_group_id get_netskope_group_members get_netskope_user_id
            update_netskope_group)
         (Script.main_body serve cfg set_iter get_entra_group_id' get_entra_group_members'
            get_netskope_group_id' get_netskope_group_members' get_netskope_user_id'
            update_netskope_group').
Proof.
  unfold Script.main_body, Script.fetch_entra_users, Script.fetch_netskope_users,
    Script.reconcile, Script.update_if_needed, Script.entra_users_map_of, py_set.
  cbv zeta.
  repeat first
    [ apply agrees_get_access_token
    | apply agrees_entra_group_id | apply agrees_entra_group_members
    | apply agrees_netskope_group_id | apply agrees_netskope_group_members
    | apply agrees_update | apply agrees_print_names | apply agrees_find_netskope_ids
    | agrees_step ].
Qed.

Lemma agrees_main (w : W) :
  (forall e, ~ In (error_printed e)
                  (events (Script.main serve cfg set_iter get_entra_group_id
                             get_entra_group_members get_netskope_group_id
                             get_netskope_group_members get_netskope_user_id
                             update_netskope_group w))) ->
  Script.main serve cfg set_iter get_entra_group_id' get_entra_group_members'
    get_netskope_group_id' get_netskope_group_members' get_netskope_user_id'
    update_netskope_group' w
  = Script.main serve cfg set_iter get_entra_group_id get_entra_group_members
      get_netskope_group_id get_netskope_group_members get_netskope_user_id
      update_netskope_group w.
Proof.
  intros H. pose proof (agrees_main_body w) as A.
  rewrite main_run in H. rewrite !main_run.
  destruct (result (Script.main_body serve cfg set_iter get_entra_group_id _ _ _ _ _ w))
    as [[]|e|] eqn:R.
  - rewrite A, R. reflexivity.
  - exfalso. apply (H e). cbn [events fst snd]. apply in_or_app. right. right. left.
    reflexivity.
  - rewrite A, R. reflexivity.
Qed.
End Scripts.

(** X21.  On a service that answers every request with a status below 400,
    each of the six functions of updateUsersURLlib3.py does exactly what its
    counterpart of UpdateEntraUsers.py does (the same outcome, the same
    requests, log records and printed lines in the same order, the same
    final world) whenever the latter does not raise, and the latter raises no
    exception of [requests].  Hence a run of [main] of UpdateEntraUsers.py
    that prints no "An error occurred" line is, event for event, the run of
    [main] of updateUsersURLlib3.py from the same world. *)
Theorem scripts_agree_when_every_request_succeeds
  {W : Type} (serve : W -> request -> response * W) (cfg : config)
  (set_iter : list json -> list json) (fuel : nat) :
  every_request_succeeds serve ->
  (forall name token,
      agrees (Requests.get_entra_group_id serve name token)
             (Urllib3.get_entra_group_id serve name token))
  /\ (forall group_id token,
         agrees (Requests.get_entra_group_members serve fuel group_id token)
                (Urllib3.get_entra_group_members serve fuel group_id token))
  /\ (forall name,
         agrees (Requests.get_netskope_group_id serve cfg fuel name)
                (Urllib3.get_netskope_group_id serve cfg fuel name))
  /\ (forall group_id,
         agrees (Requests.get_netskope_group_members serve cfg group_id)
                (Urllib3.get_netskope_group_members serve cfg group_id))
  /\ (forall username,
         agrees (Requests.get_netskope_user_id serve cfg fuel username)
                (Urllib3.get_netskope_user_id serve cfg fuel username))
  /\ (forall group_id user_ids_to_add,
         agrees (Requests.update_netskope_group serve cfg group_id user_ids_to_add)
                (Urllib3.update_netskope_group serve cfg group_id user_ids_to_add))
  /\ (forall w,
         (forall e, ~ In (error_printed e)
                         (events (Requests.main serve cfg set_iter fuel w))) ->
         Urllib3.main serve cfg set_iter fuel w = Requests.main serve cfg set_iter fuel w).
Proof.
  intros ok.
  pose proof (agrees_get_entra_group_id serve ok) as A1.
  pose proof (agrees_get_entra_group_members serve ok fuel) as A2.
  pose proof (agrees_get_netskope_group_id serve cfg ok fuel) as A3.
  pose proof (agrees_get_netskope_group_members serve cfg ok) as A4.
  pose proof (agrees_get_netskope_user_id serve cfg ok fuel) as A5.
  pose proof (agrees_update_netskope_group serve cfg ok) as A6.
  repeat (split; [assumption|]).
  intros w H. unfold Urllib3.main, Requests.main in *.
  now apply agrees_main.
Qed.

Lemma scripts_agree_when_every_request_succeeds_witness :
  let x := Requests.main example_service published_cfg in_order 5 tt in
  Urllib3.main example_service published_cfg in_order 5 tt = x
  /\ patch_sent (events x) = true.
Proof.
  intros x.
  destruct (scripts_agree_when_every_request_succeeds example_service published_cfg
              in_order 5) as (_ & _ & _ & _ & _ & _ & H).
  - intros [] q. unfold example_service. destruct q as [| |[|] url h p b]; try reflexivity.
    cbn [fst].
    repeat match goal with |- context [if ?c then _ else _] => destruct c end;
      reflexivity.
  - split; [|reflexivity].
    apply H. intros e He. vm_compute in He.
    repeat (destruct He as [He|He]; [discriminate He|]). exact He.
Defined.
